(** * dripline-go: the AMQP service of [dripline/service.go]

    A shallow embedding of the service's connection/channel lifecycle,
    its event-routing loop and its request/reply correlator.

    Every goroutine body is a function in the monad [Go]: it threads the
    shared [AmqpService] object and the log of observable actions (calls
    on the amqp client library, log lines, sleeps, Go-channel sends), and
    it ends in one of three ways: it returns, it parks on a Go-channel
    operation that cannot proceed, or it panics.

    - What the broker answers to each call is read from the [Broker]
      oracle of the world, so every statement holds for every broker.
    - The [select] of the event router is driven by a schedule: the list
      of the sources it services, in order. A source that has nothing to
      deliver leaves the router waiting.
    - The goroutine started by [SendRequest] is a function of what ends
      its wait: the first delivery or the timer.
    - The caller of [StartService] waits on [DoneSignal] while the
      service goroutine runs; a send on [DoneSignal] hands its value to
      a waiting caller.
    - A log line is recorded with its level and its format string; a
      double quote inside a format string is written as a single
      quote. *)

From Stdlib Require Import String List ZArith Bool Lia.
From Stdlib.Strings Require Import Byte.
Import ListNotations.
Local Open Scope string_scope.
Local Open Scope list_scope.

Set Implicit Arguments.

(* ================================================================= *)
(** ** Go values *)

(** A Go [error]: [None] is [nil]. *)
Definition error := option string.

Definition is_nil {A : Type} (o : option A) : bool :=
  match o with None => true | Some _ => false end.

(** Go's [int] on the 64-bit targets, as a [Z] in two's complement. *)
Definition int_wrap (z : Z) : Z := ((z + 2 ^ 63) mod 2 ^ 64 - 2 ^ 63)%Z.
Definition int_incr (z : Z) : Z := int_wrap (z + 1).

(** [time.Duration] counts nanoseconds. *)
Definition Duration := Z.
Definition Second : Duration := 1000000000%Z.

(** A buffered Go channel [make(chan A, cap)]. *)
Module Chan.

Record chan (A : Type) : Type := Make {
  cap : nat;
  buf : list A;
  closed : bool
}.

Arguments Make {A}.
Arguments cap {A}.
Arguments buf {A}.
Arguments closed {A}.

Definition make (A : Type) (n : nat) : chan A := Make n [] false.

Inductive SendResult (A : Type) : Type :=
| Sent (c : chan A)
| SendBlocks
| SendPanics.

Arguments SendBlocks {A}.
Arguments SendPanics {A}.

(** [c <- v]: panics on a closed channel, parks while the buffer is
    full, appends otherwise. *)
Definition send {A : Type} (c : chan A) (v : A) : SendResult A :=
  if closed c then SendPanics
  else if Nat.ltb (List.length (buf c)) (cap c)
       then Sent (Make (cap c) (buf c ++ [v]) (closed c))
       else SendBlocks.

Inductive RecvResult (A : Type) : Type :=
| Received (v : A) (c : chan A)
| RecvClosed
| RecvNotReady.

Arguments RecvClosed {A}.
Arguments RecvNotReady {A}.

(** [v, chanOpen := <-c] as a select case: the oldest buffered value,
    [chanOpen = false] on a drained closed channel, not ready
    otherwise. *)
Definition recv {A : Type} (c : chan A) : RecvResult A :=
  match buf c with
  | v :: rest => Received v (Make (cap c) rest (closed c))
  | [] => if closed c then RecvClosed else RecvNotReady
  end.

Definition full {A : Type} (c : chan A) : bool :=
  negb (Nat.ltb (List.length (buf c)) (cap c)).

(** A send on [c] completes at once. *)
Definition has_room {A : Type} (c : chan A) : bool :=
  negb (closed c) && negb (full c).

End Chan.
Import Chan.

(* ================================================================= *)
(** ** Messages *)

(** The sender info of message.go, with the fields that
    [fillDriplineSenderInfo] fills in. *)
Record SenderInfo : Type := MkSenderInfo {
  Package : string;
  Exe : string;
  Hostname : string;
  Username : string
}.

(** Modelled from the spec: the message types of message.go, which the
    service uses and which are not part of service.go. The data model of
    the spec gives four message kinds, *)
Inductive MsgCodeT : Type := MTReply | MTRequest | MTAlert | MTInfo.

(** Modelled from the spec: the envelope shared by the four kinds
    ([MsgType], [Target], [Encoding], [ReplyTo], [CorrId], the sender
    info, and the exchange, which is resolved per kind), *)
Record Message : Type := MkMessage {
  MsgType : MsgCodeT;
  Target : string;
  Encoding : string;
  ReplyTo : string;
  CorrId : string;
  MsgSenderInfo : SenderInfo;
  exchange : string
}.

(** Modelled from the spec: the result code of a Reply, of which the
    service names the timeout code only, *)
Inductive MsgCode : Type := RCErrDripTimeout | RCOther (code : Z).

(** Modelled from the spec: and the four closed variants, each the
    envelope with its kind-specific payload (operation for a Request,
    result code and message for a Reply, content for an Alert or an
    Info). *)
Record Request : Type := MkRequest {
  RequestMessage : Message; MsgOp : Z; RequestPayload : string }.
Record Reply : Type := MkReply {
  ReplyMessage : Message; RetCode : MsgCode; ReturnMsg : string;
  ReplyPayload : string }.
Record Alert : Type := MkAlert {
  AlertMessage : Message; AlertPayload : string }.
Record Info : Type := MkInfo {
  InfoMessage : Message; InfoPayload : string }.

Definition set_ReplyTo (m : Message) (q : string) : Message :=
  MkMessage (MsgType m) (Target m) (Encoding m) q (CorrId m)
            (MsgSenderInfo m) (exchange m).

(** [toSend.ReplyTo = queueName] *)
Definition Request_set_ReplyTo (r : Request) (q : string) : Request :=
  MkRequest (set_ReplyTo (RequestMessage r) q) (MsgOp r) (RequestPayload r).

(** Modelled from the spec: PrepareReplyToRequest of message.go. The
    synthesized Reply carries the given status code and message, the
    correlation id of the request it answers, and the sender info of the
    service; it is addressed to the request's reply-to key. *)
Definition PrepareReplyToRequest (request : Request) (retCode : MsgCode)
           (returnMsg : string) (senderInfo : SenderInfo) : Reply :=
  let m := RequestMessage request in
  MkReply (MkMessage MTReply (ReplyTo m) (Encoding m) EmptyString (CorrId m)
                     senderInfo (exchange m))
          retCode returnMsg EmptyString.

(** What a delivery decodes to. *)
Inductive Decoded : Type :=
| DRequest (request : Request)
| DReply (reply : Reply)
| DAlert (alert : Alert)
| DInfo (info : Info).

(* ================================================================= *)
(** ** The broker as the service sees it *)

Definition ConnId := nat.
Definition ChannelId := nat.
Definition StreamId := nat.

(** [amqp.Delivery]: one message instance handed out by a consumer. *)
Record Delivery : Type := MkDelivery {
  DeliveryTag : N;
  ContentEncoding : string;
  DeliveryReplyTo : string;
  CorrelationId : string;
  Body : list byte
}.

(** [amqp.Publishing], the fields [send] fills in. *)
Record Publishing : Type := MkPublishing {
  PubContentEncoding : string;
  PubBody : list byte;
  PubReplyTo : string;
  PubCorrelationId : string
}.

(** Every call the service makes on the amqp client library, with the
    arguments in the order of the library's signatures. *)
Inductive BrokerCall : Type :=
| Dial (url : string)
| ConnChannel (c : ConnId)
| ConnNotifyClose (c : ConnId)
| ConnClose (c : ConnId)
| QueueDeclare (ch : ChannelId) (name : string)
               (durable autoDelete exclusive noWait : bool)
| QueueBind (ch : ChannelId) (name key exch : string) (noWait : bool)
| Consume (ch : ChannelId) (queue consumer : string)
          (autoAck exclusive noLocal noWait : bool)
| ExchangeDeclare (ch : ChannelId) (name kind : string)
                  (durable autoDelete internal noWait : bool)
| NotifyCancel (ch : ChannelId)
| NotifyClose (ch : ChannelId)
| QueueDelete (ch : ChannelId) (name : string)
              (ifUnused ifEmpty noWait : bool)
| ChannelClose (ch : ChannelId)
| Publish (ch : ChannelId) (exch key : string)
          (mandatory immediate : bool) (msg : Publishing)
| Ack (d : Delivery) (multiple : bool).

(** The broker's side of an execution. [answer n] is the error of the
    [n]-th call made on the client library ([None]: the call succeeds);
    [assignedName n] is the name the broker gives to a queue declared
    with the empty name by call [n]. *)
Record Broker : Type := MkBroker {
  answer : nat -> error;
  assignedName : nat -> string
}.

(** The process environment read by [fillDriplineSenderInfo], and the
    uuid generator. *)
Record Host : Type := MkHost {
  osext_Executable : string * error;
  os_Hostname : string * error;
  user_Current : string * error;
  uuid_New : nat -> string
}.

(** The codec of message.go, which service.go calls and does not define:
    taken as a parameter. [Encode] has a pointer receiver, so it may
    also update the message it encodes. *)
Record Codec : Type := MkCodec {
  decode : Delivery -> Decoded + string;
  EncodeRequest : Request -> Request * list byte * error;
  EncodeReply : Reply -> Reply * list byte * error;
  EncodeAlert : Alert -> Alert * list byte * error;
  EncodeInfo : Info -> Info * list byte * error
}.

(* ================================================================= *)
(** ** The service object *)

Record AmqpReceiver : Type := MkReceiver {
  QueueName : string;
  RequestChan : chan Request;
  AlertChan : chan Alert;
  InfoChan : chan Info;
  subscriptionCount : Z;
  (** the delivery stream of the last successful [Consume]; [None] is
      the nil channel *)
  messageQueue : option StreamId
}.

Record AmqpSender : Type := MkSender {
  RequestExchangeName : string;
  AlertExchangeName : string;
  InfoExchangeName : string;
  requestChan : chan Request;
  replyChan : chan Reply;
  alertChan : chan Alert;
  infoChan : chan Info
}.

Record AmqpService : Type := MkService {
  BrokerAddress : string;
  Connected : bool;
  DoneSignal : chan bool;
  Receiver : AmqpReceiver;
  Sender : AmqpSender;
  channel : option ChannelId;
  connection : option ConnId;
  stopQueue : chan bool;
  senderInfo : SenderInfo
}.

(** Field updates. *)
Definition set_QueueName (q : string) (r : AmqpReceiver) : AmqpReceiver :=
  MkReceiver q (RequestChan r) (AlertChan r) (InfoChan r)
             (subscriptionCount r) (messageQueue r).
Definition set_RequestChan (c : chan Request) (r : AmqpReceiver) :=
  MkReceiver (QueueName r) c (AlertChan r) (InfoChan r)
             (subscriptionCount r) (messageQueue r).
Definition set_AlertChan (c : chan Alert) (r : AmqpReceiver) :=
  MkReceiver (QueueName r) (RequestChan r) c (InfoChan r)
             (subscriptionCount r) (messageQueue r).
Definition set_InfoChan (c : chan Info) (r : AmqpReceiver) :=
  MkReceiver (QueueName r) (RequestChan r) (AlertChan r) c
             (subscriptionCount r) (messageQueue r).
Definition set_subscriptionCount (n : Z) (r : AmqpReceiver) :=
  MkReceiver (QueueName r) (RequestChan r) (AlertChan r) (InfoChan r)
             n (messageQueue r).
Definition set_messageQueue (q : option StreamId) (r : AmqpReceiver) :=
  MkReceiver (QueueName r) (RequestChan r) (AlertChan r) (InfoChan r)
             (subscriptionCount r) q.

Definition set_requestChan (c : chan Request) (s : AmqpSender) :=
  MkSender (RequestExchangeName s) (AlertExchangeName s) (InfoExchangeName s)
           c (replyChan s) (alertChan s) (infoChan s).
Definition set_replyChan (c : chan Reply) (s : AmqpSender) :=
  MkSender (RequestExchangeName s) (AlertExchangeName s) (InfoExchangeName s)
           (requestChan s) c (alertChan s) (infoChan s).
Definition set_alertChan (c : chan Alert) (s : AmqpSender) :=
  MkSender (RequestExchangeName s) (AlertExchangeName s) (InfoExchangeName s)
           (requestChan s) (replyChan s) c (infoChan s).
Definition set_infoChan (c : chan Info) (s : AmqpSender) :=
  MkSender (RequestExchangeName s) (AlertExchangeName s) (InfoExchangeName s)
           (requestChan s) (replyChan s) (alertChan s) c.

Definition set_BrokerAddress (a : string) (s : AmqpService) :=
  MkService a (Connected s) (DoneSignal s) (Receiver s) (Sender s)
            (channel s) (connection s) (stopQueue s) (senderInfo s).
Definition set_Connected (b : bool) (s : AmqpService) :=
  MkService (BrokerAddress s) b (DoneSignal s) (Receiver s) (Sender s)
            (channel s) (connection s) (stopQueue s) (senderInfo s).
Definition set_DoneSignal (c : chan bool) (s : AmqpService) :=
  MkService (BrokerAddress s) (Connected s) c (Receiver s) (Sender s)
            (channel s) (connection s) (stopQueue s) (senderInfo s).
Definition set_Receiver (r : AmqpReceiver) (s : AmqpService) :=
  MkService (BrokerAddress s) (Connected s) (DoneSignal s) r (Sender s)
            (channel s) (connection s) (stopQueue s) (senderInfo s).
Definition set_Sender (r : AmqpSender) (s : AmqpService) :=
  MkService (BrokerAddress s) (Connected s) (DoneSignal s) (Receiver s) r
            (channel s) (connection s) (stopQueue s) (senderInfo s).
Definition set_channel (c : option ChannelId) (s : AmqpService) :=
  MkService (BrokerAddress s) (Connected s) (DoneSignal s) (Receiver s)
            (Sender s) c (connection s) (stopQueue s) (senderInfo s).
Definition set_connection (c : option ConnId) (s : AmqpService) :=
  MkService (BrokerAddress s) (Connected s) (DoneSignal s) (Receiver s)
            (Sender s) (channel s) c (stopQueue s) (senderInfo s).
Definition set_stopQueue (c : chan bool) (s : AmqpService) :=
  MkService (BrokerAddress s) (Connected s) (DoneSignal s) (Receiver s)
            (Sender s) (channel s) (connection s) c (senderInfo s).
Definition set_senderInfo (i : SenderInfo) (s : AmqpService) :=
  MkService (BrokerAddress s) (Connected s) (DoneSignal s) (Receiver s)
            (Sender s) (channel s) (connection s) (stopQueue s) i.

Definition on_Receiver (f : AmqpReceiver -> AmqpReceiver) (s : AmqpService) :=
  set_Receiver (f (Receiver s)) s.
Definition on_Sender (f : AmqpSender -> AmqpSender) (s : AmqpService) :=
  set_Sender (f (Sender s)) s.

(** ServiceDefaults sets up a Service struct with the default values. *)
Definition ServiceDefaults : AmqpService :=
  {| BrokerAddress := "localhost";
     Connected := false;
     DoneSignal := Chan.make bool 1;
     Receiver := {| QueueName := "my_queue";
                    RequestChan := Chan.make Request 100;
                    AlertChan := Chan.make Alert 100;
                    InfoChan := Chan.make Info 100;
                    subscriptionCount := 0;
                    messageQueue := None |};
     Sender := {| RequestExchangeName := "requests";
                  AlertExchangeName := "alerts";
                  InfoExchangeName := "requests";
                  requestChan := Chan.make Request 100;
                  replyChan := Chan.make Reply 100;
                  alertChan := Chan.make Alert 100;
                  infoChan := Chan.make Info 100 |};
     channel := None;
     connection := None;
     stopQueue := Chan.make bool 5;
     senderInfo := MkSenderInfo EmptyString EmptyString EmptyString EmptyString |}.

(* ================================================================= *)
(** ** Observable actions *)

Inductive Level : Type := Debug | LInfo | Notice | Warning | LError | Critical.

Inductive ChanName : Type :=
| DoneSignalC | stopQueueC
| RequestChanC | AlertChanC | InfoChanC
| requestChanC | replyChanC | alertChanC | infoChanC
| replyChanFullC.

Inductive Value : Type :=
| VBool (b : bool)
| VRequest (r : Request)
| VReply (r : Reply)
| VAlert (a : Alert)
| VInfo (i : Info).

Inductive Event : Type :=
(** call number [n] on the client library, and the error it returned *)
| EvCall (n : nat) (c : BrokerCall) (e : error)
| EvLog (l : Level) (msg : string)
| EvSleep (d : Duration)
(** a completed send on a Go channel *)
| EvSend (c : ChanName) (v : Value).

(** The caller of [StartService], which waits on [DoneSignal] while the
    service goroutine runs. *)
Inductive StartCall : Type :=
| NoStartCall
| AwaitingDone
| GotDone (isDone : bool).

(** Everything an execution depends on. [trace] is the log of actions,
    most recent first. *)
Record World : Type := MkWorld {
  service : AmqpService;
  broker : Broker;
  host : Host;
  codec : Codec;
  ncalls : nat;
  nuuid : nat;
  startCall : StartCall;
  (** the result channels made by [SendRequest], by allocation order *)
  replyChans : list (chan Reply);
  trace : list Event
}.

Definition set_service (s : AmqpService) (w : World) : World :=
  MkWorld s (broker w) (host w) (codec w) (ncalls w) (nuuid w)
          (startCall w) (replyChans w) (trace w).
Definition set_ncalls (n : nat) (w : World) : World :=
  MkWorld (service w) (broker w) (host w) (codec w) n (nuuid w)
          (startCall w) (replyChans w) (trace w).
Definition set_nuuid (n : nat) (w : World) : World :=
  MkWorld (service w) (broker w) (host w) (codec w) (ncalls w) n
          (startCall w) (replyChans w) (trace w).
Definition set_startCall (c : StartCall) (w : World) : World :=
  MkWorld (service w) (broker w) (host w) (codec w) (ncalls w) (nuuid w)
          c (replyChans w) (trace w).
Definition set_replyChans (l : list (chan Reply)) (w : World) : World :=
  MkWorld (service w) (broker w) (host w) (codec w) (ncalls w) (nuuid w)
          (startCall w) l (trace w).
Definition set_trace (t : list Event) (w : World) : World :=
  MkWorld (service w) (broker w) (host w) (codec w) (ncalls w) (nuuid w)
          (startCall w) (replyChans w) t.

(** The actions of [w'] in the order they happened. *)
Definition events (w : World) : list Event := rev (trace w).

(** [w'] extends [w] by exactly the actions [l], in that order. *)
Definition emitted (w w' : World) (l : list Event) : Prop :=
  trace w' = rev l ++ trace w.

(* ================================================================= *)
(** ** The monad of goroutine bodies *)

Inductive Outcome (A : Type) : Type :=
| Returns (a : A) (w : World)
(** parked on a Go-channel operation that cannot proceed in [w] *)
| Blocks (w : World)
| Panics (w : World).

Arguments Blocks {A}.
Arguments Panics {A}.

Definition Go (A : Type) : Type := World -> Outcome A.

Definition ret {A : Type} (a : A) : Go A := fun w => Returns a w.

Definition bind {A B : Type} (m : Go A) (k : A -> Go B) : Go B :=
  fun w => match m w with
           | Returns a w' => k a w'
           | Blocks w' => Blocks w'
           | Panics w' => Panics w'
           end.

Declare Scope go_scope.
Delimit Scope go_scope with go.
Notation "x <- m ;; k" := (bind m (fun x => k))
  (at level 61, m at next level, right associativity) : go_scope.
Notation "m ;; k" := (bind m (fun _ => k))
  (at level 61, right associativity) : go_scope.
Local Open Scope go_scope.

Definition final {A : Type} (o : Outcome A) : World :=
  match o with Returns _ w | Blocks w | Panics w => w end.

Definition panic {A : Type} : Go A := fun w => Panics w.
Definition gets {A : Type} (f : AmqpService -> A) : Go A :=
  fun w => Returns (f (service w)) w.
Definition modify (f : AmqpService -> AmqpService) : Go unit :=
  fun w => Returns tt (set_service (f (service w)) w).
Definition emit (e : Event) : Go unit :=
  fun w => Returns tt (set_trace (e :: trace w) w).
Definition log (l : Level) (msg : string) : Go unit := emit (EvLog l msg).
Definition time_Sleep (d : Duration) : Go unit := emit (EvSleep d).
Definition when (b : bool) (m : Go unit) : Go unit :=
  if b then m else ret tt.

(** A call on the client library: the broker's answer to call number
    [ncalls], which is also returned to name what the call creates. *)
Definition call (c : BrokerCall) : Go (nat * error) :=
  fun w =>
    let n := ncalls w in
    let e := answer (broker w) n in
    Returns (n, e) (set_ncalls (S n) (set_trace (EvCall n c e :: trace w) w)).

(** Calls that hand back a fresh object or an error. *)
Definition fresh (c : BrokerCall) : Go (nat + string) :=
  r <- call c ;;
  match snd r with
  | None => ret (inl (fst r))
  | Some e => ret (inr e)
  end.

(** A method called through a nil [*amqp.Channel] or [*amqp.Connection]
    dereferences it and panics. *)
Definition deref {A : Type} (p : option nat) (k : nat -> Go A) : Go A :=
  match p with
  | Some x => k x
  | None => panic
  end.

(** A Go channel held in a field of the service. *)
Record Field (A : Type) : Type := MkField {
  fname : ChanName;
  fget : AmqpService -> chan A;
  fset : chan A -> AmqpService -> AmqpService;
  finj : A -> Value
}.

Definition f_stopQueue := MkField stopQueueC stopQueue set_stopQueue VBool.
Definition f_DoneSignal := MkField DoneSignalC DoneSignal set_DoneSignal VBool.
Definition f_RequestChan :=
  MkField RequestChanC (fun s => RequestChan (Receiver s))
          (fun c => on_Receiver (set_RequestChan c)) VRequest.
Definition f_AlertChan :=
  MkField AlertChanC (fun s => AlertChan (Receiver s))
          (fun c => on_Receiver (set_AlertChan c)) VAlert.
Definition f_InfoChan :=
  MkField InfoChanC (fun s => InfoChan (Receiver s))
          (fun c => on_Receiver (set_InfoChan c)) VInfo.
Definition f_requestChan :=
  MkField requestChanC (fun s => requestChan (Sender s))
          (fun c => on_Sender (set_requestChan c)) VRequest.
Definition f_replyChan :=
  MkField replyChanC (fun s => replyChan (Sender s))
          (fun c => on_Sender (set_replyChan c)) VReply.
Definition f_alertChan :=
  MkField alertChanC (fun s => alertChan (Sender s))
          (fun c => on_Sender (set_alertChan c)) VAlert.
Definition f_infoChan :=
  MkField infoChanC (fun s => infoChan (Sender s))
          (fun c => on_Sender (set_infoChan c)) VInfo.

(** [service.f <- v] *)
Definition chan_send {A : Type} (f : Field A) (v : A) : Go unit :=
  fun w =>
    match Chan.send (fget f (service w)) v with
    | Sent c =>
        Returns tt (set_trace (EvSend (fname f) (finj f v) :: trace w)
                              (set_service (fset f c (service w)) w))
    | SendBlocks => Blocks w
    | SendPanics => Panics w
    end.

(** [service.DoneSignal <- b]. A caller of [StartService] that waits on
    the empty channel takes the value directly; otherwise this is a send
    like any other. *)
Definition send_DoneSignal (b : bool) : Go unit :=
  fun w =>
    match startCall w, buf (DoneSignal (service w)) with
    | AwaitingDone, [] =>
        if closed (DoneSignal (service w)) then Panics w
        else Returns tt (set_startCall (GotDone b)
                           (set_trace (EvSend DoneSignalC (VBool b) :: trace w) w))
    | _, _ => chan_send f_DoneSignal b w
    end.

(** [make(chan Reply, 1)]: a new channel in the store; its index is the
    handle. *)
Definition make_replyChan : Go nat :=
  fun w => Returns (List.length (replyChans w))
                   (set_replyChans (replyChans w ++ [Chan.make Reply 1]) w).

Fixpoint put_nth {A : Type} (i : nat) (x : A) (l : list A) : list A :=
  match l, i with
  | [], _ => []
  | _ :: t, O => x :: t
  | h :: t, S j => h :: put_nth j x t
  end.

(** [replyChanFull <- reply] on the channel with handle [h]. *)
Definition replyChan_send (h : nat) (reply : Reply) : Go unit :=
  fun w =>
    match nth_error (replyChans w) h with
    | None => Blocks w
    | Some c =>
        match Chan.send c reply with
        | Sent c' =>
            Returns tt (set_trace (EvSend replyChanFullC (VReply reply) :: trace w)
                                  (set_replyChans (put_nth h c' (replyChans w)) w))
        | SendBlocks => Blocks w
        | SendPanics => Panics w
        end
    end.

(** Modelled from the spec: DecodeAndHandle of message.go. It decodes
    the delivery; a decode failure is returned to the caller and no
    handler runs; on success exactly the handler of the decoded kind
    runs, and [nil] is returned. *)
Definition DecodeAndHandle (d : Delivery)
           (requestHandler : Request -> Go unit)
           (replyHandler : Reply -> Go unit)
           (alertHandler : Alert -> Go unit)
           (infoHandler : Info -> Go unit) : Go error :=
  fun w =>
    match decode (codec w) d with
    | inr decodeErr => Returns (Some decodeErr) w
    | inl (DRequest request) => (requestHandler request ;; ret None) w
    | inl (DReply reply) => (replyHandler reply ;; ret None) w
    | inl (DAlert alert) => (alertHandler alert ;; ret None) w
    | inl (DInfo info) => (infoHandler info ;; ret None) w
    end.

(* ================================================================= *)
(** ** Send-message functions *)

(** What [SendRequest] leaves behind when its setup succeeds: the
    variables captured by the goroutine it starts. [replyChanFull] is the
    handle of the channel returned to the caller. *)
Record ReplyWait : Type := MkReplyWait {
  replyChannel : ChannelId;
  amqpReplyChan : StreamId;
  waitRequest : Request;
  replyTimeout : Duration;
  replyChanFull : nat
}.

(** SendRequest sends a Request message. It creates a reply queue, begins
    consuming on it, and returns the channel on which the client can wait
    for the Reply message. The first component is the returned
    [replyChan] ([None]: the nil channel), the second is [e]. *)
Definition SendRequest (toSend : Request) (timeout : Duration)
  : Go (option ReplyWait * error) :=
  log Debug "Submitting request to send" ;;
  conn <- gets connection ;;
  deref conn (fun c =>
  r <- fresh (ConnChannel c) ;;
  match r with
  | inr chanErr =>
      log Critical "Unable to get the reply channel:\n\t%v" ;;
      send_DoneSignal true ;;
      ret (None, None)
  | inl replyChannel =>
      log Debug "Channel with AMQP broker established" ;;
      d <- call (QueueDeclare replyChannel EmptyString false true true false) ;;
      match snd d with
      | Some declareErr =>
          log LError "Unable to declare the reply queue: %v" ;;
          ret (None, Some declareErr)
      | None =>
          fun w =>
          (let queueName := assignedName (broker w) (fst d) in
           let toSend := Request_set_ReplyTo toSend queueName in
           exch <- gets (fun s => RequestExchangeName (Sender s)) ;;
           b <- call (QueueBind replyChannel queueName queueName exch false) ;;
           match snd b with
           | Some bindErr =>
               log LError "Unable to bind the reply queue <%s>:\n\t%v" ;;
               ret (None, Some bindErr)
           | None =>
               cn <- fresh (Consume replyChannel queueName EmptyString
                                    false true true false) ;;
               match cn with
               | inr consumeErr =>
                   log LError
                       "Unable start consuming from reply queue <%s>:\n\t%v" ;;
                   ret (None, Some consumeErr)
               | inl amqpReplyChan =>
                   chan_send f_requestChan toSend ;;
                   log Debug "Request sent" ;;
                   replyChanFull <- make_replyChan ;;
                   ret (Some (MkReplyWait replyChannel amqpReplyChan toSend
                                          timeout replyChanFull), None)
               end
           end) w
      end
  end).

(** What ends the wait of the goroutine started by [SendRequest]: the
    first delivery on the reply stream, or the timer. *)
Inductive Arrival : Type :=
| Delivered (amqpMessage : Delivery)
| TimedOut.

(** The goroutine started by [SendRequest], from the moment its wait is
    over. *)
Definition replyTask (p : ReplyWait) (a : Arrival) : Go unit :=
  messageReceived <-
    match a with
    | Delivered amqpMessage => ret (Some amqpMessage)
    | TimedOut =>
        if (replyTimeout p <=? 0)%Z
        then (fun w => Blocks w) (* no timer runs: wait with no timeout *)
        else
          log Warning "Timed out waiting for reply" ;;
          info <- gets senderInfo ;;
          replyChan_send (replyChanFull p)
            (PrepareReplyToRequest (waitRequest p) RCErrDripTimeout
                                   "Timeout while waiting for reply" info) ;;
          ret None
    end ;;
  returned <-
    match messageReceived with
    | Some amqpMessage =>
        (* Send an acknowledgement to the broker *)
        call (Ack amqpMessage false) ;;
        (* Decode and handle the message -- only replies are expected *)
        decodeErr <- DecodeAndHandle amqpMessage
          (fun request =>
             log LError "Unexpected request received while waiting for a reply")
          (fun reply => replyChan_send (replyChanFull p) reply)
          (fun alert =>
             log LError "Unexpected alert received while waiting for a reply")
          (fun info =>
             log LError "Unexpected info received while waiting for a reply") ;;
        match decodeErr with
        | Some _ =>
            log LError "An error occurred while decoding a message: \n\t%v" ;;
            ret true
        | None => ret false
        end
    | None => ret false
    end ;;
  if returned : bool then ret tt
  else
    log Debug "Closing the reply channel" ;;
    r <- call (ChannelClose (replyChannel p)) ;;
    when (negb (is_nil (snd r)))
         (log LError "Error while closing reply queue:\n\t%v").

(** SendReply sends a Reply message. *)
Definition SendReply (toSend : Reply) : Go error :=
  chan_send f_replyChan toSend ;;
  ret None.

(** SendAlert sends an Alert message. *)
Definition SendAlert (toSend : Alert) : Go error :=
  chan_send f_alertChan toSend ;;
  ret None.

(** SendInfo sends an Info message. *)
Definition SendInfo (toSend : Info) : Go error :=
  chan_send f_infoChan toSend ;;
  ret None.

(** Stop interrupts and halts the AMQP service. *)
Definition Stop : Go unit :=
  log Debug "Submitting stop request" ;;
  chan_send f_stopQueue true.

(* ================================================================= *)
(** ** Subscribe functions *)

Definition beginConsuming : Go unit :=
  (* Start consuming messages on the queue if there are subscriptions *)
  n <- gets (fun s => subscriptionCount (Receiver s)) ;;
  if (n =? 0)%Z then ret tt
  else
    ch <- gets channel ;;
    queue <- gets (fun s => QueueName (Receiver s)) ;;
    deref ch (fun c =>
    r <- fresh (Consume c queue EmptyString false true true false) ;;
    match r with
    | inr consumeErr =>
        log Critical "Unable start consuming from queue <%s>:\n\t%v" ;;
        send_DoneSignal true
    | inl messageQueue =>
        modify (on_Receiver (set_messageQueue (Some messageQueue))) ;;
        log Debug "Started consuming on queue %s" ;;
        (* reset the amqpLoop, because the message queue has been updated *)
        chan_send f_stopQueue false
    end).

Definition notConnected : string := "Service is not connected to a broker".

(** The body shared, up to the exchange, by the three Subscribe
    functions. *)
Definition subscribeTo (exchangeName : AmqpSender -> string)
           (routingKey : string) : Go error :=
  connected <- gets Connected ;;
  if Bool.eqb connected false then ret (Some notConnected)
  else
    ch <- gets channel ;;
    queue <- gets (fun s => QueueName (Receiver s)) ;;
    exch <- gets (fun s => exchangeName (Sender s)) ;;
    deref ch (fun c =>
    r <- call (QueueBind c queue routingKey exch false) ;;
    match snd r with
    | Some e => ret (Some e)
    | None =>
        modify (on_Receiver (fun r =>
                  set_subscriptionCount (int_incr (subscriptionCount r)) r)) ;;
        beginConsuming ;;
        log Debug "Subscription established: ex(%s) @ rk(%s) --> q(%s)" ;;
        ret None
    end).

(** SubscribeToRequests binds the Requests exchange to the service's
    queue with the given routing key. *)
Definition SubscribeToRequests (routingKey : string) : Go error :=
  subscribeTo RequestExchangeName routingKey.

(** SubscribeToAlerts binds the Alerts exchange to the service's queue
    with the given routing key. *)
Definition SubscribeToAlerts (routingKey : string) : Go error :=
  subscribeTo AlertExchangeName routingKey.

(** SubscribeToInfos binds the Infos exchange to the service's queue with
    the given routing key. *)
Definition SubscribeToInfos (routingKey : string) : Go error :=
  subscribeTo InfoExchangeName routingKey.

(* ================================================================= *)
(** ** Private functions *)

Definition set_Package (x : string) (i : SenderInfo) :=
  MkSenderInfo x (Exe i) (Hostname i) (Username i).
Definition set_Exe (x : string) (i : SenderInfo) :=
  MkSenderInfo (Package i) x (Hostname i) (Username i).
Definition set_Hostname (x : string) (i : SenderInfo) :=
  MkSenderInfo (Package i) (Exe i) x (Username i).
Definition set_Username (x : string) (i : SenderInfo) :=
  MkSenderInfo (Package i) (Exe i) (Hostname i) x.
Definition on_senderInfo (f : SenderInfo -> SenderInfo) (s : AmqpService) :=
  set_senderInfo (f (senderInfo s)) s.

Definition fillDriplineSenderInfo : Go error :=
  fun w =>
    let h := host w in
    (modify (on_senderInfo (set_Package "dripline")) ;;
     modify (on_senderInfo (set_Exe (fst (osext_Executable h)))) ;;
     match snd (osext_Executable h) with
     | Some e => ret (Some e)
     | None =>
         modify (on_senderInfo (set_Hostname (fst (os_Hostname h)))) ;;
         match snd (os_Hostname h) with
         | Some e => ret (Some e)
         | None =>
             match snd (user_Current h) with
             | Some e => ret (Some e)
             | None =>
                 modify (on_senderInfo (set_Username (fst (user_Current h)))) ;;
                 ret None
             end
         end
     end) w.

(** [uuid.New()] *)
Definition uuid_new : Go string :=
  fun w => Returns (uuid_New (host w) (nuuid w)) (set_nuuid (S (nuuid w)) w).

(** [(message *Message) send(channel, body)] *)
Definition Message_send (message : Message) (ch : option ChannelId)
           (body : list byte) : Go unit :=
  (* Get the UUID for the correlation ID *)
  correlationId <- (if String.eqb (CorrId message) EmptyString
                    then uuid_new else ret (CorrId message)) ;;
  let amqpMessage :=
    {| PubContentEncoding := Encoding message;
       PubBody := body;
       PubReplyTo := ReplyTo message;
       PubCorrelationId := correlationId |} in
  log Debug "Sending message to routing key <%s>" ;;
  (* Publish! *)
  deref ch (fun c =>
  r <- call (Publish c (exchange message) (Target message) false false
                     amqpMessage) ;;
  when (negb (is_nil (snd r))) (log LError "Error while sending message:\n\t%v")).

(** One of the three exchange blocks of the channel setup: the topic
    exchange is declared when its name is not empty; [false] when the
    block returns from the setup. *)
Definition exchangeSetup (name : string) (critical ready : string) : Go bool :=
  if negb (String.eqb name EmptyString) then
    ch <- gets channel ;;
    deref ch (fun c =>
    r <- call (ExchangeDeclare c name "topic" false false false false) ;;
    match snd r with
    | Some exchangeErr =>
        log Critical critical ;;
        send_DoneSignal true ;;
        ret false
    | None =>
        log Debug ready ;;
        ret true
    end)
  else ret true.

(** The closure [channelSetupFunc] of [runAmqpService]: all of the
    channel declaration, so that the channel can be opened again. *)
Definition channelSetupFunc (connection : ConnId) : Go unit :=
  (* Create the channel object that represents the connection to the broker *)
  r <- fresh (ConnChannel connection) ;;
  match r with
  | inr chanErr =>
      log Critical "Unable to get the AMQP channel:\n\t%v" ;;
      send_DoneSignal true
  | inl ch =>
      log Debug "Channel with AMQP broker established" ;;
      modify (set_channel (Some ch)) ;;
      (* Setup to Receive *)
      queue <- gets (fun s => QueueName (Receiver s)) ;;
      go_on <-
        (if negb (String.eqb queue EmptyString) then
           d <- call (QueueDeclare ch queue false true true false) ;;
           match snd d with
           | Some queueDeclErr =>
               log Critical queueDeclErr ;;
               send_DoneSignal true ;;
               ret false
           | None =>
               log Debug "Queue declared: %s" ;;
               (* Try to begin consuming, which will only actually happen
                  if there are already subscriptions *)
               beginConsuming ;;
               log LInfo "AMQP service ready to receive messages" ;;
               ret true
           end
         else ret true) ;;
      if negb go_on then ret tt else
      (* Setup to send messages *)
      name <- gets (fun s => RequestExchangeName (Sender s)) ;;
      go_on <- exchangeSetup name
                 "Unable to declare the requests exchange (%s)"
                 "Requests exchange is ready" ;;
      if negb go_on then ret tt else
      name <- gets (fun s => AlertExchangeName (Sender s)) ;;
      go_on <- exchangeSetup name
                 "Unable to declare the alerts exchange (%s)"
                 "Alerts exchange is ready" ;;
      if negb go_on then ret tt else
      name <- gets (fun s => InfoExchangeName (Sender s)) ;;
      go_on <- exchangeSetup name
                 "Unable to declare the infos exchange (%s)"
                 "Infos exchange is ready" ;;
      if negb go_on then ret tt else
      ch <- gets channel ;;
      deref ch (fun c =>
      call (NotifyCancel c) ;;
      call (NotifyClose c) ;;
      log LInfo "AMQP service ready to send messages")
  end.

(* ================================================================= *)
(** ** The event router *)

(** The source the [select] of [amqpLoop] services in one iteration. The
    feeds filled by the client library carry what they deliver ([None]:
    the feed is closed); the Go channels of the service are read from
    the service. *)
Inductive Ready : Type :=
| OnStopQueue
| OnConnClose (connectionClosed : option string)
| OnChannelCancel (channelCanceled : option string)
| OnChannelClose (channelClosed : option string)
| OnRequestChan
| OnReplyChan
| OnAlertChan
| OnInfoChan
| OnMessageQueue (amqpMessage : option Delivery).

Inductive Recv (A : Type) : Type :=
| Got (v : A)
| ChanClosed
| NotReady.

Arguments ChanClosed {A}.
Arguments NotReady {A}.

(** [v, chanOpen := <-service.f] *)
Definition chan_recv {A : Type} (f : Field A) : Go (Recv A) :=
  fun w =>
    match Chan.recv (fget f (service w)) with
    | Received v c => Returns (Got v) (set_service (fset f c (service w)) w)
    | RecvClosed => Returns ChanClosed w
    | RecvNotReady => Returns NotReady w
    end.

(** How one iteration ends: [break amqpLoop], the next iteration, or the
    [select] keeps waiting because the source has nothing to deliver. *)
Inductive Flow : Type := Break | Continue | Wait.

(** The four outbound cases: encode, then publish on the service's
    channel. *)
Definition outbound {A : Type} (f : Field A)
           (encode : Codec -> A -> A * list byte * error)
           (envelope : A -> Message)
           (closedMsg sending encFailed : string) : Go Flow :=
  x <- chan_recv f ;;
  match x with
  | NotReady => ret Wait
  | ChanClosed => log LError closedMsg ;; ret Break
  | Got msg =>
      log Debug sending ;;
      (* encode the message *)
      fun w =>
        (let '(msg', body, encErr) := encode (codec w) msg in
         match encErr with
         | Some _ => log LError encFailed ;; ret Continue
         | None =>
             ch <- gets channel ;;
             Message_send (envelope msg') ch body ;;
             ret Continue
         end) w
  end.

(** One iteration of [amqpLoop] in which the [select] picks [r]. *)
Definition selectCase (connection : ConnId) (r : Ready) : Go Flow :=
  match r with
  (* the control messages can stop execution *)
  | OnStopQueue =>
      x <- chan_recv f_stopQueue ;;
      match x with
      | NotReady => ret Wait
      | ChanClosed => log LError "Control queue is closed" ;; ret Break
      | Got stopSig =>
          if Bool.eqb stopSig true
          then log LInfo "AMQP service stopping on interrupt." ;; ret Break
          else log Debug "Received on the stop queue, but it wasn't 'true'" ;;
               ret Continue
      end
  | OnConnClose None =>
      log LError "Connection-close channel is closed" ;; ret Break
  | OnConnClose (Some _) =>
      log Warning "AMQP connection was closed: %v" ;; ret Break
  | OnChannelCancel None =>
      log LError "Channel-cancel channel is closed" ;; ret Break
  | OnChannelCancel (Some _) =>
      (* If the channel was canceled, we probably want to re-open it *)
      log Warning "AMQP channel was canceled: %s" ;;
      log LInfo "Attempting to re-open the channel" ;;
      channelSetupFunc connection ;;
      ret Break
  | OnChannelClose None =>
      log LError "Channel-close channel is closed" ;; ret Break
  | OnChannelClose (Some _) =>
      log Warning "AMQP channel was closed: %v" ;; ret Break
  | OnRequestChan =>
      outbound f_requestChan EncodeRequest RequestMessage
               "Outgoing request channel is closed" "Sending a request"
               "An error occurred while encoding a request message: \n\t%v"
  | OnReplyChan =>
      outbound f_replyChan EncodeReply ReplyMessage
               "Outgoing reply channel is closed" "Sending a reply"
               "An error occurred while encoding a reply message: \n\t%v"
  | OnAlertChan =>
      outbound f_alertChan EncodeAlert AlertMessage
               "Outgoing alert channel is closed" "Sending a alert"
               "An error occurred while encoding an alert message: \n\t%v"
  | OnInfoChan =>
      outbound f_infoChan EncodeInfo InfoMessage
               "Outgoing info channel is closed" "Sending a info"
               "An error occurred while encoding an info message: \n\t%v"
  (* process any AMQP messages that are received *)
  | OnMessageQueue x =>
      stream <- gets (fun s => messageQueue (Receiver s)) ;;
      match stream, x with
      | None, _ => ret Wait (* a nil channel is never ready *)
      | Some _, None =>
          log LError "Incoming message channel is closed" ;; ret Break
      | Some _, Some amqpMessage =>
          (* Send an acknowledgement to the broker *)
          call (Ack amqpMessage false) ;;
          decodeErr <- DecodeAndHandle amqpMessage
            (fun request => chan_send f_RequestChan request)
            (fun reply => log LError "Received an unexpected reply")
            (fun alert => chan_send f_AlertChan alert)
            (fun info => chan_send f_InfoChan info) ;;
          match decodeErr with
          | Some _ =>
              log LError "An error occurred while decoding a message: \n\t%v" ;;
              ret Continue
          | None => ret Continue
          end
      end
  end.

Inductive LoopEnd : Type :=
| Exited   (* [break amqpLoop] *)
| Parked.  (* waiting in the [select] *)

(** [amqpLoop], serviced in the order given by the schedule. *)
Fixpoint amqpLoop (connection : ConnId) (sched : list Ready) : Go LoopEnd :=
  match sched with
  | [] => ret Parked
  | r :: rest =>
      f <- selectCase connection r ;;
      match f with
      | Break => ret Exited
      | Continue => amqpLoop connection rest
      | Wait => ret Parked
      end
  end.

(** A deferred call as Go runs it: a panic inside it does not stop the
    deferred calls that remain. The result tells whether it panicked. *)
Definition run_deferred (m : Go unit) : Go bool :=
  fun w =>
    match m w with
    | Returns _ w' => Returns false w'
    | Blocks w' => Blocks w'
    | Panics w' => Returns true w'
    end.

(** The deferred calls of [runAmqpService], in the order they run at its
    return: last registered, first run. [deferredChannel] is the value
    [service.channel] had when [defer service.channel.Close()] was
    executed; the queue is deleted through the channel the service holds
    at the return. *)
Definition deferred (connection : ConnId) (deferredChannel : option ChannelId)
  : Go unit :=
  (* defer func() { service.channel.QueueDelete(...) }() *)
  p1 <- run_deferred
          (ch <- gets channel ;;
           queue <- gets (fun s => QueueName (Receiver s)) ;;
           deref ch (fun c =>
           r <- call (QueueDelete c queue false false false) ;;
           when (negb (is_nil (snd r)))
                (log LError "Error while deleting queue:\n\t%v"))) ;;
  (* defer service.channel.Close() *)
  p2 <- run_deferred
          (deref deferredChannel (fun c' => call (ChannelClose c') ;; ret tt)) ;;
  (* defer connection.Close() *)
  call (ConnClose connection) ;;
  if p1 || p2 then panic else ret tt.

(** [m] with the calls [d] deferred around it: when [m] panics, [d]
    runs before the goroutine dies. *)
Definition unwinding {A : Type} (d : Go unit) (m : Go A) : Go A :=
  fun w =>
    match m w with
    | Panics w' => Panics (final (d w'))
    | o => o
    end.

Inductive RunEnd : Type :=
| NotConnected  (* returned after the second failed dial *)
| Serving       (* in [amqpLoop], waiting for the next event *)
| Stopped.      (* returned after [amqpLoop] *)

(** The loop of [runAmqpService] and what follows it: the last send on
    [DoneSignal], then the return, at which the deferred calls run. *)
Definition serve (conn : ConnId) (deferredChannel : option ChannelId)
           (sched : list Ready) : Go RunEnd :=
  e <- unwinding (deferred conn deferredChannel)
         (e <- amqpLoop conn sched ;;
          match e with
          | Parked => ret Parked
          | Exited => send_DoneSignal true ;; ret Exited
          end) ;;
  match e with
  | Parked => ret Serving
  | Exited => (* return *) deferred conn deferredChannel ;; ret Stopped
  end.

(** The service goroutine; [sched] is what its loop gets to service. *)
Definition runAmqpService (sched : list Ready) : Go RunEnd :=
  siErr <- fillDriplineSenderInfo ;;
  when (negb (is_nil siErr))
       (log Warning "Unable to properly fill dripline sender info") ;;
  (* Connect to the AMQP broker *)
  addr <- gets BrokerAddress ;;
  first <- fresh (Dial addr) ;;
  dialed <-
    match first with
    | inl c => ret (inl c)
    | inr _ =>
        log Warning
            "Unable to connect on first attempt.  Waiting 10 seconds to try again." ;;
        time_Sleep (10 * Second)%Z ;;
        log Debug "Second attempt to connect" ;;
        fresh (Dial addr)
    end ;;
  match dialed with
  | inr receiveErr =>
      log Critical
          "Unable to connect to the AMQP broker at (%s) for receiving:\n\t%v" ;;
      send_DoneSignal true ;;
      ret NotConnected
  | inl conn =>
      (* defer connection.Close() *)
      unwinding (call (ConnClose conn) ;; ret tt)
        (modify (set_connection (Some conn)) ;;
         modify (set_Connected true) ;;
         log Debug "Connected to AMQP broker (%s)" ;;
         (* Monitor for connection closing *)
         call (ConnNotifyClose conn) ;;
         (* Call the connection setup function now *)
         channelSetupFunc conn) ;;
      (* defer service.channel.Close(); defer func() { QueueDelete }() *)
      deferredChannel <- gets channel ;;
      unwinding (deferred conn deferredChannel)
        (log Notice "AMQP service started successfully" ;;
         send_DoneSignal false) ;;
      serve conn deferredChannel sched
  end.

(* ================================================================= *)
(** ** Start-service functions *)

(** The caller starts to wait: [isDone := <-service.DoneSignal]. *)
Definition awaitDone (w : World) : World :=
  match Chan.recv (DoneSignal (service w)) with
  | Received v c =>
      set_startCall (GotDone v) (set_service (set_DoneSignal c (service w)) w)
  | RecvClosed => set_startCall (GotDone false) w
  | RecvNotReady => set_startCall AwaitingDone w
  end.

(** The method [StartService]: runs an AMQP service that has already
    been set up as desired. It has no result; it returns once it has
    received from [DoneSignal]. *)
Definition AmqpService_StartService (sched : list Ready) : Go unit :=
  fun w =>
    (* go runAmqpService(service) *)
    let w' := final (runAmqpService sched (awaitDone w)) in
    match startCall w' with
    | GotDone isDone =>
        (when isDone (log Critical "Service did not start")) w'
    | _ => Blocks w'
    end.

(** The function [StartService]: runs an AMQP service with the given
    broker address and queue name. The result is the returned pointer:
    [Some] of the service it points to, [None] for nil. *)
Definition StartService (brokerAddress queueName : string)
           (sched : list Ready) : Go (option AmqpService) :=
  modify (fun _ => ServiceDefaults) ;;
  modify (set_BrokerAddress brokerAddress) ;;
  modify (on_Receiver (set_QueueName queueName)) ;;
  AmqpService_StartService sched ;;
  s <- gets (fun s => s) ;;
  ret (Some s).

(* ================================================================= *)
(** ** The HTTP bridge *)

(** RequestHandler of the http2dripline bridge, which uses the service.
    [decoded] is what [decoder.Decode(&reqMessage)] leaves behind: the
    request as far as the JSON body filled it in, and the error of the
    decoder. The handler writes nothing to the response and drops the
    reply channel that [SendRequest] returns. *)
Definition RequestHandler (decoded : Request * error) : Go unit :=
  log Notice "\ndecoding new request" ;;
  let reqMessage := fst decoded in
  (if is_nil (snd decoded)
   then
     log Debug "json decoded" ;;
     log Debug "object is:\n%v" ;;
     log Debug "msgtype is: %v" ;;
     log Debug "target is: %v" ;;
     log Debug "sender info is:\n%v" ;;
     log Debug "operation is: %v"
   else log Debug "json decoder fail with: %v") ;;
  (* send the decoded message *)
  let timeOut := (60 * Second)%Z in
  r <- SendRequest reqMessage timeOut ;;
  if is_nil (snd r) then ret tt
  else log Debug "sending request failed with: %v".

(* ================================================================= *)
(** ** Concrete worlds, to run the model on *)

Module Fixture.

Definition who : SenderInfo := MkSenderInfo "dripline" "/bin/svc" "node" "op".

Definition envelope (k : MsgCodeT) (corr : string) : Message :=
  MkMessage k "q1.cmd" "application/json" EmptyString corr who "requests".

Definition aRequest : Request := MkRequest (envelope MTRequest "c-1") 1 "get".
Definition aReply : Reply :=
  MkReply (envelope MTReply "c-1") (RCOther 0) "ok" "42".
Definition anAlert : Alert := MkAlert (envelope MTAlert "c-2") "alarm".
Definition anInfo : Info := MkInfo (envelope MTInfo "c-3") "note".

(** A toy wire format: the first byte of the body is the kind. *)
Definition toyDecode (d : Delivery) : Decoded + string :=
  match Body d with
  | x00 :: _ => inl (DReply aReply)
  | x01 :: _ => inl (DRequest aRequest)
  | x02 :: _ => inl (DAlert anAlert)
  | x03 :: _ => inl (DInfo anInfo)
  | _ => inr "unknown message type"
  end.

Definition toyCodec : Codec :=
  {| decode := toyDecode;
     EncodeRequest := fun r => (r, [x01], None);
     EncodeReply := fun r => (r, [x00], None);
     EncodeAlert := fun a => (a, [x02], None);
     EncodeInfo := fun i => (i, [x03], None) |}.

Definition delivery (tag : N) (body : list byte) : Delivery :=
  MkDelivery tag "application/json" EmptyString "c-1" body.

Definition aHost : Host :=
  {| osext_Executable := ("/bin/svc", None);
     os_Hostname := ("node", None);
     user_Current := ("op", None);
     uuid_New := fun _ => "uuid" |}.

(** The broker that refuses exactly the calls numbered in [bad]. *)
Definition refusing (bad : list nat) : Broker :=
  {| answer := fun n => if existsb (Nat.eqb n) bad
                        then Some "refused" else None;
     assignedName := fun _ => "amq.gen-1" |}.

Definition world (s : AmqpService) (b : Broker) : World :=
  {| service := s; broker := b; host := aHost; codec := toyCodec;
     ncalls := 0; nuuid := 0; startCall := NoStartCall;
     replyChans := []; trace := [] |}.

(** A service as [runAmqpService] leaves it once it is in its loop:
    connected, with connection 0 and channel 2. *)
Definition running : AmqpService :=
  set_Connected true
    (set_connection (Some 0) (set_channel (Some 2) ServiceDefaults)).

Definition runningWorld (b : Broker) : World :=
  set_ncalls 10 (world running b).

(** A request sent on the running service, with a 5 s timeout. *)
Definition requested : Outcome (option ReplyWait * error) :=
  SendRequest aRequest (5 * Second)%Z (runningWorld (refusing [])).

(** What the goroutine started by that call has captured. *)
Definition pending : ReplyWait :=
  {| replyChannel := 10;
     amqpReplyChan := 13;
     waitRequest := Request_set_ReplyTo aRequest "amq.gen-1";
     replyTimeout := (5 * Second)%Z;
     replyChanFull := 0 |}.

(** A delivery whose body is not a message. *)
Definition garbled : Delivery := delivery 1 [x07].

(** The running service with one subscription; [stream] is the
    delivery stream it consumes from. *)
Definition subscribed (stream : option StreamId) (b : Broker) : World :=
  set_ncalls 10
    (world (on_Receiver (fun r => set_messageQueue stream
                                    (set_subscriptionCount 1 r)) running) b).

End Fixture.

(* ================================================================= *)
(** * The vocabulary of the statements *)

(** The channels closed by the calls in [l]. *)
Fixpoint closed_channels (l : list Event) : list ChannelId :=
  match l with
  | [] => []
  | EvCall _ (ChannelClose c) _ :: t => c :: closed_channels t
  | _ :: t => closed_channels t
  end.

Definition is_log (e : Event) : bool :=
  match e with EvLog _ _ => true | _ => false end.

(** The actions of [l] other than log lines. *)
Definition actions (l : list Event) : list Event :=
  filter (fun e => negb (is_log e)) l.

Definition opens_channel (c : BrokerCall) : bool :=
  match c with ConnChannel _ => true | _ => false end.

(** How many times a channel was asked of the connection, which is how
    every run of the channel setup starts. *)
Fixpoint channels_opened (l : list Event) : nat :=
  match l with
  | [] => 0
  | EvCall _ c _ :: t =>
      if opens_channel c then S (channels_opened t) else channels_opened t
  | _ :: t => channels_opened t
  end.

Definition opened (w : World) : nat := channels_opened (trace w).

(** The liveness flag of the service. *)
Definition liveness (w : World) : bool := Connected (service w).

(** A send on [DoneSignal] completes at once in [w]: a caller of
    StartService is waiting on the empty channel, or the buffer has
    room. *)
Definition DoneSignal_ready (w : World) : bool :=
  match startCall w, buf (DoneSignal (service w)) with
  | AwaitingDone, [] => negb (closed (DoneSignal (service w)))
  | _, _ => has_room (DoneSignal (service w))
  end.

(** [m] ends, in whichever way, in a world with the [f] it started
    from. *)
Definition preserves {X A : Type} (f : World -> X) (m : Go A) : Prop :=
  forall w, f (final (m w)) = f w.

(** What a call that only enqueues [v] on the channel [c] of the service
    can do: return [nil] with [v] enqueued when there is room, park
    while the buffer is full, panic on a closed channel. *)
Definition enqueues {A : Type} (m : Go error) (c : AmqpService -> chan A)
           (v : A) (w : World) : Prop :=
  match m w with
  | Returns e w' =>
      e = None /\ has_room (c (service w)) = true
      /\ buf (c (service w')) = buf (c (service w)) ++ [v]
  | Blocks w' =>
      w' = w /\ closed (c (service w)) = false /\ full (c (service w)) = true
  | Panics w' => w' = w /\ closed (c (service w)) = true
  end.

(** The outcome [o] of an iteration that hands [v] to the inbound
    channel [f] after the action [ack]: with room in the channel the
    iteration ends in the next one, with [v] appended and nothing else
    of the service changed; without room the router is stopped in the
    send, after [ack]. *)
Definition forwarded {A : Type} (f : Field A) (v : A) (ack : Event)
           (w : World) (o : Outcome Flow) : Prop :=
  let c := fget f (service w) in
  if has_room c
  then exists w',
      o = Returns Continue w'
      /\ emitted w w' [ack; EvSend (fname f) (finj f v)]
      /\ service w'
         = fset f (Chan.Make (cap c) (buf c ++ [v]) (closed c)) (service w)
  else exists w',
      (o = Blocks w' \/ o = Panics w')
      /\ emitted w w' [ack] /\ service w' = service w.

(** The outcome [o] of an iteration that drops the delivery with the
    log line [msg] after the action [ack]. *)
Definition dropped (msg : string) (ack : Event) (w : World)
           (o : Outcome Flow) : Prop :=
  exists w',
    o = Returns Continue w'
    /\ emitted w w' [ack; EvLog LError msg]
    /\ service w' = service w.

(** The world in which the re-setup of the channel starts: the two log
    lines of the cancel case have been written. *)
Definition canceled (w : World) : World :=
  set_trace (EvLog LInfo "Attempting to re-open the channel"
             :: EvLog Warning "AMQP channel was canceled: %s" :: trace w) w.

(** The warning of [runAmqpService] when the sender info cannot be
    filled in. *)
Definition senderInfoWarning (h : Host) : list Event :=
  if is_nil (snd (osext_Executable h)) && is_nil (snd (os_Hostname h))
     && is_nil (snd (user_Current h))
  then []
  else [EvLog Warning "Unable to properly fill dripline sender info"].

(** The calls of [l] that satisfy [q]. *)
Fixpoint count_calls (q : BrokerCall -> bool) (l : list Event) : nat :=
  match l with
  | [] => 0
  | EvCall _ c _ :: t => if q c then S (count_calls q t) else count_calls q t
  | _ :: t => count_calls q t
  end.

(** [m] makes no call that satisfies [q], however it ends. *)
Definition never {A : Type} (q : BrokerCall -> bool) (m : Go A) : Prop :=
  preserves (fun w => count_calls q (trace w)) m.

(** The calls of the teardown. *)
Definition tears_down (c : BrokerCall) : bool :=
  match c with
  | ConnClose _ | ChannelClose _ | QueueDelete _ _ _ _ _ => true
  | _ => false
  end.

Definition is_dial (c : BrokerCall) : bool :=
  match c with Dial _ => true | _ => false end.

Definition is_publish (c : BrokerCall) : bool :=
  match c with Publish _ _ _ _ _ _ => true | _ => false end.

(** The topology the service declares: queues that are not durable,
    auto-delete and exclusive; topic exchanges that are neither durable
    nor auto-delete nor internal; exclusive no-local consumers without a
    tag and without automatic acknowledgement; acknowledgements of a
    single delivery; all of it without no-wait. *)
Definition as_designed (c : BrokerCall) : bool :=
  match c with
  | QueueDeclare _ _ durable autoDelete exclusive noWait =>
      negb durable && autoDelete && exclusive && negb noWait
  | ExchangeDeclare _ _ kind durable autoDelete internal noWait =>
      String.eqb kind "topic" && negb durable && negb autoDelete
      && negb internal && negb noWait
  | Consume _ _ consumer autoAck exclusive noLocal noWait =>
      String.eqb consumer EmptyString && negb autoAck && exclusive
      && noLocal && negb noWait
  | QueueBind _ _ _ _ noWait => negb noWait
  | QueueDelete _ _ ifUnused ifEmpty noWait =>
      negb ifUnused && negb ifEmpty && negb noWait
  | Publish _ _ _ mandatory immediate _ => negb mandatory && negb immediate
  | Ack _ multiple => negb multiple
  | _ => true
  end.

Definition off_design (c : BrokerCall) : bool := negb (as_designed c).

(** A Go channel that is closed and has nothing left to deliver. *)
Definition drained {A : Type} (c : chan A) : bool :=
  closed c && is_nil (hd_error (buf c)).

(** The source [r] of the [select] is at its end: the Go channel or the
    feed behind it is closed, with nothing left to deliver. *)
Definition source_closed (r : Ready) (s : AmqpService) : bool :=
  match r with
  | OnStopQueue => drained (stopQueue s)
  | OnConnClose x | OnChannelCancel x | OnChannelClose x => is_nil x
  | OnRequestChan => drained (requestChan (Sender s))
  | OnReplyChan => drained (replyChan (Sender s))
  | OnAlertChan => drained (alertChan (Sender s))
  | OnInfoChan => drained (infoChan (Sender s))
  | OnMessageQueue x => is_nil x && negb (is_nil (messageQueue (Receiver s)))
  end.

(** What a Subscribe function [m] does on a connected service whose
    channel is [c], once the broker has accepted the binding of the
    queue to the exchange [ex] with the key [key]: it returns nil and
    has counted the subscription, whether or not consumption could be
    started; the stream is installed and the sentinel pushed only when
    the Consume call succeeds. *)
Definition subscribes (w : World) (c : ChannelId) (key ex : string)
           (m : Go error) : Prop :=
  let queue := QueueName (Receiver (service w)) in
  let bound := EvCall (ncalls w) (QueueBind c queue key ex false) None in
  let consume := Consume c queue EmptyString false true true false in
  let established :=
    EvLog Debug "Subscription established: ex(%s) @ rk(%s) --> q(%s)" in
  exists w',
    m w = Returns None w'
    /\ subscriptionCount (Receiver (service w'))
       = int_incr (subscriptionCount (Receiver (service w)))
    /\ match answer (broker w) (S (ncalls w)) with
       | None =>
           emitted w w'
             [bound; EvCall (S (ncalls w)) consume None;
              EvLog Debug "Started consuming on queue %s";
              EvSend stopQueueC (VBool false); established]
           /\ messageQueue (Receiver (service w')) = Some (S (ncalls w))
           /\ buf (stopQueue (service w'))
              = buf (stopQueue (service w)) ++ [false]
       | Some consumeErr =>
           emitted w w'
             [bound; EvCall (S (ncalls w)) consume (Some consumeErr);
              EvLog Critical "Unable start consuming from queue <%s>:\n\t%v";
              EvSend DoneSignalC (VBool true); established]
           /\ messageQueue (Receiver (service w'))
              = messageQueue (Receiver (service w))
           /\ stopQueue (service w') = stopQueue (service w)
       end.

(** The first error of a sequence of fallible steps ([None]: all of
    them succeeded). *)
Fixpoint first_error (l : list error) : error :=
  match l with
  | [] => None
  | Some e :: _ => Some e
  | None :: t => first_error t
  end.

(** The iteration of the router that takes [v], the oldest message
    waiting on the outbound channel [f], when the service holds a
    channel: the message leaves the buffer and the loop goes on,
    whatever the codec and the broker answer; there is one Publish call
    when the message could be encoded, and none otherwise. *)
Definition relayed {A : Type} (f : Field A)
           (encode : Codec -> A -> A * list byte * error)
           (r : Ready) (connection : ConnId) (w : World) : Prop :=
  forall (v : A) (rest : list A),
    buf (fget f (service w)) = v :: rest ->
    exists w',
      selectCase connection r w = Returns Continue w'
      /\ buf (fget f (service w')) = rest
      /\ channel (service w') = channel (service w)
      /\ count_calls is_publish (trace w')
         = count_calls is_publish (trace w)
           + (if is_nil (snd (encode (codec w) v)) then 1 else 0).

(** The world in which the goroutine of StartService starts: the
    default service with the given address and queue name, and the
    caller waiting on [DoneSignal]. *)
Definition started (brokerAddress queueName : string) (w : World) : World :=
  set_startCall AwaitingDone
    (set_service (on_Receiver (set_QueueName queueName)
                    (set_BrokerAddress brokerAddress ServiceDefaults)) w).

(** What the service goroutine does once the dial that gave the
    connection [conn] has succeeded, on a broker that accepts every
    call, for the default exchanges and the receive queue [queueName]:
    the calls are numbered from the dial on. *)
Definition startup (conn : ConnId) (queueName : string) : list Event :=
  let ch := 2 + conn in
  [EvLog Debug "Connected to AMQP broker (%s)";
   EvCall (1 + conn) (ConnNotifyClose conn) None;
   EvCall (2 + conn) (ConnChannel conn) None;
   EvLog Debug "Channel with AMQP broker established";
   EvCall (3 + conn) (QueueDeclare ch queueName false true true false) None;
   EvLog Debug "Queue declared: %s";
   EvLog LInfo "AMQP service ready to receive messages";
   EvCall (4 + conn)
          (ExchangeDeclare ch "requests" "topic" false false false false) None;
   EvLog Debug "Requests exchange is ready";
   EvCall (5 + conn)
          (ExchangeDeclare ch "alerts" "topic" false false false false) None;
   EvLog Debug "Alerts exchange is ready";
   EvCall (6 + conn)
          (ExchangeDeclare ch "requests" "topic" false false false false) None;
   EvLog Debug "Infos exchange is ready";
   EvCall (7 + conn) (NotifyCancel ch) None;
   EvCall (8 + conn) (NotifyClose ch) None;
   EvLog LInfo "AMQP service ready to send messages";
   EvLog Notice "AMQP service started successfully";
   EvSend DoneSignalC (VBool false)].

(** The world StartService leaves behind after a start on the
    connection [conn] that emitted [l]: the default service with the
    given address and queue name, connected, holding the channel opened
    by the setup, its sender info [info]; the caller has taken the
    [false] of the start from [DoneSignal]. *)
Definition afterStart (brokerAddress queueName : string) (info : SenderInfo)
           (conn : ConnId) (l : list Event) (w : World) : World :=
  {| service :=
       set_senderInfo info
         (set_channel (Some (2 + conn))
            (set_connection (Some conn)
               (set_Connected true
                  (on_Receiver (set_QueueName queueName)
                     (set_BrokerAddress brokerAddress ServiceDefaults)))));
     broker := broker w;
     host := host w;
     codec := codec w;
     ncalls := 9 + conn;
     nuuid := nuuid w;
     startCall := GotDone false;
     replyChans := replyChans w;
     trace := rev l ++ trace w |}.

(** The last events of [w], oldest first. *)
Definition last_events (w : World) (l : list Event) : Prop :=
  firstn (List.length l) (trace w) = rev l.

(* ================================================================= *)
(** * Properties *)

Unset Implicit Arguments.

(** ** Tactics for traces *)

(** The actions that extend the trace [base] to [t], oldest first. *)
Ltac peel t base acc :=
  lazymatch t with
  | base => acc
  | ?e :: ?t' => peel t' base (e :: acc)
  end.

(** Solves [emitted w w' ?l] when the trace of [w'] computes. *)
Ltac solve_emitted :=
  lazymatch goal with
  | |- emitted ?w ?w' ?l =>
      let t := eval cbn in (trace w') in
      let l' := peel t (trace w) (@nil Event) in
      unify l l'; unfold emitted; reflexivity
  end.

(** ** Go channels *)

Lemma send_has_room {A : Type} (c : chan A) (v : A) :
  has_room c = true ->
  Chan.send c v = Sent (Chan.Make (cap c) (buf c ++ [v]) (closed c)).
Proof.
  unfold has_room, full, Chan.send. intros H.
  apply andb_true_iff in H. destruct H as [Hc Hf].
  apply negb_true_iff in Hc. rewrite Hc.
  apply negb_true_iff in Hf. apply negb_false_iff in Hf.
  rewrite Hf. reflexivity.
Qed.

Lemma send_no_room {A : Type} (c : chan A) (v : A) :
  closed c = false -> has_room c = false -> Chan.send c v = SendBlocks.
Proof.
  unfold has_room, full, Chan.send. intros Hc H. rewrite Hc in *.
  destruct (Nat.ltb (List.length (buf c)) (cap c)); [discriminate|reflexivity].
Qed.

Lemma send_cases {A : Type} (c : chan A) (v : A) :
  match Chan.send c v with
  | Sent c' => has_room c = true /\ buf c' = buf c ++ [v]
               /\ cap c' = cap c /\ closed c' = closed c
  | SendBlocks => closed c = false /\ full c = true
  | SendPanics => closed c = true
  end.
Proof.
  unfold Chan.send, has_room, full.
  destruct (closed c); [reflexivity|].
  destruct (Nat.ltb (List.length (buf c)) (cap c)); cbn; auto.
Qed.

(** ** What a goroutine body leaves alone *)

Lemma final_bind {A B : Type} (m : Go A) (k : A -> Go B) (w : World) :
  final (bind m k w)
  = match m w with
    | Returns a w' => final (k a w')
    | Blocks w' | Panics w' => w'
    end.
Proof. unfold bind. destruct (m w); reflexivity. Qed.

Section Preserved.

Context {X : Type} (f : World -> X).

Lemma preserves_at {A : Type} (m : Go A) (w : World) :
  preserves f m -> f (final (m w)) = f w.
Proof. intros H. apply H. Qed.

Lemma preserves_ret {A : Type} (a : A) : preserves f (ret a).
Proof. intro w. reflexivity. Qed.

Lemma preserves_panic {A : Type} : preserves f (@panic A).
Proof. intro w. reflexivity. Qed.

Lemma preserves_bind {A B : Type} (m : Go A) (k : A -> Go B) :
  preserves f m -> (forall a, preserves f (k a)) -> preserves f (bind m k).
Proof.
  intros Hm Hk w. rewrite final_bind. specialize (Hm w).
  destruct (m w) as [a w'| w'| w']; cbn in Hm; auto.
  rewrite <- Hm. apply Hk.
Qed.

Lemma preserves_if {A : Type} (b : bool) (m1 m2 : Go A) :
  preserves f m1 -> preserves f m2 -> preserves f (if b then m1 else m2).
Proof. destruct b; auto. Qed.

Lemma preserves_when (b : bool) (m : Go unit) :
  preserves f m -> preserves f (when b m).
Proof. destruct b; cbn; auto using preserves_ret. Qed.

Lemma preserves_deref {A : Type} (p : option nat) (k : nat -> Go A) :
  (forall x, preserves f (k x)) -> preserves f (deref p k).
Proof. destruct p; cbn; auto using preserves_panic. Qed.

Lemma preserves_run_deferred (m : Go unit) :
  preserves f m -> preserves f (run_deferred m).
Proof.
  intros H w. specialize (H w). unfold run_deferred.
  destruct (m w); exact H.
Qed.

Lemma preserves_unwinding {A : Type} (d : Go unit) (m : Go A) :
  preserves f d -> preserves f m -> preserves f (unwinding d m).
Proof.
  intros Hd Hm w. specialize (Hm w). unfold unwinding.
  destruct (m w) as [a w'| w'| w']; cbn in *; auto.
  rewrite <- Hm. apply Hd.
Qed.

(** The codec is not something [f] may depend on through the world of
    the handlers: each handler preserves [f], so the dispatch does. *)
Lemma preserves_DecodeAndHandle (d : Delivery)
      (h1 : Request -> Go unit) (h2 : Reply -> Go unit)
      (h3 : Alert -> Go unit) (h4 : Info -> Go unit) :
  (forall x, preserves f (h1 x)) -> (forall x, preserves f (h2 x)) ->
  (forall x, preserves f (h3 x)) -> (forall x, preserves f (h4 x)) ->
  preserves f (DecodeAndHandle d h1 h2 h3 h4).
Proof.
  intros H1 H2 H3 H4 w. unfold DecodeAndHandle.
  destruct (decode (codec w) d) as [[x|x|x|x]|e]; try reflexivity;
    apply preserves_at, preserves_bind; auto; intros _; apply preserves_ret.
Qed.

End Preserved.

(** Breaks a goal [preserves f m] down to the primitive actions of
    [m], which [tac] closes. *)
Ltac preserve_with tac :=
  repeat first
    [ apply preserves_ret
    | apply preserves_panic
    | apply preserves_bind; [|intro]
    | apply preserves_when
    | apply preserves_deref; intro
    | apply preserves_run_deferred
    | apply preserves_unwinding
    | apply preserves_DecodeAndHandle; intro
    | apply preserves_if
    | match goal with
      | |- preserves _ (match ?x with _ => _ end) => destruct x
      end
    | tac ].

(** ** Sends on DoneSignal *)

Lemma send_DoneSignal_ready (b : bool) (w : World) :
  DoneSignal_ready w = true ->
  exists w', send_DoneSignal b w = Returns tt w'
             /\ trace w' = EvSend DoneSignalC (VBool b) :: trace w
             /\ ncalls w' = ncalls w /\ broker w' = broker w
             /\ channel (service w') = channel (service w)
             /\ Receiver (service w') = Receiver (service w)
             /\ stopQueue (service w') = stopQueue (service w).
Proof.
  unfold DoneSignal_ready, send_DoneSignal, chan_send. intros H.
  destruct (startCall w);
    [ | destruct (buf (DoneSignal (service w))) eqn:Hb | ];
    try (rewrite (send_has_room _ _ H); cbn; eexists; repeat split).
  apply negb_true_iff in H. rewrite H. eexists. repeat split.
Qed.

Lemma send_DoneSignal_not_ready (b : bool) (w : World) :
  DoneSignal_ready w = false ->
  closed (DoneSignal (service w)) = false ->
  send_DoneSignal b w = Blocks w.
Proof.
  unfold DoneSignal_ready, send_DoneSignal, chan_send.
  intros H Hc.
  destruct (startCall w);
    [ | destruct (buf (DoneSignal (service w))) eqn:Hb | ];
    try (rewrite Hc in H; discriminate);
    rewrite (send_no_room _ _ Hc H); reflexivity.
Qed.

(** ** Enqueueing an outbound message *)

Lemma chan_send_enqueues {A : Type} (f : Field A) (v : A) (w : World) :
  (forall c s, fget f (fset f c s) = c) ->
  enqueues (chan_send f v ;; ret None) (fget f) v w.
Proof.
  intros Hget. unfold enqueues, bind, chan_send, ret.
  pose proof (send_cases (fget f (service w)) v) as H.
  destruct (Chan.send (fget f (service w)) v) as [c'| |]; cbn.
  - destruct H as (Hr & Hb & _). rewrite Hget. auto.
  - destruct H; auto.
  - auto.
Qed.

(** C10. For every message, SendReply, SendAlert and SendInfo never
    return a non-nil error: whenever one of them returns, its error is
    nil and the message is on the outbound channel of its kind; a full
    outbound buffer parks the call, it does not produce an error (and a
    closed one makes the send panic). *)
Theorem Send_error_is_always_nil :
  forall (w : World) (reply : Reply) (alert : Alert) (info : Info),
    enqueues (SendReply reply) (fun s => replyChan (Sender s)) reply w
    /\ enqueues (SendAlert alert) (fun s => alertChan (Sender s)) alert w
    /\ enqueues (SendInfo info) (fun s => infoChan (Sender s)) info w.
Proof.
  intros w reply alert info. split; [|split].
  - apply (chan_send_enqueues f_replyChan). reflexivity.
  - apply (chan_send_enqueues f_alertChan). reflexivity.
  - apply (chan_send_enqueues f_infoChan). reflexivity.
Qed.

(** ** Subscribing *)

(** C9. Called while the service is not connected, each of
    SubscribeToRequests, SubscribeToAlerts and SubscribeToInfos returns
    the "not connected" error and leaves the world as it found it: no
    call on the broker (no queue binding), the subscription count
    unchanged, no consumption armed. *)
Theorem Subscribe_not_connected :
  forall (w : World) (routingKey : string),
    Connected (service w) = false ->
    SubscribeToRequests routingKey w = Returns (Some notConnected) w
    /\ SubscribeToAlerts routingKey w = Returns (Some notConnected) w
    /\ SubscribeToInfos routingKey w = Returns (Some notConnected) w.
Proof.
  intros w routingKey H.
  unfold SubscribeToRequests, SubscribeToAlerts, SubscribeToInfos,
    subscribeTo, bind, gets.
  rewrite H. cbn. auto.
Qed.

Lemma Subscribe_not_connected_witness :
  Connected (service (Fixture.world ServiceDefaults (Fixture.refusing []))) = false
  /\ SubscribeToRequests "q1.#" (Fixture.world ServiceDefaults (Fixture.refusing []))
     = Returns (Some notConnected)
               (Fixture.world ServiceDefaults (Fixture.refusing []))
  /\ SubscribeToAlerts "q1.#" (Fixture.world ServiceDefaults (Fixture.refusing []))
     = Returns (Some notConnected)
               (Fixture.world ServiceDefaults (Fixture.refusing []))
  /\ SubscribeToInfos "q1.#" (Fixture.world ServiceDefaults (Fixture.refusing []))
     = Returns (Some notConnected)
               (Fixture.world ServiceDefaults (Fixture.refusing [])).
Proof.
  split; [reflexivity|].
  apply (Subscribe_not_connected
           (Fixture.world ServiceDefaults (Fixture.refusing [])) "q1.#").
  reflexivity.
Defined.

(** ** Arming consumption *)

(** A control channel that holds only [false] values never ends the
    loop: the router reads them one by one and is then waiting in its
    [select], with the receiver as it was. *)
Lemma false_sentinels_keep_the_loop (conn : ConnId) :
  forall (l : list bool) (w : World),
    buf (stopQueue (service w)) = l ->
    forallb negb l = true ->
    exists w',
      amqpLoop conn (repeat OnStopQueue (List.length l)) w = Returns Parked w'
      /\ buf (stopQueue (service w')) = []
      /\ Receiver (service w') = Receiver (service w).
Proof.
  induction l as [|b t IH]; intros w Hbuf Hall.
  - exists w. cbn. auto.
  - cbn in Hall. apply andb_true_iff in Hall. destruct Hall as [Hb Ht].
    apply negb_true_iff in Hb. subst b.
    cbn [List.length repeat amqpLoop].
    unfold bind at 1. unfold selectCase, bind, chan_recv, Chan.recv.
    cbn [f_stopQueue fget fset]. rewrite Hbuf. cbn.
    match goal with
    | |- exists w', amqpLoop conn _ ?w2 = _ /\ _ =>
        destruct (IH w2) as (w' & Hloop & He & Hr); [reflexivity|assumption|]
    end.
    exists w'. rewrite Hloop. auto.
Qed.

(** C8, as amended. The consumption-arming step does nothing when the
    subscription count is zero. Otherwise it asks the broker for a
    delivery stream on the queue. When that call succeeds, it installs
    the new stream as the receiver's stream handle and pushes [false] on
    the control channel; the event router, reading the control channel,
    then goes on with its loop and finds the new handle. When that call
    fails, it installs nothing, pushes nothing on the control channel
    and reports [true] on [DoneSignal]. *)
Theorem beginConsuming_arms_or_reports :
  forall (w : World) (c : ChannelId) (conn : ConnId),
    channel (service w) = Some c ->
    has_room (stopQueue (service w)) = true ->
    DoneSignal_ready w = true ->
    exists w',
      beginConsuming w = Returns tt w'
      /\ if (subscriptionCount (Receiver (service w)) =? 0)%Z then w' = w
         else
           let consume := Consume c (QueueName (Receiver (service w)))
                                  EmptyString false true true false in
           match answer (broker w) (ncalls w) with
           | None =>
               emitted w w'
                 [EvCall (ncalls w) consume None;
                  EvLog Debug "Started consuming on queue %s";
                  EvSend stopQueueC (VBool false)]
               /\ messageQueue (Receiver (service w')) = Some (ncalls w)
               /\ buf (stopQueue (service w'))
                  = buf (stopQueue (service w)) ++ [false]
               /\ DoneSignal (service w') = DoneSignal (service w)
               /\ if forallb negb (buf (stopQueue (service w)))
                  then exists w'',
                      amqpLoop conn
                        (repeat OnStopQueue
                                (List.length (buf (stopQueue (service w'))))) w'
                      = Returns Parked w''
                      /\ messageQueue (Receiver (service w'')) = Some (ncalls w)
                  else True
           | Some consumeErr =>
               emitted w w'
                 [EvCall (ncalls w) consume (Some consumeErr);
                  EvLog Critical "Unable start consuming from queue <%s>:\n\t%v";
                  EvSend DoneSignalC (VBool true)]
               /\ Receiver (service w') = Receiver (service w)
               /\ stopQueue (service w') = stopQueue (service w)
           end.
Proof.
  intros w c conn Hch Hroom Hdone.
  unfold beginConsuming. unfold bind at 1, gets at 1.
  destruct (subscriptionCount (Receiver (service w)) =? 0)%Z.
  { exists w. split; reflexivity. }
  unfold bind at 1, gets at 1. unfold bind at 1, gets at 1.
  rewrite Hch. unfold deref, fresh. unfold bind at 1. unfold bind at 1, call at 1.
  cbn [snd fst]. cbv zeta.
  destruct (answer (broker w) (ncalls w)) as [consumeErr|] eqn:Hans.
  - (* the broker refuses *)
    unfold ret at 1. unfold bind at 1, log at 1, emit at 1.
    match goal with
    | |- exists w', send_DoneSignal true ?w1 = _ /\ _ =>
        destruct (send_DoneSignal_ready true w1 Hdone)
          as (w2 & Hsend & Htr & _ & _ & _ & Hrecv & Hstop)
    end.
    exists w2. split; [exact Hsend|].
    split; [unfold emitted; rewrite Htr; reflexivity|].
    split; [exact Hrecv | exact Hstop].
  - (* a new stream *)
    unfold ret at 1. unfold bind at 1, modify at 1.
    unfold bind at 1, log at 1, emit at 1.
    unfold chan_send. cbn [f_stopQueue fget fset fname finj service set_service
                           set_trace set_ncalls trace].
    cbn [on_Receiver set_Receiver stopQueue].
    rewrite (send_has_room _ false Hroom).
    eexists. split; [reflexivity|].
    split; [reflexivity|]. split; [reflexivity|]. split; [reflexivity|].
    split; [reflexivity|].
    destruct (forallb negb (buf (stopQueue (service w)))) eqn:Hall; [|exact I].
    match goal with
    | |- exists w'', amqpLoop conn (repeat OnStopQueue (List.length ?l)) ?w1 = _ /\ _ =>
        destruct (false_sentinels_keep_the_loop conn l w1) as (w'' & Hloop & _ & Hr)
    end.
    + reflexivity.
    + change (forallb negb (buf (stopQueue (service w)) ++ [false]) = true).
      rewrite forallb_app, Hall. reflexivity.
    + exists w''. split; [exact Hloop|]. rewrite Hr. reflexivity.
Qed.

Lemma beginConsuming_arms_or_reports_witness :
  channel (service (Fixture.subscribed None (Fixture.refusing []))) = Some 2
  /\ has_room (stopQueue (service (Fixture.subscribed None (Fixture.refusing []))))
     = true
  /\ DoneSignal_ready (Fixture.subscribed None (Fixture.refusing [])) = true
  /\ exists w',
      beginConsuming (Fixture.subscribed None (Fixture.refusing [])) = Returns tt w'
      /\ emitted (Fixture.subscribed None (Fixture.refusing [])) w'
           [EvCall 10 (Consume 2 "my_queue" EmptyString false true true false) None;
            EvLog Debug "Started consuming on queue %s";
            EvSend stopQueueC (VBool false)]
      /\ messageQueue (Receiver (service w')) = Some 10
      /\ buf (stopQueue (service w')) = [false]
      /\ DoneSignal (service w') = Chan.make bool 1
      /\ exists w'',
          amqpLoop 0 (repeat OnStopQueue
                             (List.length (buf (stopQueue (service w'))))) w'
          = Returns Parked w''
          /\ messageQueue (Receiver (service w'')) = Some 10.
Proof.
  split; [reflexivity|]. split; [reflexivity|]. split; [reflexivity|].
  exact (@beginConsuming_arms_or_reports
           (Fixture.subscribed None (Fixture.refusing [])) 2 0
           eq_refl eq_refl eq_refl).
Defined.

(** C8 as stated fails: one subscription, and the broker refuses the
    Consume call. No stream is installed and nothing is
    pushed on the control channel; [true] is sent on [DoneSignal]. *)
Lemma beginConsuming_installs_nothing_when_Consume_fails :
  subscriptionCount
    (Receiver (service (Fixture.subscribed None (Fixture.refusing [10])))) = 1%Z
  /\ match beginConsuming (Fixture.subscribed None (Fixture.refusing [10])) with
     | Returns _ w' =>
         messageQueue (Receiver (service w')) = None
         /\ buf (stopQueue (service w')) = []
         /\ events w'
            = [EvCall 10 (Consume 2 "my_queue" EmptyString false true true false)
                      (Some "refused");
               EvLog Critical "Unable start consuming from queue <%s>:\n\t%v";
               EvSend DoneSignalC (VBool true)]
     | Blocks _ | Panics _ => False
     end.
Proof. split; [reflexivity|]. vm_compute. repeat split. Qed.


(** ** The setup of SendRequest *)

Section SendRequestSetup.

Variables (w : World) (c : ConnId) (toSend : Request) (timeout : Duration).
Hypothesis Hconn : connection (service w) = Some c.

(** When the fresh channel cannot be opened, the call reports [true]
    on [DoneSignal] and returns a nil channel with a nil error: [e] is
    never assigned on this path. *)
Lemma SendRequest_channel_refused (chanErr : string) :
  answer (broker w) (ncalls w) = Some chanErr ->
  startCall w = NoStartCall ->
  has_room (DoneSignal (service w)) = true ->
  exists w', SendRequest toSend timeout w = Returns (None, None) w'
             /\ emitted w w'
                  [EvLog Debug "Submitting request to send";
                   EvCall (ncalls w) (ConnChannel c) (Some chanErr);
                   EvLog Critical "Unable to get the reply channel:\n\t%v";
                   EvSend DoneSignalC (VBool true)].
Proof.
  intros Hans Hstart Hroom.
  unfold SendRequest, bind, log, emit, gets, deref, fresh, call, ret.
  cbn. rewrite Hconn. cbn. rewrite Hans. cbn.
  unfold send_DoneSignal, chan_send. cbn. rewrite Hstart.
  rewrite (send_has_room _ _ Hroom). cbn.
  eexists. split; reflexivity.
Qed.

(** The three later steps assign their error to [e]. *)
Lemma SendRequest_declare_refused (declareErr : string) :
  answer (broker w) (ncalls w) = None ->
  answer (broker w) (S (ncalls w)) = Some declareErr ->
  exists w', SendRequest toSend timeout w
             = Returns (None, Some declareErr) w'.
Proof.
  intros H0 H1.
  unfold SendRequest, bind, log, emit, gets, deref, fresh, call, ret.
  cbn. rewrite Hconn. cbn. rewrite H0. cbn. rewrite H1. cbn.
  eexists. reflexivity.
Qed.

Lemma SendRequest_bind_refused (bindErr : string) :
  answer (broker w) (ncalls w) = None ->
  answer (broker w) (S (ncalls w)) = None ->
  answer (broker w) (S (S (ncalls w))) = Some bindErr ->
  exists w', SendRequest toSend timeout w = Returns (None, Some bindErr) w'.
Proof.
  intros H0 H1 H2.
  unfold SendRequest, bind, log, emit, gets, deref, fresh, call, ret.
  cbn. rewrite Hconn. cbn. rewrite H0. cbn. rewrite H1. cbn.
  rewrite H2. cbn. eexists. reflexivity.
Qed.

Lemma SendRequest_consume_refused (consumeErr : string) :
  answer (broker w) (ncalls w) = None ->
  answer (broker w) (S (ncalls w)) = None ->
  answer (broker w) (S (S (ncalls w))) = None ->
  answer (broker w) (S (S (S (ncalls w)))) = Some consumeErr ->
  exists w', SendRequest toSend timeout w
             = Returns (None, Some consumeErr) w'.
Proof.
  intros H0 H1 H2 H3.
  unfold SendRequest, bind, log, emit, gets, deref, fresh, call, ret.
  cbn. rewrite Hconn. cbn. rewrite H0. cbn. rewrite H1. cbn.
  rewrite H2. cbn. rewrite H3. cbn. eexists. reflexivity.
Qed.

End SendRequestSetup.

(** C1. SendRequest on a running service whose broker refuses to open
    the fresh channel: the call returns the nil channel together with a
    nil error, after reporting [true] on [DoneSignal]. The specification
    asks for a non-nil error here, which the three later setup steps do
    return. *)
Theorem SendRequest_channel_failure_returns_nil_error :
  exists w',
    SendRequest Fixture.aRequest (5 * Second)%Z
                (Fixture.runningWorld (Fixture.refusing [10]))
    = Returns (None, None) w'
    /\ events w' = [EvLog Debug "Submitting request to send";
                    EvCall 10 (ConnChannel 0) (Some "refused");
                    EvLog Critical "Unable to get the reply channel:\n\t%v";
                    EvSend DoneSignalC (VBool true)].
Proof. eexists. split; vm_compute; reflexivity. Qed.

(** ** The goroutine that waits for the reply *)

Section ReplyTask.

Variables (w : World) (p : ReplyWait).

(** A delivery that does not decode: it is acknowledged, the error is
    logged and the goroutine returns. Nothing closes the reply
    channel. *)
Lemma replyTask_decode_error (d : Delivery) (decodeErr : string) :
  decode (codec w) d = inr decodeErr ->
  exists w',
    replyTask p (Delivered d) w = Returns tt w'
    /\ emitted w w'
         [EvCall (ncalls w) (Ack d false) (answer (broker w) (ncalls w));
          EvLog LError "An error occurred while decoding a message: \n\t%v"].
Proof.
  intros H.
  unfold replyTask, bind, ret, call, DecodeAndHandle, log, emit. cbn.
  rewrite H. eexists. split; reflexivity.
Qed.

(** A delivery that decodes to something else than a Reply is logged
    as unexpected, and the reply channel is closed. *)
Lemma replyTask_unexpected_closes (d : Delivery) (m : Decoded) :
  decode (codec w) d = inl m ->
  (forall reply, m <> DReply reply) ->
  exists w' l, replyTask p (Delivered d) w = Returns tt w'
               /\ emitted w w' l
               /\ closed_channels l = [replyChannel p].
Proof.
  intros H Hm.
  unfold replyTask, bind, ret, call, DecodeAndHandle, log, emit, when. cbn.
  rewrite H.
  destruct m as [r|r|a|i]; [|exfalso; apply (Hm r); reflexivity| |]; cbn;
    destruct (answer (broker w) (S (ncalls w))); cbn;
      do 2 eexists;
      (split; [reflexivity|]); (split; [solve_emitted|]); reflexivity.
Qed.

(** The timer of a positive timeout: the synthesized Reply goes to the
    caller's channel and the reply channel is closed. *)
Lemma replyTask_timeout_closes (c : chan Reply) :
  (0 < replyTimeout p)%Z ->
  nth_error (replyChans w) (replyChanFull p) = Some c ->
  has_room c = true ->
  exists w' l, replyTask p TimedOut w = Returns tt w'
               /\ emitted w w' l
               /\ closed_channels l = [replyChannel p].
Proof.
  intros Ht Hn Hr.
  unfold replyTask, bind, ret, call, log, emit, when, gets, replyChan_send.
  cbn. destruct (Z.leb_spec (replyTimeout p) 0) as [Hle|_]; [lia|].
  cbn. rewrite Hn. rewrite (send_has_room _ _ Hr). cbn.
  destruct (answer (broker w) (ncalls w)); cbn;
    do 2 eexists;
    (split; [reflexivity|]); (split; [solve_emitted|]); reflexivity.
Qed.

End ReplyTask.

(** C2. SendRequest succeeds, then the first delivery on the reply
    stream does not decode: the goroutine acknowledges it, logs the
    error and returns, and no call closes the reply channel. The
    specification, like the comment above the goroutine, asks for the
    channel to be closed on this path too. *)
Theorem replyTask_decode_failure_skips_close :
  Fixture.requested = Returns (Some Fixture.pending, None) (final Fixture.requested)
  /\ replyTask Fixture.pending (Delivered Fixture.garbled) (final Fixture.requested)
     = Returns tt (final (replyTask Fixture.pending (Delivered Fixture.garbled)
                                    (final Fixture.requested)))
  /\ closed_channels
       (events (final (replyTask Fixture.pending (Delivered Fixture.garbled)
                                 (final Fixture.requested)))) = [].
Proof. split; [|split]; vm_compute; reflexivity. Qed.

(** ** Starting the service *)

(** C6. StartService against a broker that refuses both dials: the
    service dials, waits 10 seconds, dials once more, reports [true] on
    [DoneSignal] once and stops there: no further dial, no other call
    on the broker. The start call then logs that the service did not
    start and returns the service pointer as it does after a successful
    start: non-nil, with no error to tell the two apart. The
    specification asks for an error to reach the caller, and the caller
    in the repository tests the pointer against nil. *)
Theorem StartService_after_two_failed_dials :
  forall (w : World) (brokerAddress queueName : string) (sched : list Ready)
         (e1 e2 : string),
    answer (broker w) (ncalls w) = Some e1 ->
    answer (broker w) (S (ncalls w)) = Some e2 ->
    exists s w',
      StartService brokerAddress queueName sched w = Returns (Some s) w'
      /\ service w' = s
      /\ Connected s = false
      /\ connection s = None
      /\ emitted w w'
           (senderInfoWarning (host w) ++
            [EvCall (ncalls w) (Dial brokerAddress) (Some e1);
             EvLog Warning
               "Unable to connect on first attempt.  Waiting 10 seconds to try again.";
             EvSleep (10 * Second)%Z;
             EvLog Debug "Second attempt to connect";
             EvCall (S (ncalls w)) (Dial brokerAddress) (Some e2);
             EvLog Critical
               "Unable to connect to the AMQP broker at (%s) for receiving:\n\t%v";
             EvSend DoneSignalC (VBool true);
             EvLog Critical "Service did not start"]).
Proof.
  intros w addr queue sched e1 e2 H1 H2.
  destruct w as [svc [ans nm] [[exe exeErr] [hn hnErr] [usr usrErr] uu]
                     cd n u sc rc tr].
  cbn in H1, H2.
  destruct exeErr, hnErr, usrErr;
    vm_compute; rewrite H1; vm_compute; rewrite H2; vm_compute;
    do 2 eexists; (split; [reflexivity|]); auto.
Qed.

Lemma StartService_after_two_failed_dials_witness :
  answer (broker (Fixture.world ServiceDefaults (Fixture.refusing [0; 1]))) 0
  = Some "refused"
  /\ answer (broker (Fixture.world ServiceDefaults (Fixture.refusing [0; 1]))) 1
     = Some "refused"
  /\ exists s w',
      StartService "amqp://broker" "q1" []
                   (Fixture.world ServiceDefaults (Fixture.refusing [0; 1]))
      = Returns (Some s) w'
      /\ service w' = s
      /\ Connected s = false
      /\ connection s = None
      /\ emitted (Fixture.world ServiceDefaults (Fixture.refusing [0; 1])) w'
           (senderInfoWarning Fixture.aHost ++
            [EvCall 0 (Dial "amqp://broker") (Some "refused");
             EvLog Warning
               "Unable to connect on first attempt.  Waiting 10 seconds to try again.";
             EvSleep (10 * Second)%Z;
             EvLog Debug "Second attempt to connect";
             EvCall 1 (Dial "amqp://broker") (Some "refused");
             EvLog Critical
               "Unable to connect to the AMQP broker at (%s) for receiving:\n\t%v";
             EvSend DoneSignalC (VBool true);
             EvLog Critical "Service did not start"]).
Proof.
  split; [reflexivity|]. split; [reflexivity|].
  apply (@StartService_after_two_failed_dials
           (Fixture.world ServiceDefaults (Fixture.refusing [0; 1]))
           "amqp://broker" "q1" [] "refused" "refused");
    reflexivity.
Defined.

(** ** Inbound deliveries *)

Lemma forwarded_chan_send {A : Type} (f : Field A) (v : A) (ack : Event)
      (w w1 : World) :
  service w1 = service w ->
  trace w1 = ack :: trace w ->
  forwarded f v ack w
    (match chan_send f v w1 with
     | Returns _ w' => Returns Continue w'
     | Blocks w' => Blocks w'
     | Panics w' => Panics w'
     end).
Proof.
  intros Hs Ht. unfold forwarded, chan_send. rewrite Hs.
  pose proof (send_cases (fget f (service w)) v) as Hc.
  destruct (has_room (fget f (service w))) eqn:Hroom.
  - rewrite (send_has_room _ _ Hroom). eexists. split; [reflexivity|].
    split; [unfold emitted; cbn; rewrite Ht; reflexivity|reflexivity].
  - destruct (Chan.send (fget f (service w)) v).
    + destruct Hc as [Hc _]. congruence.
    + exists w1. unfold emitted. cbn. auto.
    + exists w1. unfold emitted. cbn. auto.
Qed.

(** C7. Every delivery the event router takes from the inbound stream
    is acknowledged exactly once, as the first action of the iteration
    and before it is decoded, whatever the decoding gives. A delivery
    that does not decode is logged and dropped; a decoded Request, Alert
    or Info goes to the inbound channel of its kind and to no other; a
    decoded Reply is logged as an error and dropped. The loop goes on in
    every case, and the service makes no other call on the broker for
    the delivery. *)
Theorem inbound_delivery_acked_once_then_dispatched :
  forall (w : World) (conn : ConnId) (amqpMessage : Delivery) (stream : StreamId),
    messageQueue (Receiver (service w)) = Some stream ->
    let ack := EvCall (ncalls w) (Ack amqpMessage false)
                      (answer (broker w) (ncalls w)) in
    let o := selectCase conn (OnMessageQueue (Some amqpMessage)) w in
    match decode (codec w) amqpMessage with
    | inr _ =>
        dropped "An error occurred while decoding a message: \n\t%v" ack w o
    | inl (DRequest request) => forwarded f_RequestChan request ack w o
    | inl (DReply reply) => dropped "Received an unexpected reply" ack w o
    | inl (DAlert alert) => forwarded f_AlertChan alert ack w o
    | inl (DInfo info) => forwarded f_InfoChan info ack w o
    end.
Proof.
  intros w conn d stream Hq ack o.
  pose (w1 := set_ncalls (S (ncalls w)) (set_trace (ack :: trace w) w)).
  assert (Hs : service w1 = service w) by reflexivity.
  assert (Ht : trace w1 = ack :: trace w) by reflexivity.
  assert (Ho : o = match decode (codec w) d with
                   | inl (DRequest request) =>
                       match chan_send f_RequestChan request w1 with
                       | Returns _ w' => Returns Continue w'
                       | Blocks w' => Blocks w'
                       | Panics w' => Panics w'
                       end
                   | inl (DReply _) =>
                       Returns Continue
                         (set_trace (EvLog LError "Received an unexpected reply"
                                     :: trace w1) w1)
                   | inl (DAlert alert) =>
                       match chan_send f_AlertChan alert w1 with
                       | Returns _ w' => Returns Continue w'
                       | Blocks w' => Blocks w'
                       | Panics w' => Panics w'
                       end
                   | inl (DInfo info) =>
                       match chan_send f_InfoChan info w1 with
                       | Returns _ w' => Returns Continue w'
                       | Blocks w' => Blocks w'
                       | Panics w' => Panics w'
                       end
                   | inr _ =>
                       Returns Continue
                         (set_trace
                            (EvLog LError
                               "An error occurred while decoding a message: \n\t%v"
                             :: trace w1) w1)
                   end).
  { subst o. unfold selectCase. unfold bind at 1, gets at 1. rewrite Hq.
    unfold bind at 1, call at 1. fold ack. fold w1.
    unfold bind at 1, DecodeAndHandle. change (codec w1) with (codec w).
    destruct (decode (codec w) d) as [[request|reply|alert|info]|decodeErr];
      unfold bind, ret, log, emit;
      try match goal with
          | |- context [chan_send ?f ?v w1] => destruct (chan_send f v w1)
          end; reflexivity. }
  clearbody o w1. subst o.
  destruct (decode (codec w) d) as [[request|reply|alert|info]|decodeErr].
  - apply forwarded_chan_send; assumption.
  - eexists. split; [reflexivity|]. unfold emitted. cbn. rewrite Ht. auto.
  - apply forwarded_chan_send; assumption.
  - apply forwarded_chan_send; assumption.
  - eexists. split; [reflexivity|]. unfold emitted. cbn. rewrite Ht. auto.
Qed.

Lemma inbound_delivery_acked_once_then_dispatched_witness :
  messageQueue (Receiver (service (Fixture.subscribed (Some 9) (Fixture.refusing []))))
  = Some 9
  /\ forwarded f_RequestChan Fixture.aRequest
               (EvCall 10 (Ack (Fixture.delivery 1 [x01]) false) None)
               (Fixture.subscribed (Some 9) (Fixture.refusing []))
               (selectCase 0 (OnMessageQueue (Some (Fixture.delivery 1 [x01])))
                           (Fixture.subscribed (Some 9) (Fixture.refusing []))).
Proof.
  split; [reflexivity|].
  exact (@inbound_delivery_acked_once_then_dispatched
           (Fixture.subscribed (Some 9) (Fixture.refusing [])) 0
           (Fixture.delivery 1 [x01]) 9 eq_refl).
Defined.

(** ** Channel cancellation *)

Lemma opened_gets {A : Type} (g : AmqpService -> A) : preserves opened (gets g).
Proof. intro w. reflexivity. Qed.

Lemma opened_modify (g : AmqpService -> AmqpService) :
  preserves opened (modify g).
Proof. intro w. reflexivity. Qed.

Lemma opened_log (l : Level) (msg : string) : preserves opened (log l msg).
Proof. intro w. reflexivity. Qed.

Lemma opened_call (c : BrokerCall) :
  opens_channel c = false -> preserves opened (call c).
Proof. intros H w. unfold opened. cbn. rewrite H. reflexivity. Qed.

Lemma opened_fresh (c : BrokerCall) :
  opens_channel c = false -> preserves opened (fresh c).
Proof.
  intros H. unfold fresh. apply preserves_bind.
  - apply opened_call, H.
  - intros r. destruct (snd r); apply preserves_ret.
Qed.

Lemma opened_chan_send {A : Type} (f : Field A) (v : A) :
  preserves opened (chan_send f v).
Proof.
  intro w. unfold chan_send.
  destruct (Chan.send (fget f (service w)) v); reflexivity.
Qed.

Lemma opened_send_DoneSignal (b : bool) : preserves opened (send_DoneSignal b).
Proof.
  intro w. unfold send_DoneSignal.
  destruct (startCall w); try apply opened_chan_send.
  destruct (buf (DoneSignal (service w))); try apply opened_chan_send.
  destruct (closed (DoneSignal (service w))); reflexivity.
Qed.

Ltac opened_step :=
  first [ apply opened_gets | apply opened_modify | apply opened_log
        | apply opened_send_DoneSignal | apply opened_chan_send
        | apply opened_call; reflexivity | apply opened_fresh; reflexivity ].

Lemma opened_beginConsuming : preserves opened beginConsuming.
Proof. unfold beginConsuming. preserve_with opened_step. Qed.

Lemma opened_exchangeSetup (name critical ready : string) :
  preserves opened (exchangeSetup name critical ready).
Proof. unfold exchangeSetup. preserve_with opened_step. Qed.

(** One run of the channel setup asks the connection for exactly one
    channel, however far the run gets. *)
Lemma channelSetupFunc_opens_one (conn : ConnId) (w : World) :
  opened (final (channelSetupFunc conn w)) = S (opened w).
Proof.
  unfold channelSetupFunc. rewrite final_bind.
  unfold fresh at 1. unfold bind at 1, call at 1.
  set (w1 := set_ncalls _ _).
  assert (H1 : opened w1 = S (opened w)) by reflexivity.
  rewrite <- H1. clearbody w1. clear H1.
  destruct (snd (ncalls w, answer (broker w) (ncalls w))); cbn [ret].
  - match goal with |- opened (final (?m w1)) = _ =>
      assert (H : preserves opened m); [|apply H] end.
    preserve_with opened_step.
  - match goal with |- opened (final (?m w1)) = _ =>
      assert (H : preserves opened m); [|apply H] end.
    preserve_with ltac:(first [ apply opened_beginConsuming
                              | apply opened_exchangeSetup | opened_step ]).
Qed.

(** C4. When the channel-cancel feed delivers a value, the iteration
    runs the channel setup once and leaves the loop: the iteration is
    the setup followed by the exit, so that as soon as the setup returns,
    successful or not, the loop has exited; no outcome is a further
    iteration; exactly one channel is asked of the connection; and
    whatever else is ready after the cancel event is not serviced. *)
Theorem channel_cancel_resets_once_then_exits :
  forall (w : World) (conn : ConnId) (channelCanceled : string)
         (rest : list Ready),
    amqpLoop conn (OnChannelCancel (Some channelCanceled) :: rest) w
    = match channelSetupFunc conn (canceled w) with
      | Returns _ w' => Returns Exited w'
      | Blocks w' => Blocks w'
      | Panics w' => Panics w'
      end
    /\ (forall w', channelSetupFunc conn (canceled w) = Returns tt w' ->
                   amqpLoop conn (OnChannelCancel (Some channelCanceled) :: rest) w
                   = Returns Exited w')
    /\ match amqpLoop conn (OnChannelCancel (Some channelCanceled) :: rest) w with
       | Returns e _ => e = Exited
       | Blocks _ | Panics _ => True
       end
    /\ opened (final (amqpLoop conn
                        (OnChannelCancel (Some channelCanceled) :: rest) w))
       = S (opened w)
    /\ amqpLoop conn (OnChannelCancel (Some channelCanceled) :: rest) w
       = amqpLoop conn [OnChannelCancel (Some channelCanceled)] w.
Proof.
  intros w conn tag rest.
  assert (Hstep : forall l,
             amqpLoop conn (OnChannelCancel (Some tag) :: l) w
             = match channelSetupFunc conn (canceled w) with
               | Returns _ w' => Returns Exited w'
               | Blocks w' => Blocks w'
               | Panics w' => Panics w'
               end).
  { intros l. cbn [amqpLoop selectCase]. unfold bind, log, emit, ret.
    change (set_trace (EvLog LInfo _ :: _) _) with (canceled w).
    destruct (channelSetupFunc conn (canceled w)); reflexivity. }
  split; [apply Hstep|]. split; [|split; [|split]].
  - intros w' H. rewrite Hstep, H. reflexivity.
  - rewrite Hstep. destruct (channelSetupFunc conn (canceled w)); auto.
  - rewrite Hstep.
    pose proof (channelSetupFunc_opens_one conn (canceled w)) as H.
    destruct (channelSetupFunc conn (canceled w)); exact H.
  - rewrite (Hstep rest), (Hstep []). reflexivity.
Qed.

Lemma channel_cancel_resets_once_then_exits_witness :
  (* the re-setup fails at the queue declaration *)
  (channelSetupFunc 0 (canceled (Fixture.runningWorld (Fixture.refusing [11])))
   = Returns tt (final (channelSetupFunc 0
                          (canceled (Fixture.runningWorld (Fixture.refusing [11])))))
   /\ amqpLoop 0 [OnChannelCancel (Some "ctag"); OnStopQueue]
               (Fixture.runningWorld (Fixture.refusing [11]))
      = Returns Exited
                (final (channelSetupFunc 0
                          (canceled (Fixture.runningWorld (Fixture.refusing [11]))))))
  (* the re-setup succeeds *)
  /\ (channelSetupFunc 0 (canceled (Fixture.runningWorld (Fixture.refusing [])))
      = Returns tt (final (channelSetupFunc 0
                             (canceled (Fixture.runningWorld (Fixture.refusing [])))))
      /\ amqpLoop 0 [OnChannelCancel (Some "ctag"); OnStopQueue]
                  (Fixture.runningWorld (Fixture.refusing []))
         = Returns Exited
                   (final (channelSetupFunc 0
                             (canceled (Fixture.runningWorld (Fixture.refusing [])))))).
Proof.
  split.
  - assert (H : channelSetupFunc 0 (canceled (Fixture.runningWorld (Fixture.refusing [11])))
                = Returns tt (final (channelSetupFunc 0
                          (canceled (Fixture.runningWorld (Fixture.refusing [11]))))))
      by (vm_compute; reflexivity).
    split; [exact H|].
    exact (proj1 (proj2 (channel_cancel_resets_once_then_exits
                           (Fixture.runningWorld (Fixture.refusing [11])) 0
                           "ctag" [OnStopQueue])) _ H).
  - assert (H : channelSetupFunc 0 (canceled (Fixture.runningWorld (Fixture.refusing [])))
                = Returns tt (final (channelSetupFunc 0
                          (canceled (Fixture.runningWorld (Fixture.refusing []))))))
      by (vm_compute; reflexivity).
    split; [exact H|].
    exact (proj1 (proj2 (channel_cancel_resets_once_then_exits
                           (Fixture.runningWorld (Fixture.refusing [])) 0
                           "ctag" [OnStopQueue])) _ H).
Defined.

(** ** The liveness flag *)

Lemma Connected_gets {A : Type} (g : AmqpService -> A) :
  preserves liveness (gets g).
Proof. intro w. reflexivity. Qed.

Lemma Connected_modify (g : AmqpService -> AmqpService) :
  (forall s, Connected (g s) = Connected s) -> preserves liveness (modify g).
Proof. intros H w. apply H. Qed.

Lemma Connected_log (l : Level) (msg : string) : preserves liveness (log l msg).
Proof. intro w. reflexivity. Qed.

Lemma Connected_call (c : BrokerCall) : preserves liveness (call c).
Proof. intro w. reflexivity. Qed.

Lemma Connected_fresh (c : BrokerCall) : preserves liveness (fresh c).
Proof.
  unfold fresh. apply preserves_bind; [apply Connected_call|].
  intros r. destruct (snd r); apply preserves_ret.
Qed.

Lemma Connected_uuid_new : preserves liveness uuid_new.
Proof. intro w. reflexivity. Qed.

Lemma Connected_chan_send {A : Type} (f : Field A) (v : A) :
  (forall c s, Connected (fset f c s) = Connected s) ->
  preserves liveness (chan_send f v).
Proof.
  intros H w. unfold chan_send.
  destruct (Chan.send (fget f (service w)) v); cbn; auto.
  unfold liveness. cbn. apply H.
Qed.

Lemma Connected_chan_recv {A : Type} (f : Field A) :
  (forall c s, Connected (fset f c s) = Connected s) ->
  preserves liveness (chan_recv f).
Proof.
  intros H w. unfold chan_recv.
  destruct (Chan.recv (fget f (service w))); cbn; auto.
  unfold liveness. cbn. apply H.
Qed.

Lemma Connected_send_DoneSignal (b : bool) :
  preserves liveness (send_DoneSignal b).
Proof.
  intro w. unfold send_DoneSignal.
  destruct (startCall w);
    try (apply (Connected_chan_send f_DoneSignal); reflexivity).
  destruct (buf (DoneSignal (service w)));
    try (apply (Connected_chan_send f_DoneSignal); reflexivity).
  destruct (closed (DoneSignal (service w))); reflexivity.
Qed.

Ltac liveness_step :=
  first [ apply Connected_gets | apply Connected_log | apply Connected_call
        | apply Connected_fresh | apply Connected_uuid_new
        | apply Connected_send_DoneSignal
        | apply Connected_chan_send; reflexivity
        | apply Connected_chan_recv; reflexivity
        | apply Connected_modify; reflexivity ].

Lemma Connected_beginConsuming : preserves liveness beginConsuming.
Proof. unfold beginConsuming. preserve_with liveness_step. Qed.

Lemma Connected_exchangeSetup (name critical ready : string) :
  preserves liveness (exchangeSetup name critical ready).
Proof. unfold exchangeSetup. preserve_with liveness_step. Qed.

Lemma Connected_channelSetupFunc (conn : ConnId) :
  preserves liveness (channelSetupFunc conn).
Proof.
  unfold channelSetupFunc.
  preserve_with ltac:(first [ apply Connected_beginConsuming
                            | apply Connected_exchangeSetup | liveness_step ]).
Qed.

Lemma Connected_Message_send (m : Message) (ch : option ChannelId)
      (body : list byte) :
  preserves liveness (Message_send m ch body).
Proof. unfold Message_send. preserve_with liveness_step. Qed.

Lemma Connected_outbound {A : Type} (f : Field A)
      (encode : Codec -> A -> A * list byte * error) (envelope : A -> Message)
      (closedMsg sending encFailed : string) :
  (forall c s, Connected (fset f c s) = Connected s) ->
  preserves liveness (outbound f encode envelope closedMsg sending encFailed).
Proof.
  intros H. unfold outbound.
  apply preserves_bind; [apply Connected_chan_recv, H|].
  intros [msg| |]; [| preserve_with liveness_step ..].
  apply preserves_bind; [apply Connected_log|].
  intros _ w. cbv beta.
  destruct (encode (codec w) msg) as [[msg' body] [e|]]; apply preserves_at;
    preserve_with ltac:(first [apply Connected_Message_send | liveness_step]).
Qed.

Lemma Connected_selectCase (conn : ConnId) (r : Ready) :
  preserves liveness (selectCase conn r).
Proof.
  destruct r as [ |[x|]|[x|]|[x|]| | | | |[d|]]; unfold selectCase;
    try (apply Connected_outbound; reflexivity);
    preserve_with ltac:(first [ apply Connected_channelSetupFunc
                              | liveness_step ]).
Qed.

(** The event router never writes [Connected], whatever it services. *)
Lemma Connected_amqpLoop (conn : ConnId) (sched : list Ready) :
  preserves liveness (amqpLoop conn sched).
Proof.
  induction sched as [|r rest IH]; cbn [amqpLoop].
  - apply preserves_ret.
  - apply preserves_bind; [apply Connected_selectCase|].
    intros [ | | ]; [apply preserves_ret | exact IH | apply preserves_ret].
Qed.

Lemma Connected_deferred (conn : ConnId) (dch : option ChannelId) :
  preserves liveness (deferred conn dch).
Proof. unfold deferred. preserve_with liveness_step. Qed.

Lemma Connected_serve (conn : ConnId) (dch : option ChannelId)
      (sched : list Ready) :
  preserves liveness (serve conn dch sched).
Proof.
  unfold serve.
  preserve_with ltac:(first [ apply Connected_deferred
                            | apply Connected_amqpLoop | liveness_step ]).
Qed.

(** ** The exits of the event router *)

(** A value or the end of the connection-close feed: the loop is left
    at once, with the service as it was and no call on the broker. *)
Lemma selectCase_OnConnClose (conn : ConnId) (x : option string) (w : World) :
  exists w', selectCase conn (OnConnClose x) w = Returns Break w'
             /\ service w' = service w /\ ncalls w' = ncalls w.
Proof. destruct x; eexists; repeat split. Qed.

(** C5, as amended. When the connection-close feed fires (or is
    closed), the event router leaves its loop at once, whatever else is
    ready: nothing inbound or outbound is serviced after it. The
    liveness flag is not cleared: neither the router nor the teardown
    that follows writes [Connected], which keeps the value it had while
    the service was running. *)
Theorem connection_close_exits_and_keeps_Connected :
  forall (w : World) (conn : ConnId) (dch : option ChannelId)
         (connectionClosed : option string) (rest : list Ready),
    (exists w', amqpLoop conn (OnConnClose connectionClosed :: rest) w
                = Returns Exited w'
                /\ service w' = service w /\ ncalls w' = ncalls w)
    /\ Connected (service (final (serve conn dch
                                        (OnConnClose connectionClosed :: rest) w)))
       = Connected (service w).
Proof.
  intros w conn dch x rest. split.
  - destruct (selectCase_OnConnClose conn x w) as (w1 & Hs & Hsvc & Hn).
    exists w1. cbn [amqpLoop]. unfold bind at 1. rewrite Hs. auto.
  - apply (Connected_serve conn dch (OnConnClose x :: rest) w).
Qed.

(** C5 as stated fails: a service started with StartService whose
    connection the broker then closes. The router exits and the
    teardown runs, and [Connected] is still [true] afterwards. *)
Lemma Connected_still_true_after_connection_close :
  match StartService "amqp://broker" "q1" [OnConnClose (Some "closed by broker")]
                     (Fixture.world ServiceDefaults (Fixture.refusing [])) with
  | Returns (Some s) w' =>
      Connected s = true
      /\ closed_channels (events w') = [2]
      /\ hd_error (trace w') = Some (EvCall 11 (ConnClose 0) None)
  | _ => False
  end.
Proof. vm_compute. repeat split. Qed.

(** The deferred calls of a service that holds a channel [c] and that
    opened the channel [c0] at startup. *)
Lemma deferred_runs (conn : ConnId) (c0 c : ChannelId) (w : World) :
  channel (service w) = Some c ->
  exists w' l,
    deferred conn (Some c0) w = Returns tt w'
    /\ emitted w w' l
    /\ actions l
       = [EvCall (ncalls w)
                 (QueueDelete c (QueueName (Receiver (service w)))
                              false false false)
                 (answer (broker w) (ncalls w));
          EvCall (S (ncalls w)) (ChannelClose c0)
                 (answer (broker w) (S (ncalls w)));
          EvCall (S (S (ncalls w))) (ConnClose conn)
                 (answer (broker w) (S (S (ncalls w))))].
Proof.
  intros Hch.
  unfold deferred, run_deferred, bind, gets, deref, call, when, log, emit, ret.
  cbn. rewrite Hch. cbn.
  destruct (answer (broker w) (ncalls w)); cbn;
    do 2 eexists; (split; [reflexivity|]); (split; [solve_emitted|]);
    reflexivity.
Qed.

(** C3, as amended. Whenever the event router leaves its loop, for
    whatever reason, it first sends [true] on [DoneSignal]; once that
    send has completed the function returns and its deferred calls run:
    the receive queue is deleted (through the channel the service holds
    then), the channel opened at startup is closed, the connection is
    closed, in that order. *)
Theorem DoneSignal_then_teardown :
  forall (w : World) (conn : ConnId) (c0 c : ChannelId)
         (sched : list Ready) (w1 : World),
    amqpLoop conn sched w = Returns Exited w1 ->
    channel (service w1) = Some c ->
    DoneSignal_ready w1 = true ->
    exists w' l,
      serve conn (Some c0) sched w = Returns Stopped w'
      /\ emitted w1 w' l
      /\ actions l
         = [EvSend DoneSignalC (VBool true);
            EvCall (ncalls w1)
                   (QueueDelete c (QueueName (Receiver (service w1)))
                                false false false)
                   (answer (broker w1) (ncalls w1));
            EvCall (S (ncalls w1)) (ChannelClose c0)
                   (answer (broker w1) (S (ncalls w1)));
            EvCall (S (S (ncalls w1))) (ConnClose conn)
                   (answer (broker w1) (S (S (ncalls w1))))].
Proof.
  intros w conn c0 c sched w1 Hloop Hch Hready.
  destruct (send_DoneSignal_ready true w1 Hready)
    as (w2 & Hsend & Htr & Hn & Hbr & Hch2 & Hrecv & _).
  rewrite <- Hch2 in Hch.
  destruct (deferred_runs conn c0 c w2 Hch) as (w' & l & Hdef & Hem & Hact).
  exists w', (EvSend DoneSignalC (VBool true) :: l).
  split; [|split].
  - unfold serve. unfold bind at 1. unfold unwinding. unfold bind at 1.
    rewrite Hloop. unfold bind at 1. rewrite Hsend. unfold ret at 1.
    unfold bind at 1. rewrite Hdef. reflexivity.
  - unfold emitted in *. rewrite Hem, Htr. cbn [rev].
    rewrite <- app_assoc. reflexivity.
  - unfold actions in *. cbn [filter is_log negb].
    rewrite Hact, Hn, Hbr, Hrecv. reflexivity.
Qed.

(** While the send on [DoneSignal] cannot complete, none of the
    deferred calls runs. *)
Lemma serve_parks_before_teardown
      (w : World) (conn : ConnId) (dch : option ChannelId)
      (sched : list Ready) (w1 : World) :
  amqpLoop conn sched w = Returns Exited w1 ->
  DoneSignal_ready w1 = false ->
  closed (DoneSignal (service w1)) = false ->
  serve conn dch sched w = Blocks w1.
Proof.
  intros Hloop Hready Hclosed. unfold serve. unfold bind at 1.
  unfold unwinding. unfold bind at 1. rewrite Hloop. unfold bind at 1.
  rewrite (send_DoneSignal_not_ready true w1 Hready Hclosed). reflexivity.
Qed.

Lemma DoneSignal_then_teardown_witness :
  amqpLoop 0 [OnStopQueue] (final (Stop (Fixture.runningWorld (Fixture.refusing []))))
  = Returns Exited
      (final (amqpLoop 0 [OnStopQueue]
                (final (Stop (Fixture.runningWorld (Fixture.refusing []))))))
  /\ channel (service
       (final (amqpLoop 0 [OnStopQueue]
                 (final (Stop (Fixture.runningWorld (Fixture.refusing [])))))))
     = Some 2
  /\ DoneSignal_ready
       (final (amqpLoop 0 [OnStopQueue]
                 (final (Stop (Fixture.runningWorld (Fixture.refusing []))))))
     = true
  /\ exists w' l,
      serve 0 (Some 2) [OnStopQueue]
            (final (Stop (Fixture.runningWorld (Fixture.refusing []))))
      = Returns Stopped w'
      /\ emitted (final (amqpLoop 0 [OnStopQueue]
                  (final (Stop (Fixture.runningWorld (Fixture.refusing []))))))
                 w' l
      /\ actions l
         = [EvSend DoneSignalC (VBool true);
            EvCall 10 (QueueDelete 2 "my_queue" false false false) None;
            EvCall 11 (ChannelClose 2) None;
            EvCall 12 (ConnClose 0) None].
Proof.
  split; [vm_compute; reflexivity|].
  split; [vm_compute; reflexivity|].
  split; [vm_compute; reflexivity|].
  apply (DoneSignal_then_teardown
           (final (Stop (Fixture.runningWorld (Fixture.refusing []))))
           0 2 2 [OnStopQueue]
           (final (amqpLoop 0 [OnStopQueue]
                     (final (Stop (Fixture.runningWorld (Fixture.refusing []))))))).
  - vm_compute; reflexivity.
  - vm_compute; reflexivity.
  - vm_compute; reflexivity.
Defined.

(** C3 as stated fails: Stop on a running service. The loop exits on
    the [true] it reads from the control channel, and [true] is sent on
    [DoneSignal] before the queue is deleted and before the channel and
    the connection are closed, not after. *)
Lemma DoneSignal_precedes_teardown :
  match (Stop ;; serve 0 (Some 2) [OnStopQueue])
          (Fixture.runningWorld (Fixture.refusing [])) with
  | Returns e w' =>
      e = Stopped
      /\ events w'
         = [EvLog Debug "Submitting stop request";
            EvSend stopQueueC (VBool true);
            EvLog LInfo "AMQP service stopping on interrupt.";
            EvSend DoneSignalC (VBool true);
            EvCall 10 (QueueDelete 2 "my_queue" false false false) None;
            EvCall 11 (ChannelClose 2) None;
            EvCall 12 (ConnClose 0) None]
  | Blocks _ | Panics _ => False
  end.
Proof. vm_compute. split; reflexivity. Qed.

(* ================================================================= *)
(** * Further properties of the service *)

(** ** Calls a goroutine body never makes *)

Section Never.

Variable q : BrokerCall -> bool.

Lemma never_gets {A : Type} (g : AmqpService -> A) : never q (gets g).
Proof. intro w. reflexivity. Qed.

Lemma never_modify (g : AmqpService -> AmqpService) : never q (modify g).
Proof. intro w. reflexivity. Qed.

Lemma never_log (l : Level) (msg : string) : never q (log l msg).
Proof. intro w. reflexivity. Qed.

Lemma never_sleep (d : Duration) : never q (time_Sleep d).
Proof. intro w. reflexivity. Qed.

Lemma never_uuid_new : never q uuid_new.
Proof. intro w. reflexivity. Qed.

Lemma never_make_replyChan : never q make_replyChan.
Proof. intro w. reflexivity. Qed.

Lemma never_replyChan_send (h : nat) (reply : Reply) :
  never q (replyChan_send h reply).
Proof.
  intro w. unfold replyChan_send.
  destruct (nth_error (replyChans w) h) as [c|]; [|reflexivity].
  destruct (Chan.send c reply); reflexivity.
Qed.

Lemma never_chan_send {A : Type} (f : Field A) (v : A) :
  never q (chan_send f v).
Proof.
  intro w. unfold chan_send.
  destruct (Chan.send (fget f (service w)) v); reflexivity.
Qed.

Lemma never_chan_recv {A : Type} (f : Field A) : never q (chan_recv f).
Proof.
  intro w. unfold chan_recv.
  destruct (Chan.recv (fget f (service w))); reflexivity.
Qed.

Lemma never_send_DoneSignal (b : bool) : never q (send_DoneSignal b).
Proof.
  intro w. unfold send_DoneSignal.
  destruct (startCall w); try apply never_chan_send.
  destruct (buf (DoneSignal (service w))); try apply never_chan_send.
  destruct (closed (DoneSignal (service w))); reflexivity.
Qed.

Lemma never_call (c : BrokerCall) : q c = false -> never q (call c).
Proof. intros H w. cbn. rewrite H. reflexivity. Qed.

Lemma never_fresh (c : BrokerCall) : q c = false -> never q (fresh c).
Proof.
  intros H. unfold fresh. apply preserves_bind.
  - apply never_call, H.
  - intros r. destruct (snd r); apply preserves_ret.
Qed.

(** The loop makes no call of a kind that none of its iterations
    makes. *)
Lemma never_amqpLoop (conn : ConnId) :
  (forall r, never q (selectCase conn r)) ->
  forall sched, never q (amqpLoop conn sched).
Proof.
  intros H sched. induction sched as [|r rest IH]; cbn [amqpLoop].
  - apply preserves_ret.
  - apply preserves_bind; [apply H|].
    intros [ | | ]; [apply preserves_ret | exact IH | apply preserves_ret].
Qed.

End Never.

Ltac never_step :=
  first [ apply never_gets | apply never_modify | apply never_log
        | apply never_sleep | apply never_uuid_new
        | apply never_make_replyChan | apply never_replyChan_send
        | apply never_send_DoneSignal | apply never_chan_send
        | apply never_chan_recv
        | apply never_call; reflexivity
        | apply never_fresh; reflexivity ].

(** A body that reads the world it runs in: the scrutinees it reads are
    taken apart, what is left is a body of its own. *)
Ltac open_world :=
  match goal with
  | |- preserves ?f (fun _ => _) =>
      let w0 := fresh "w" in
      intro w0; cbv beta zeta;
      repeat match goal with
             | |- context [final ((match ?x with _ => _ end) w0)] => destruct x
             end;
      first [reflexivity | apply (preserves_at f)]
  end.

Ltac go_with tac :=
  repeat first
    [ apply preserves_ret
    | apply preserves_panic
    | apply preserves_bind; [|intro]
    | apply preserves_when
    | apply preserves_deref; intro
    | apply preserves_run_deferred
    | apply preserves_unwinding
    | apply preserves_DecodeAndHandle; intro
    | apply preserves_if
    | match goal with
      | |- preserves _ (match ?x with _ => _ end) => destruct x
      end
    | open_world
    | tac ].

(** Unfolds the functions of the service down to their actions. *)
Ltac unfold_service :=
  unfold never, RequestHandler, SendRequest, replyTask, SendReply, SendAlert,
    SendInfo, Stop, SubscribeToRequests, SubscribeToAlerts, SubscribeToInfos,
    subscribeTo, runAmqpService, serve, deferred, selectCase, outbound,
    channelSetupFunc, exchangeSetup, beginConsuming, Message_send,
    fillDriplineSenderInfo.

Lemma selectCase_never_tears_down (conn : ConnId) (r : Ready) :
  never tears_down (selectCase conn r).
Proof.
  destruct r as [ |[x|]|[x|]|[x|]| | | | |[d|]]; unfold_service;
    go_with never_step.
Qed.

Lemma selectCase_as_designed (conn : ConnId) (r : Ready) :
  never off_design (selectCase conn r).
Proof.
  destruct r as [ |[x|]|[x|]|[x|]| | | | |[d|]]; unfold_service;
    go_with never_step.
Qed.

(** X1. While it loops, the event router makes no teardown call: it
    never deletes a queue and never closes a channel or the connection,
    whatever it services, not even the cancelled channel that a
    channel-cancel event makes it replace. *)
Theorem router_never_tears_down :
  forall (conn : ConnId) (sched : list Ready) (w : World),
    count_calls tears_down (trace (final (amqpLoop conn sched w)))
    = count_calls tears_down (trace w).
Proof.
  intros conn sched.
  apply (never_amqpLoop tears_down conn (selectCase_never_tears_down conn)).
Qed.

Lemma runAmqpService_as_designed (sched : list Ready) :
  never off_design (runAmqpService sched).
Proof.
  unfold_service.
  go_with ltac:(first [ apply (never_amqpLoop off_design); intro;
                        apply selectCase_as_designed
                      | never_step ]).
Qed.

Lemma SendRequest_as_designed (toSend : Request) (timeout : Duration) :
  never off_design (SendRequest toSend timeout).
Proof. unfold_service. go_with never_step. Qed.

Lemma replyTask_as_designed (p : ReplyWait) (a : Arrival) :
  never off_design (replyTask p a).
Proof. destruct a; unfold_service; go_with never_step. Qed.

Lemma subscribeTo_as_designed (exch : AmqpSender -> string) (key : string) :
  never off_design (subscribeTo exch key).
Proof. unfold_service. go_with never_step. Qed.

(** X2. Whatever the broker answers and whatever the router services,
    the service goroutine, SendRequest and its waiting goroutine, and
    the Subscribe functions only make calls of the designed shape: every
    queue they declare (the receive queue and every reply queue) is
    non-durable, auto-delete and exclusive; every exchange is a topic
    exchange that is neither durable nor auto-delete; every consumer is
    exclusive and acknowledges by hand; every acknowledgement is for one
    delivery; nothing is published as mandatory or immediate. *)
Theorem topology_as_designed :
  forall (w : World) (sched : list Ready) (toSend : Request)
         (timeout : Duration) (p : ReplyWait) (a : Arrival)
         (routingKey : string),
    let stray := fun w => count_calls off_design (trace w) in
    stray (final (runAmqpService sched w)) = stray w
    /\ stray (final (SendRequest toSend timeout w)) = stray w
    /\ stray (final (replyTask p a w)) = stray w
    /\ stray (final (SubscribeToRequests routingKey w)) = stray w
    /\ stray (final (SubscribeToAlerts routingKey w)) = stray w
    /\ stray (final (SubscribeToInfos routingKey w)) = stray w.
Proof.
  intros w sched toSend timeout p a key stray. subst stray. cbv beta.
  split; [apply (runAmqpService_as_designed sched)|].
  split; [apply (SendRequest_as_designed toSend timeout)|].
  split; [apply (replyTask_as_designed p a)|].
  split; [apply (subscribeTo_as_designed RequestExchangeName key)|].
  split; [apply (subscribeTo_as_designed AlertExchangeName key)|].
  apply (subscribeTo_as_designed InfoExchangeName key).
Qed.

(** ** The ends of the loop *)

Lemma recv_drained {A : Type} (c : chan A) :
  drained c = true -> Chan.recv c = RecvClosed.
Proof.
  unfold drained, Chan.recv. intros H.
  apply andb_true_iff in H. destruct H as [Hc Hb].
  destruct (buf c); [|discriminate]. rewrite Hc. reflexivity.
Qed.

(** X3. A source of the [select] that is closed with nothing left to
    deliver (the control channel, a notification feed, an outbound
    channel or the delivery stream) ends the loop at once: one error
    line is logged, nothing else changes, no call is made on the broker,
    and whatever else is ready is not serviced. *)
Theorem closed_source_ends_the_loop :
  forall (conn : ConnId) (r : Ready) (rest : list Ready) (w : World),
    source_closed r (service w) = true ->
    exists msg,
      amqpLoop conn (r :: rest) w
      = Returns Exited (set_trace (EvLog LError msg :: trace w) w).
Proof.
  intros conn r rest w H. cbn [amqpLoop]. unfold bind at 1.
  destruct r as [ |x|x|x| | | | |x]; cbn [source_closed] in H;
    try (destruct x; [discriminate|]; eexists; reflexivity);
    try (unfold selectCase, outbound, bind, chan_recv; cbn [fget f_stopQueue
           f_requestChan f_replyChan f_alertChan f_infoChan];
         rewrite (recv_drained _ H); eexists; reflexivity).
  apply andb_true_iff in H. destruct H as [Hx Hs].
  destruct x; [discriminate|].
  unfold selectCase, bind, gets.
  destruct (messageQueue (Receiver (service w))); [|discriminate].
  eexists. reflexivity.
Qed.

Lemma closed_source_ends_the_loop_witness :
  source_closed (OnChannelClose None)
                (service (Fixture.runningWorld (Fixture.refusing []))) = true
  /\ exists msg,
      amqpLoop 0 [OnChannelClose None; OnAlertChan]
               (Fixture.runningWorld (Fixture.refusing []))
      = Returns Exited
          (set_trace (EvLog LError msg
                      :: trace (Fixture.runningWorld (Fixture.refusing [])))
                     (Fixture.runningWorld (Fixture.refusing []))).
Proof.
  split; [reflexivity|].
  apply (closed_source_ends_the_loop 0 (OnChannelClose None) [OnAlertChan]
           (Fixture.runningWorld (Fixture.refusing []))).
  reflexivity.
Defined.

(** X4. Once the loop has exited it is not entered again: whatever
    becomes ready after the exit is not serviced. *)
Theorem exit_is_final :
  forall (conn : ConnId) (sched rest : list Ready) (w w' : World),
    amqpLoop conn sched w = Returns Exited w' ->
    amqpLoop conn (sched ++ rest) w = Returns Exited w'.
Proof.
  intros conn sched rest. induction sched as [|r s IH]; intros w w' H.
  - discriminate.
  - cbn [app amqpLoop] in *. unfold bind in *.
    destruct (selectCase conn r w) as [[ | | ] w1| w1| w1];
      try discriminate; auto.
Qed.

Lemma exit_is_final_witness :
  amqpLoop 0 [OnConnClose (Some "closed")]
           (Fixture.runningWorld (Fixture.refusing []))
  = Returns Exited
      (final (amqpLoop 0 [OnConnClose (Some "closed")]
                (Fixture.runningWorld (Fixture.refusing []))))
  /\ amqpLoop 0 ([OnConnClose (Some "closed")] ++ [OnAlertChan; OnStopQueue])
              (Fixture.runningWorld (Fixture.refusing []))
     = Returns Exited
         (final (amqpLoop 0 [OnConnClose (Some "closed")]
                   (Fixture.runningWorld (Fixture.refusing [])))).
Proof.
  assert (H : amqpLoop 0 [OnConnClose (Some "closed")]
                (Fixture.runningWorld (Fixture.refusing []))
              = Returns Exited
                  (final (amqpLoop 0 [OnConnClose (Some "closed")]
                            (Fixture.runningWorld (Fixture.refusing [])))))
    by reflexivity.
  split; [exact H|].
  exact (exit_is_final 0 [OnConnClose (Some "closed")] [OnAlertChan; OnStopQueue]
                       _ _ H).
Defined.

(** The router reads the [false] values that precede a [true] on the
    control channel and exits on the [true], leaving what follows it. *)
Lemma stop_after_sentinels (conn : ConnId) :
  forall (l l2 : list bool) (w : World),
    buf (stopQueue (service w)) = l ++ true :: l2 ->
    forallb negb l = true ->
    exists w',
      amqpLoop conn (repeat OnStopQueue (S (List.length l))) w = Returns Exited w'
      /\ buf (stopQueue (service w')) = l2
      /\ hd_error (trace w')
         = Some (EvLog LInfo "AMQP service stopping on interrupt.").
Proof.
  induction l as [|b t IH]; intros l2 w Hbuf Hall.
  - cbn [List.length repeat amqpLoop]. unfold bind at 1.
    unfold selectCase, bind, chan_recv, Chan.recv.
    cbn [f_stopQueue fget fset]. rewrite Hbuf. cbn.
    eexists. repeat split.
  - cbn in Hall. apply andb_true_iff in Hall. destruct Hall as [Hb Ht].
    apply negb_true_iff in Hb. subst b.
    change (repeat OnStopQueue (S (List.length (false :: t))))
      with (OnStopQueue :: repeat OnStopQueue (S (List.length t))).
    remember (repeat OnStopQueue (S (List.length t))) as s eqn:Hs.
    cbn [amqpLoop]. unfold bind at 1.
    unfold selectCase, bind, chan_recv, Chan.recv.
    cbn [f_stopQueue fget fset]. rewrite Hbuf. cbn. subst s.
    match goal with
    | |- exists w', amqpLoop conn _ ?w2 = _ /\ _ =>
        destruct (IH l2 w2) as (w' & Hloop & He & Hr);
          [reflexivity|assumption|]
    end.
    exists w'. rewrite Hloop. auto.
Qed.

(** X5. Stop ends the loop: when the control channel has room and holds
    nothing but [false] values, Stop enqueues [true], and the router,
    reading the control channel, goes through the [false] values and
    exits on the [true], with the control channel empty. *)
Theorem Stop_ends_the_loop :
  forall (conn : ConnId) (w : World),
    has_room (stopQueue (service w)) = true ->
    forallb negb (buf (stopQueue (service w))) = true ->
    exists w1 w',
      Stop w = Returns tt w1
      /\ amqpLoop conn
           (repeat OnStopQueue (S (List.length (buf (stopQueue (service w))))))
           w1
         = Returns Exited w'
      /\ buf (stopQueue (service w')) = []
      /\ hd_error (trace w')
         = Some (EvLog LInfo "AMQP service stopping on interrupt.").
Proof.
  intros conn w Hroom Hall.
  assert (HS : exists w1,
             Stop w = Returns tt w1
             /\ buf (stopQueue (service w1))
                = buf (stopQueue (service w)) ++ [true]).
  { unfold Stop, bind, log, emit, chan_send.
    cbn [f_stopQueue fget fset fname finj service set_trace trace].
    rewrite (send_has_room _ true Hroom). eexists. split; reflexivity. }
  destruct HS as (w1 & HS & Hb).
  destruct (stop_after_sentinels conn _ [] w1 Hb Hall) as (w' & Hloop & He & Hl).
  exists w1, w'. auto.
Qed.

Lemma Stop_ends_the_loop_witness :
  has_room (stopQueue (service (Fixture.runningWorld (Fixture.refusing []))))
  = true
  /\ forallb negb
       (buf (stopQueue (service (Fixture.runningWorld (Fixture.refusing [])))))
     = true
  /\ exists w1 w',
      Stop (Fixture.runningWorld (Fixture.refusing [])) = Returns tt w1
      /\ amqpLoop 0 (repeat OnStopQueue 1) w1 = Returns Exited w'
      /\ buf (stopQueue (service w')) = []
      /\ hd_error (trace w')
         = Some (EvLog LInfo "AMQP service stopping on interrupt.").
Proof.
  split; [reflexivity|]. split; [reflexivity|].
  exact (Stop_ends_the_loop 0 (Fixture.runningWorld (Fixture.refusing []))
                            eq_refl eq_refl).
Defined.

(** ** The reply path of SendRequest *)

(** X6. When the four setup calls succeed and the outbound Request
    channel has room, SendRequest opens a fresh channel, declares on it
    an anonymous reply queue, binds that queue to the requests exchange
    with the queue's own name as routing key, starts to consume from
    it, and only then enqueues the request, whose reply-to key is now
    the name the broker gave the queue. It returns a nil error and a
    new, empty result channel of capacity one. *)
Theorem SendRequest_sets_up_the_reply_path :
  forall (w : World) (c : ConnId) (toSend : Request) (timeout : Duration),
    connection (service w) = Some c ->
    answer (broker w) (ncalls w) = None ->
    answer (broker w) (S (ncalls w)) = None ->
    answer (broker w) (S (S (ncalls w))) = None ->
    answer (broker w) (S (S (S (ncalls w)))) = None ->
    has_room (requestChan (Sender (service w))) = true ->
    let n := ncalls w in
    let queueName := assignedName (broker w) (S n) in
    let sent := Request_set_ReplyTo toSend queueName in
    exists w' l,
      SendRequest toSend timeout w
      = Returns (Some {| replyChannel := n;
                         amqpReplyChan := S (S (S n));
                         waitRequest := sent;
                         replyTimeout := timeout;
                         replyChanFull := List.length (replyChans w) |},
                 None) w'
      /\ buf (requestChan (Sender (service w')))
         = buf (requestChan (Sender (service w))) ++ [sent]
      /\ replyChans w' = replyChans w ++ [Chan.make Reply 1]
      /\ emitted w w' l
      /\ actions l
         = [EvCall n (ConnChannel c) None;
            EvCall (S n) (QueueDeclare n EmptyString false true true false) None;
            EvCall (S (S n))
                   (QueueBind n queueName queueName
                              (RequestExchangeName (Sender (service w))) false)
                   None;
            EvCall (S (S (S n)))
                   (Consume n queueName EmptyString false true true false) None;
            EvSend requestChanC (VRequest sent)].
Proof.
  intros w c toSend timeout Hconn H0 H1 H2 H3 Hroom n queueName sent.
  subst n queueName sent.
  unfold SendRequest, bind, log, emit, gets, deref, fresh, call, ret,
    make_replyChan.
  cbn. rewrite Hconn. cbn. rewrite H0. cbn. rewrite H1. cbn.
  rewrite H2. cbn. rewrite H3. cbn.
  unfold chan_send. cbn. rewrite (send_has_room _ _ Hroom). cbn.
  do 2 eexists. split; [reflexivity|]. split; [reflexivity|].
  split; [reflexivity|]. split; [solve_emitted|]. reflexivity.
Qed.

Lemma SendRequest_sets_up_the_reply_path_witness :
  exists w' l,
    SendRequest Fixture.aRequest (5 * Second)%Z
                (Fixture.runningWorld (Fixture.refusing []))
    = Returns (Some Fixture.pending, None) w'
    /\ buf (requestChan (Sender (service w')))
       = [Request_set_ReplyTo Fixture.aRequest "amq.gen-1"]
    /\ replyChans w' = [Chan.make Reply 1]
    /\ emitted (Fixture.runningWorld (Fixture.refusing [])) w' l
    /\ actions l
       = [EvCall 10 (ConnChannel 0) None;
          EvCall 11 (QueueDeclare 10 EmptyString false true true false) None;
          EvCall 12 (QueueBind 10 "amq.gen-1" "amq.gen-1" "requests" false) None;
          EvCall 13 (Consume 10 "amq.gen-1" EmptyString false true true false)
                 None;
          EvSend requestChanC
                 (VRequest (Request_set_ReplyTo Fixture.aRequest "amq.gen-1"))].
Proof.
  exact (SendRequest_sets_up_the_reply_path
           (Fixture.runningWorld (Fixture.refusing [])) 0 Fixture.aRequest
           (5 * Second)%Z eq_refl eq_refl eq_refl eq_refl eq_refl eq_refl).
Defined.

(** X7. When the fresh channel opens and one of the three later setup
    steps fails (the [k]-th after the channel, the earlier ones having
    succeeded), SendRequest returns that step's error with a nil
    channel. The request is not enqueued, no result channel is made,
    the service is left as it was, and the channel that was opened is
    not closed. *)
Theorem SendRequest_failed_setup_sends_nothing :
  forall (w : World) (c : ConnId) (toSend : Request) (timeout : Duration)
         (k : nat) (e : string),
    connection (service w) = Some c ->
    answer (broker w) (ncalls w) = None ->
    k < 3 ->
    (forall j, j < k -> answer (broker w) (S (ncalls w) + j) = None) ->
    answer (broker w) (S (ncalls w) + k) = Some e ->
    exists w',
      SendRequest toSend timeout w = Returns (None, Some e) w'
      /\ service w' = service w
      /\ replyChans w' = replyChans w
      /\ ncalls w' = S (S (ncalls w)) + k
      /\ count_calls tears_down (trace w') = count_calls tears_down (trace w).
Proof.
  intros w c toSend timeout k e Hconn H0 Hk Hok Hfail.
  assert (Hcase : k = 0 \/ k = 1 \/ k = 2) by lia.
  unfold SendRequest, bind, log, emit, gets, deref, fresh, call, ret.
  cbn. rewrite Hconn. cbn. rewrite H0. cbn.
  destruct Hcase as [-> | [-> | ->]].
  - rewrite Nat.add_0_r in Hfail. rewrite Hfail. cbn.
    eexists. repeat split. cbn. lia.
  - pose proof (Hok 0 ltac:(lia)) as H1. rewrite Nat.add_0_r in H1.
    replace (S (ncalls w) + 1) with (S (S (ncalls w))) in Hfail by lia.
    rewrite H1. cbn. rewrite Hfail. cbn.
    eexists. repeat split. cbn. lia.
  - pose proof (Hok 0 ltac:(lia)) as H1. rewrite Nat.add_0_r in H1.
    pose proof (Hok 1 ltac:(lia)) as H2.
    replace (S (ncalls w) + 1) with (S (S (ncalls w))) in H2 by lia.
    replace (S (ncalls w) + 2) with (S (S (S (ncalls w)))) in Hfail by lia.
    rewrite H1. cbn. rewrite H2. cbn. rewrite Hfail. cbn.
    eexists. repeat split. cbn. lia.
Qed.

Lemma SendRequest_failed_setup_sends_nothing_witness :
  exists w',
    SendRequest Fixture.aRequest (5 * Second)%Z
                (Fixture.runningWorld (Fixture.refusing [12]))
    = Returns (None, Some "refused") w'
    /\ service w' = service (Fixture.runningWorld (Fixture.refusing [12]))
    /\ replyChans w' = replyChans (Fixture.runningWorld (Fixture.refusing [12]))
    /\ ncalls w' = 13
    /\ count_calls tears_down (trace w') = 0.
Proof.
  apply (SendRequest_failed_setup_sends_nothing
           (Fixture.runningWorld (Fixture.refusing [12])) 0 Fixture.aRequest
           (5 * Second)%Z 1 "refused" eq_refl eq_refl).
  - lia.
  - intros j Hj. assert (j = 0) as -> by lia. reflexivity.
  - reflexivity.
Defined.

(** X8. When the fresh channel cannot be opened while a send on
    [DoneSignal] cannot complete (its buffer still holds a value nobody
    took, the last [true] of a stopped service for one), SendRequest
    does not return: the caller is parked in that send. *)
Theorem SendRequest_parks_on_a_full_DoneSignal :
  forall (w : World) (c : ConnId) (toSend : Request) (timeout : Duration)
         (chanErr : string),
    connection (service w) = Some c ->
    answer (broker w) (ncalls w) = Some chanErr ->
    DoneSignal_ready w = false ->
    closed (DoneSignal (service w)) = false ->
    exists w',
      SendRequest toSend timeout w = Blocks w'
      /\ service w' = service w
      /\ emitted w w'
           [EvLog Debug "Submitting request to send";
            EvCall (ncalls w) (ConnChannel c) (Some chanErr);
            EvLog Critical "Unable to get the reply channel:\n\t%v"].
Proof.
  intros w c toSend timeout chanErr Hconn Hans Hready Hclosed.
  unfold SendRequest, bind, log, emit, gets, deref, fresh, call, ret.
  cbn. rewrite Hconn. cbn. rewrite Hans. cbn.
  match goal with
  | |- context [send_DoneSignal true ?w1] =>
      rewrite (send_DoneSignal_not_ready true w1 Hready Hclosed)
  end.
  eexists. repeat split.
Qed.

Lemma SendRequest_parks_on_a_full_DoneSignal_witness :
  exists w',
    SendRequest Fixture.aRequest (5 * Second)%Z
      (set_service (set_DoneSignal (Chan.Make 1 [true] false) Fixture.running)
                   (Fixture.runningWorld (Fixture.refusing [10])))
    = Blocks w'
    /\ service w' = set_DoneSignal (Chan.Make 1 [true] false) Fixture.running
    /\ emitted (set_service
                  (set_DoneSignal (Chan.Make 1 [true] false) Fixture.running)
                  (Fixture.runningWorld (Fixture.refusing [10]))) w'
         [EvLog Debug "Submitting request to send";
          EvCall 10 (ConnChannel 0) (Some "refused");
          EvLog Critical "Unable to get the reply channel:\n\t%v"].
Proof.
  exact (SendRequest_parks_on_a_full_DoneSignal
           (set_service
              (set_DoneSignal (Chan.Make 1 [true] false) Fixture.running)
              (Fixture.runningWorld (Fixture.refusing [10])))
           0 Fixture.aRequest (5 * Second)%Z "refused"
           eq_refl eq_refl eq_refl eq_refl).
Defined.

(** ** How the wait for a reply ends *)

(** X9. When the timer of a positive timeout fires first, the waiting
    goroutine hands the caller exactly one Reply, the one that
    PrepareReplyToRequest makes from the request as it was sent, with
    the timeout code, and then closes the reply channel. It
    acknowledges nothing. *)
Theorem replyTask_timeout_synthesizes_one_reply :
  forall (w : World) (p : ReplyWait) (c : chan Reply),
    (0 < replyTimeout p)%Z ->
    nth_error (replyChans w) (replyChanFull p) = Some c ->
    has_room c = true ->
    let reply := PrepareReplyToRequest (waitRequest p) RCErrDripTimeout
                   "Timeout while waiting for reply" (senderInfo (service w)) in
    exists w' l,
      replyTask p TimedOut w = Returns tt w'
      /\ replyChans w'
         = put_nth (replyChanFull p)
                   (Chan.Make (cap c) (buf c ++ [reply]) (closed c))
                   (replyChans w)
      /\ service w' = service w
      /\ emitted w w' l
      /\ actions l
         = [EvSend replyChanFullC (VReply reply);
            EvCall (ncalls w) (ChannelClose (replyChannel p))
                   (answer (broker w) (ncalls w))].
Proof.
  intros w p c Ht Hn Hr reply. subst reply.
  unfold replyTask, bind, ret, call, log, emit, when, gets, replyChan_send.
  cbn. destruct (Z.leb_spec (replyTimeout p) 0) as [Hle|_]; [lia|].
  cbn. rewrite Hn. rewrite (send_has_room _ _ Hr). cbn.
  destruct (answer (broker w) (ncalls w)); cbn;
    do 2 eexists;
    (split; [reflexivity|]); (split; [reflexivity|]);
    (split; [reflexivity|]); (split; [solve_emitted|]); reflexivity.
Qed.

Lemma replyTask_timeout_synthesizes_one_reply_witness :
  exists w' l,
    replyTask Fixture.pending TimedOut (final Fixture.requested) = Returns tt w'
    /\ replyChans w'
       = [Chan.Make 1
            [PrepareReplyToRequest (waitRequest Fixture.pending) RCErrDripTimeout
               "Timeout while waiting for reply" Fixture.running.(senderInfo)]
            false]
    /\ service w' = service (final Fixture.requested)
    /\ emitted (final Fixture.requested) w' l
    /\ actions l
       = [EvSend replyChanFullC
            (VReply (PrepareReplyToRequest (waitRequest Fixture.pending)
                       RCErrDripTimeout "Timeout while waiting for reply"
                       Fixture.running.(senderInfo)));
          EvCall 14 (ChannelClose 10) None].
Proof.
  exact (replyTask_timeout_synthesizes_one_reply
           (final Fixture.requested) Fixture.pending (Chan.make Reply 1)
           eq_refl eq_refl eq_refl).
Defined.

(** X10. When a delivery arrives first and decodes, the waiting
    goroutine acknowledges it and closes the reply channel; the caller's
    result channel receives the decoded message when it is a Reply, and
    nothing at all when it is a Request, an Alert or an Info: the caller
    of such a request is left without a result, not even the timeout
    one. (The dispatch by kind is that of DecodeAndHandle.) *)
Theorem replyTask_delivery_resolves_only_on_a_reply :
  forall (w : World) (p : ReplyWait) (d : Delivery) (m : Decoded)
         (c : chan Reply),
    decode (codec w) d = inl m ->
    nth_error (replyChans w) (replyChanFull p) = Some c ->
    has_room c = true ->
    let ack := EvCall (ncalls w) (Ack d false) (answer (broker w) (ncalls w)) in
    let close := EvCall (S (ncalls w)) (ChannelClose (replyChannel p))
                        (answer (broker w) (S (ncalls w))) in
    exists w' l,
      replyTask p (Delivered d) w = Returns tt w'
      /\ emitted w w' l
      /\ match m with
         | DReply reply =>
             actions l = [ack; EvSend replyChanFullC (VReply reply); close]
             /\ replyChans w'
                = put_nth (replyChanFull p)
                          (Chan.Make (cap c) (buf c ++ [reply]) (closed c))
                          (replyChans w)
         | _ => actions l = [ack; close] /\ replyChans w' = replyChans w
         end.
Proof.
  intros w p d m c Hd Hn Hr ack close. subst ack close.
  unfold replyTask, DecodeAndHandle, bind, ret, call, log, emit, when,
    replyChan_send.
  cbn. rewrite Hd.
  destruct m as [r|r|a|i]; cbn;
    try (rewrite Hn; rewrite (send_has_room _ _ Hr); cbn);
    destruct (answer (broker w) (S (ncalls w))); cbn;
      do 2 eexists;
      (split; [reflexivity|]); (split; [solve_emitted|]);
      split; reflexivity.
Qed.

Lemma replyTask_delivery_resolves_only_on_a_reply_witness :
  exists w' l,
    replyTask Fixture.pending (Delivered (Fixture.delivery 1 [x02]))
              (final Fixture.requested)
    = Returns tt w'
    /\ emitted (final Fixture.requested) w' l
    /\ actions l
       = [EvCall 14 (Ack (Fixture.delivery 1 [x02]) false) None;
          EvCall 15 (ChannelClose 10) None]
    /\ replyChans w' = [Chan.make Reply 1].
Proof.
  exact (replyTask_delivery_resolves_only_on_a_reply
           (final Fixture.requested) Fixture.pending
           (Fixture.delivery 1 [x02]) (DAlert Fixture.anAlert)
           (Chan.make Reply 1) eq_refl eq_refl eq_refl).
Defined.

(** ** What a subscription does *)

Lemma int_incr_not_zero (n : Z) :
  (0 <= n < 2 ^ 63)%Z -> (int_incr n =? 0)%Z = false.
Proof.
  intros H. apply Z.eqb_neq. unfold int_incr, int_wrap.
  change (2 ^ 63)%Z with 9223372036854775808%Z in *.
  change (2 ^ 64)%Z with 18446744073709551616%Z.
  Z.to_euclidean_division_equations. lia.
Qed.

Section Subscribing.

Variables (w : World) (c : ChannelId) (exch : AmqpSender -> string)
          (routingKey : string).
Hypothesis Hconnected : Connected (service w) = true.
Hypothesis Hchannel : channel (service w) = Some c.

Let bound : Event :=
  EvCall (ncalls w)
         (QueueBind c (QueueName (Receiver (service w))) routingKey
                    (exch (Sender (service w))) false)
         (answer (broker w) (ncalls w)).

Lemma subscribeTo_bind_refused (e : string) :
  answer (broker w) (ncalls w) = Some e ->
  subscribeTo exch routingKey w
  = Returns (Some e) (set_ncalls (S (ncalls w)) (set_trace (bound :: trace w) w)).
Proof.
  intros H. subst bound.
  unfold subscribeTo, bind, gets, deref, call, ret.
  rewrite Hconnected. cbn. rewrite Hchannel. cbn. rewrite H. reflexivity.
Qed.

Lemma subscribeTo_bound :
  (0 <= subscriptionCount (Receiver (service w)) < 2 ^ 63)%Z ->
  answer (broker w) (ncalls w) = None ->
  has_room (stopQueue (service w)) = true ->
  DoneSignal_ready w = true ->
  let consume := Consume c (QueueName (Receiver (service w))) EmptyString
                         false true true false in
  let established :=
    EvLog Debug "Subscription established: ex(%s) @ rk(%s) --> q(%s)" in
  exists w',
    subscribeTo exch routingKey w = Returns None w'
    /\ subscriptionCount (Receiver (service w'))
       = int_incr (subscriptionCount (Receiver (service w)))
    /\ match answer (broker w) (S (ncalls w)) with
       | None =>
           emitted w w'
             [bound; EvCall (S (ncalls w)) consume None;
              EvLog Debug "Started consuming on queue %s";
              EvSend stopQueueC (VBool false); established]
           /\ messageQueue (Receiver (service w')) = Some (S (ncalls w))
           /\ buf (stopQueue (service w'))
              = buf (stopQueue (service w)) ++ [false]
       | Some consumeErr =>
           emitted w w'
             [bound; EvCall (S (ncalls w)) consume (Some consumeErr);
              EvLog Critical "Unable start consuming from queue <%s>:\n\t%v";
              EvSend DoneSignalC (VBool true); established]
           /\ messageQueue (Receiver (service w'))
              = messageQueue (Receiver (service w))
           /\ stopQueue (service w') = stopQueue (service w)
       end.
Proof.
  intros Hcount Hans Hroom Hdone consume established.
  subst bound consume established.
  unfold subscribeTo, bind, gets, deref, call, ret, modify.
  rewrite Hconnected. cbn. rewrite Hchannel. cbn. rewrite Hans. cbn.
  unfold beginConsuming, bind, gets. cbn.
  rewrite (int_incr_not_zero _ Hcount). cbn. rewrite Hchannel. cbn.
  unfold fresh, bind, call, ret. cbn.
  destruct (answer (broker w) (S (ncalls w))) as [consumeErr|]; cbn.
  - unfold log, emit. cbn.
    match goal with
    | |- context [send_DoneSignal true ?w1] =>
        destruct (send_DoneSignal_ready true w1 Hdone)
          as (w2 & Hsend & Htr & Hn & Hbr & Hch2 & Hrecv & Hstop)
    end.
    rewrite Hsend. eexists. split; [reflexivity|].
    cbn. rewrite Hrecv, Hstop. cbn.
    split; [reflexivity|]. split; [|auto].
    unfold emitted. cbn. rewrite Htr. reflexivity.
  - unfold modify, log, emit, chan_send. cbn.
    rewrite (send_has_room _ false Hroom). cbn.
    eexists. split; [reflexivity|]. cbn.
    split; [reflexivity|]. split; [|auto].
    unfold emitted. cbn. reflexivity.
Qed.

End Subscribing.

(** X11. On a connected service, a Subscribe function whose binding the
    broker refuses returns the broker's error and stops there: the bind
    call is its only action, the subscription is not counted and
    consumption is not armed. *)
Theorem Subscribe_bind_refused_changes_nothing :
  forall (w : World) (c : ChannelId) (routingKey e : string),
    Connected (service w) = true ->
    channel (service w) = Some c ->
    answer (broker w) (ncalls w) = Some e ->
    let refused := fun ex =>
      Returns (Some e)
        (set_ncalls (S (ncalls w))
           (set_trace
              (EvCall (ncalls w)
                      (QueueBind c (QueueName (Receiver (service w)))
                                 routingKey ex false)
                      (Some e)
               :: trace w) w)) in
    SubscribeToRequests routingKey w
    = refused (RequestExchangeName (Sender (service w)))
    /\ SubscribeToAlerts routingKey w
       = refused (AlertExchangeName (Sender (service w)))
    /\ SubscribeToInfos routingKey w
       = refused (InfoExchangeName (Sender (service w))).
Proof.
  intros w c key e Hconn Hch Hans refused. subst refused. cbv beta.
  unfold SubscribeToRequests, SubscribeToAlerts, SubscribeToInfos.
  rewrite !(subscribeTo_bind_refused w c _ key Hconn Hch e Hans), Hans.
  auto.
Qed.

Lemma Subscribe_bind_refused_changes_nothing_witness :
  SubscribeToAlerts "alerts.#" (Fixture.runningWorld (Fixture.refusing [10]))
  = Returns (Some "refused")
      (set_ncalls 11
         (set_trace
            [EvCall 10 (QueueBind 2 "my_queue" "alerts.#" "alerts" false)
                    (Some "refused")]
            (Fixture.runningWorld (Fixture.refusing [10])))).
Proof.
  exact (proj1 (proj2 (Subscribe_bind_refused_changes_nothing
                         (Fixture.runningWorld (Fixture.refusing [10])) 2
                         "alerts.#" "refused" eq_refl eq_refl eq_refl))).
Defined.

(** X12. On a connected service with fewer than 2^63 subscriptions, a
    Subscribe function whose binding the broker accepts counts the
    subscription, tries to start consumption and returns nil, also
    when the Consume call fails: that failure only shows as the [true]
    sent on [DoneSignal] and in the log, the subscription is reported
    as established, and no stream is installed. When the Consume call
    succeeds, the new stream is installed and the [false] sentinel is
    pushed on the control channel. *)
Theorem Subscribe_counts_and_returns_nil :
  forall (w : World) (c : ChannelId) (routingKey : string),
    Connected (service w) = true ->
    channel (service w) = Some c ->
    (0 <= subscriptionCount (Receiver (service w)) < 2 ^ 63)%Z ->
    answer (broker w) (ncalls w) = None ->
    has_room (stopQueue (service w)) = true ->
    DoneSignal_ready w = true ->
    subscribes w c routingKey (RequestExchangeName (Sender (service w)))
               (SubscribeToRequests routingKey)
    /\ subscribes w c routingKey (AlertExchangeName (Sender (service w)))
                  (SubscribeToAlerts routingKey)
    /\ subscribes w c routingKey (InfoExchangeName (Sender (service w)))
                  (SubscribeToInfos routingKey).
Proof.
  intros w c key Hconn Hch Hcount Hans Hroom Hdone.
  unfold subscribes, SubscribeToRequests, SubscribeToAlerts, SubscribeToInfos.
  split; [|split];
    match goal with
    | |- context [subscribeTo ?ex key w] =>
        generalize (subscribeTo_bound w c ex key Hconn Hch Hcount Hans
                                      Hroom Hdone)
    end; cbv zeta; rewrite Hans; intros H; exact H.
Qed.

Lemma Subscribe_counts_and_returns_nil_witness :
  subscribes (Fixture.runningWorld (Fixture.refusing [11])) 2 "q1.#" "requests"
             (SubscribeToRequests "q1.#")
  /\ subscribes (Fixture.runningWorld (Fixture.refusing [])) 2 "q1.#" "requests"
                (SubscribeToRequests "q1.#").
Proof.
  split.
  - exact (proj1 (Subscribe_counts_and_returns_nil
                    (Fixture.runningWorld (Fixture.refusing [11])) 2 "q1.#"
                    eq_refl eq_refl (conj (Z.le_refl 0) eq_refl)
                    eq_refl eq_refl eq_refl)).
  - exact (proj1 (Subscribe_counts_and_returns_nil
                    (Fixture.runningWorld (Fixture.refusing [])) 2 "q1.#"
                    eq_refl eq_refl (conj (Z.le_refl 0) eq_refl)
                    eq_refl eq_refl eq_refl)).
Defined.

(** ** The sender info *)

Lemma fillDriplineSenderInfo_returns (w : World) :
  exists info,
    fillDriplineSenderInfo w
    = Returns (first_error [snd (osext_Executable (host w));
                            snd (os_Hostname (host w));
                            snd (user_Current (host w))])
              (set_service (set_senderInfo info (service w)) w)
    /\ Package info = "dripline"
    /\ Exe info = fst (osext_Executable (host w))
    /\ Hostname info
       = (if is_nil (snd (osext_Executable (host w)))
          then fst (os_Hostname (host w))
          else Hostname (senderInfo (service w)))
    /\ Username info
       = (if is_nil (first_error [snd (osext_Executable (host w));
                                  snd (os_Hostname (host w));
                                  snd (user_Current (host w))])
          then fst (user_Current (host w))
          else Username (senderInfo (service w))).
Proof.
  destruct w as [svc br [[exe exeErr] [hn hnErr] [usr usrErr] uu]
                     cd n u sc rc tr].
  destruct exeErr, hnErr, usrErr; eexists;
    (split; [reflexivity|]); cbn; auto.
Qed.

(** X13. fillDriplineSenderInfo returns the error of the first lookup
    that fails among the executable path, the host name and the current
    user, and nil when all three succeed. It writes the sender info
    only: the package is always "dripline", the executable path is
    stored whatever its lookup answered, the host name is stored only
    after the executable lookup succeeded, and the user name only when
    all three lookups succeeded. It makes no call on the broker and
    logs nothing. *)
Theorem fillDriplineSenderInfo_reports_the_first_failure :
  forall (w : World),
    let lookups := [snd (osext_Executable (host w));
                    snd (os_Hostname (host w));
                    snd (user_Current (host w))] in
    exists info,
      fillDriplineSenderInfo w
      = Returns (first_error lookups)
                (set_service (set_senderInfo info (service w)) w)
      /\ Package info = "dripline"
      /\ Exe info = fst (osext_Executable (host w))
      /\ Hostname info
         = (if is_nil (snd (osext_Executable (host w)))
            then fst (os_Hostname (host w))
            else Hostname (senderInfo (service w)))
      /\ Username info
         = (if is_nil (first_error lookups)
            then fst (user_Current (host w))
            else Username (senderInfo (service w))).
Proof. intros w lookups. exact (fillDriplineSenderInfo_returns w). Qed.

(** ** Publishing *)

Lemma Message_send_returns (m : Message) (c : ChannelId) (body : list byte)
      (w : World) :
  let fresh_id := String.eqb (CorrId m) EmptyString in
  let pub :=
    EvCall (ncalls w)
           (Publish c (exchange m) (Target m) false false
                    {| PubContentEncoding := Encoding m;
                       PubBody := body;
                       PubReplyTo := ReplyTo m;
                       PubCorrelationId :=
                         if fresh_id then uuid_New (host w) (nuuid w)
                         else CorrId m |})
           (answer (broker w) (ncalls w)) in
  exists w' l,
    Message_send m (Some c) body w = Returns tt w'
    /\ emitted w w' l
    /\ actions l = [pub]
    /\ service w' = service w
    /\ ncalls w' = S (ncalls w)
    /\ nuuid w' = (if fresh_id then S (nuuid w) else nuuid w).
Proof.
  cbv zeta. unfold Message_send, bind, uuid_new, log, emit, deref, call, ret,
              when.
  destruct (String.eqb (CorrId m) EmptyString);
    cbn; destruct (answer (broker w) (ncalls w)); cbn;
    do 2 eexists; (split; [reflexivity|]); (split; [solve_emitted|]);
    cbn; auto.
Qed.

(** X14. [send] on a channel the service holds makes exactly one
    Publish call, to the exchange and the routing key of the message,
    neither mandatory nor immediate, with the encoding, the body and
    the reply-to key of the message. The correlation id is the one of
    the message, or a fresh uuid when the message has none. Whatever
    the broker answers, [send] returns normally: a publish error is
    logged and reaches no caller. *)
Theorem send_publishes_once_and_reports_nothing :
  forall (m : Message) (c : ChannelId) (body : list byte) (w : World),
    let fresh_id := String.eqb (CorrId m) EmptyString in
    let pub :=
      EvCall (ncalls w)
             (Publish c (exchange m) (Target m) false false
                      {| PubContentEncoding := Encoding m;
                         PubBody := body;
                         PubReplyTo := ReplyTo m;
                         PubCorrelationId :=
                           if fresh_id then uuid_New (host w) (nuuid w)
                           else CorrId m |})
             (answer (broker w) (ncalls w)) in
    exists w' l,
      Message_send m (Some c) body w = Returns tt w'
      /\ emitted w w' l
      /\ actions l = [pub]
      /\ service w' = service w
      /\ ncalls w' = S (ncalls w)
      /\ nuuid w' = (if fresh_id then S (nuuid w) else nuuid w).
Proof. intros m c body w. exact (Message_send_returns m c body w). Qed.

Lemma count_calls_app (q : BrokerCall -> bool) (l1 l2 : list Event) :
  count_calls q (l1 ++ l2) = count_calls q l1 + count_calls q l2.
Proof.
  induction l1 as [|[n c e| | | ] t IH]; cbn; auto.
  destruct (q c); cbn; auto.
Qed.

Lemma count_calls_rev (q : BrokerCall -> bool) (l : list Event) :
  count_calls q (rev l) = count_calls q l.
Proof.
  induction l as [|[n c e| | | ] t IH]; cbn; auto;
    rewrite count_calls_app, IH; cbn; try lia.
  destruct (q c); lia.
Qed.

Lemma count_calls_actions (q : BrokerCall -> bool) (l : list Event) :
  count_calls q (actions l) = count_calls q l.
Proof.
  induction l as [|[n c e| | | ] t IH]; cbn; auto.
  destruct (q c); auto.
Qed.

(** The calls among the events emitted from [w] to [w'] are those of
    its actions. *)
Lemma count_calls_emitted (q : BrokerCall -> bool) (w w' : World)
      (l : list Event) :
  emitted w w' l ->
  count_calls q (trace w')
  = count_calls q (trace w) + count_calls q (actions l).
Proof.
  unfold emitted. intros ->.
  rewrite count_calls_app, count_calls_rev, count_calls_actions. lia.
Qed.

Lemma outbound_relays {A : Type} (f : Field A)
      (encode : Codec -> A -> A * list byte * error) (envelope : A -> Message)
      (closedMsg sending encFailed : string)
      (w : World) (c : ChannelId) (v : A) (rest : list A) :
  (forall ch s, fget f (fset f ch s) = ch) ->
  (forall ch s, channel (fset f ch s) = channel s) ->
  channel (service w) = Some c ->
  buf (fget f (service w)) = v :: rest ->
  exists w',
    outbound f encode envelope closedMsg sending encFailed w
    = Returns Continue w'
    /\ buf (fget f (service w')) = rest
    /\ channel (service w') = channel (service w)
    /\ count_calls is_publish (trace w')
       = count_calls is_publish (trace w)
         + (if is_nil (snd (encode (codec w) v)) then 1 else 0).
Proof.
  intros Hget Hset Hch Hbuf.
  unfold outbound. unfold bind at 1. unfold chan_recv, Chan.recv.
  rewrite Hbuf. unfold bind at 1. unfold log at 1, emit at 1.
  cbv beta. cbn [codec set_service set_trace].
  destruct (encode (codec w) v) as [[msg' body] [e|]].
  - eexists. split; [reflexivity|]. cbn. rewrite Hget, Hset. cbn.
    repeat split; auto.
  - unfold bind at 1. unfold gets at 1. cbn [service set_service set_trace].
    rewrite Hset, Hch. unfold bind at 1.
    match goal with
    | |- context [Message_send ?m (Some c) body ?w0] =>
        destruct (Message_send_returns m c body w0)
          as (w' & l & Hsend & Hem & Hact & Hsvc & _)
    end.
    rewrite Hsend. exists w'. split; [reflexivity|].
    rewrite Hsvc. cbn [service set_service set_trace].
    rewrite Hget, Hset. cbn [buf]. split; [reflexivity|].
    split; [rewrite ?Hch; reflexivity|].
    rewrite (count_calls_emitted is_publish _ _ _ Hem), Hact. cbn. lia.
Qed.

(** X15. Outbound messages. When the service holds a channel and the
    router services an outbound Go channel that has a message waiting,
    the oldest message is taken off the buffer and the loop goes on to
    its next iteration, whatever the codec and the broker answer. The
    message is published once when it could be encoded and not at all
    otherwise: an encoding or publishing failure is logged, and the
    message is gone. The same holds for requests, replies, alerts and
    infos. *)
Theorem outbound_message_is_taken_whatever_happens :
  forall (conn : ConnId) (w : World) (c : ChannelId),
    channel (service w) = Some c ->
    relayed f_requestChan EncodeRequest OnRequestChan conn w
    /\ relayed f_replyChan EncodeReply OnReplyChan conn w
    /\ relayed f_alertChan EncodeAlert OnAlertChan conn w
    /\ relayed f_infoChan EncodeInfo OnInfoChan conn w.
Proof.
  intros conn w c Hch.
  split; [|split; [|split]]; intros v rest Hbuf; unfold selectCase;
    apply (outbound_relays _ _ _ _ _ _ w c v rest); auto.
Qed.

Lemma outbound_message_is_taken_whatever_happens_witness :
  let w := Fixture.runningWorld (Fixture.refusing [10]) in
  let queued :=
    set_service
      (on_Sender (set_replyChan (Chan.Make 100 [Fixture.aReply] false))
                 (service w)) w in
  exists w',
    selectCase 0 OnReplyChan queued = Returns Continue w'
    /\ buf (replyChan (Sender (service w'))) = []
    /\ channel (service w') = Some 2
    /\ count_calls is_publish (trace w') = 1.
Proof.
  exact (proj1 (proj2 (outbound_message_is_taken_whatever_happens
                         0
                         (set_service
                            (on_Sender
                               (set_replyChan
                                  (Chan.Make 100 [Fixture.aReply] false))
                               Fixture.running)
                            (Fixture.runningWorld (Fixture.refusing [10])))
                         2 eq_refl)) Fixture.aReply [] eq_refl).
Defined.

Lemma Connected_make_replyChan : preserves liveness make_replyChan.
Proof. intro w. reflexivity. Qed.

Lemma Connected_replyChan_send (h : nat) (reply : Reply) :
  preserves liveness (replyChan_send h reply).
Proof.
  intro w. unfold replyChan_send.
  destruct (nth_error (replyChans w) h) as [c|]; [|reflexivity].
  destruct (Chan.send c reply); reflexivity.
Qed.

Lemma Connected_sleep (d : Duration) : preserves liveness (time_Sleep d).
Proof. intro w. reflexivity. Qed.

Ltac liveness_api :=
  first [ apply Connected_beginConsuming | apply Connected_make_replyChan
        | apply Connected_replyChan_send | apply Connected_sleep
        | liveness_step ].

Lemma Connected_SendRequest (toSend : Request) (timeout : Duration) :
  preserves liveness (SendRequest toSend timeout).
Proof. unfold SendRequest. go_with liveness_api. Qed.

Lemma Connected_replyTask (p : ReplyWait) (a : Arrival) :
  preserves liveness (replyTask p a).
Proof. destruct a; unfold replyTask; go_with liveness_api. Qed.

Lemma Connected_subscribeTo (exch : AmqpSender -> string) (key : string) :
  preserves liveness (subscribeTo exch key).
Proof. unfold subscribeTo. go_with liveness_api. Qed.

(** X16. After the start nothing writes the liveness flag: the event
    router with the teardown that follows it, Stop, SendRequest and its
    goroutine, the send functions and the Subscribe functions all leave
    [Connected] as they found it, however they end. A service that was
    connected once reports [Connected] for good, also when it has been
    stopped or has lost its connection. *)
Theorem Connected_is_not_written_after_the_start :
  forall (conn : ConnId) (deferredChannel : option ChannelId)
         (sched : list Ready) (toSend : Request) (timeout : Duration)
         (p : ReplyWait) (a : Arrival) (reply : Reply) (alert : Alert)
         (info : Info) (routingKey : string),
    preserves liveness (serve conn deferredChannel sched)
    /\ preserves liveness Stop
    /\ preserves liveness (SendRequest toSend timeout)
    /\ preserves liveness (replyTask p a)
    /\ preserves liveness (SendReply reply)
    /\ preserves liveness (SendAlert alert)
    /\ preserves liveness (SendInfo info)
    /\ preserves liveness (SubscribeToRequests routingKey)
    /\ preserves liveness (SubscribeToAlerts routingKey)
    /\ preserves liveness (SubscribeToInfos routingKey).
Proof.
  intros conn dch sched toSend timeout p a reply alert info key.
  split; [apply Connected_serve|].
  split; [unfold Stop; go_with liveness_api|].
  split; [apply Connected_SendRequest|].
  split; [apply Connected_replyTask|].
  split; [unfold SendReply; go_with liveness_api|].
  split; [unfold SendAlert; go_with liveness_api|].
  split; [unfold SendInfo; go_with liveness_api|].
  split; [apply Connected_subscribeTo|].
  split; apply Connected_subscribeTo.
Qed.

(** ** The start, seen from the caller *)

Lemma StartService_runs (brokerAddress queueName : string)
      (sched : list Ready) (w : World) :
  StartService brokerAddress queueName sched w
  = let w' := final (runAmqpService sched (started brokerAddress queueName w)) in
    match startCall w' with
    | GotDone isDone =>
        (when isDone (log Critical "Service did not start") ;;
         s <- gets (fun s => s) ;; ret (Some s)) w'
    | _ => Blocks w'
    end.
Proof.
  unfold StartService, AmqpService_StartService, started.
  unfold bind at 1 2 3 4. unfold modify at 1 2 3. cbv beta.
  unfold awaitDone.
  cbn [service set_service Chan.recv DoneSignal ServiceDefaults
       set_BrokerAddress on_Receiver set_QueueName set_Receiver Receiver
       buf closed Chan.make].
  cbv zeta.
  destruct (startCall _); reflexivity.
Qed.

Lemma senderInfoWarning_first_error (h : Host) :
  senderInfoWarning h
  = if is_nil (first_error [snd (osext_Executable h); snd (os_Hostname h);
                            snd (user_Current h)])
    then []
    else [EvLog Warning "Unable to properly fill dripline sender info"].
Proof.
  unfold senderInfoWarning.
  destruct (snd (osext_Executable h)), (snd (os_Hostname h)),
    (snd (user_Current h)); reflexivity.
Qed.

(** Runs [runAmqpService] up to the first dial: the sender info is
    filled in as far as the host allows. *)
Ltac enter_runAmqpService w0 :=
  unfold runAmqpService; unfold bind at 1;
  let info := fresh "info" in
  let Hfill := fresh "Hfill" in
  let Hpkg := fresh "Hpkg" in
  destruct (fillDriplineSenderInfo_returns w0) as (info & Hfill & Hpkg & _);
  rewrite Hfill; clear Hfill.

(** Answers the calls of a computed run from the hypotheses on the
    broker and the codec. *)
Ltac answer_calls :=
  repeat (vm_compute;
          match goal with
          | H : ?f _ = _ |- _ => rewrite H
          end);
  vm_compute.

(** The instances [H 0], ..., [H (m - 1)] of a hypothesis on the first
    [m] calls, computed. *)
Ltac instances H m :=
  let rec go k :=
    lazymatch k with
    | 0 => idtac
    | S ?k' => pose proof (H k' ltac:(lia)); go k'
    end in
  go m; clear H;
  repeat match goal with
         | H' : _ = _ |- _ => progress (vm_compute in H')
         end.

Lemma runAmqpService_connects (brokerAddress queueName : string) (w : World) :
  queueName <> EmptyString ->
  (forall k, k < 9 -> answer (broker w) (k + ncalls w) = None) ->
  exists info,
    Package info = "dripline"
    /\ runAmqpService [] (started brokerAddress queueName w)
    = Returns Serving
        (afterStart brokerAddress queueName info (ncalls w)
           (senderInfoWarning (host w)
            ++ EvCall (ncalls w) (Dial brokerAddress) None
            :: startup (ncalls w) queueName) w).
Proof.
  intros Hq Hans.
  destruct queueName as [|a q]; [congruence|clear Hq].
  rewrite senderInfoWarning_first_error.
  enter_runAmqpService (started brokerAddress (String a q) w).
  change (host (started brokerAddress (String a q) w)) with (host w).
  exists info. split; [exact Hpkg|clear Hpkg].
  destruct w as [svc [ans nm] h cd n u sc rc tr].
  cbn [host]. instances Hans 9.
  destruct (first_error _); answer_calls; reflexivity.
Qed.

Lemma runAmqpService_retries (brokerAddress queueName e1 : string)
      (w : World) :
  queueName <> EmptyString ->
  answer (broker w) (ncalls w) = Some e1 ->
  (forall k, k < 9 -> answer (broker w) (S k + ncalls w) = None) ->
  exists info,
    Package info = "dripline"
    /\ runAmqpService [] (started brokerAddress queueName w)
    = Returns Serving
        (afterStart brokerAddress queueName info (S (ncalls w))
           (senderInfoWarning (host w)
            ++ [EvCall (ncalls w) (Dial brokerAddress) (Some e1);
                EvLog Warning
                  "Unable to connect on first attempt.  Waiting 10 seconds to try again.";
                EvSleep (10 * Second)%Z;
                EvLog Debug "Second attempt to connect";
                EvCall (S (ncalls w)) (Dial brokerAddress) None]
            ++ startup (S (ncalls w)) queueName) w).
Proof.
  intros Hq Hfirst Hans.
  destruct queueName as [|a q]; [congruence|clear Hq].
  rewrite senderInfoWarning_first_error.
  enter_runAmqpService (started brokerAddress (String a q) w).
  change (host (started brokerAddress (String a q) w)) with (host w).
  exists info. split; [exact Hpkg|clear Hpkg].
  destruct w as [svc [ans nm] h cd n u sc rc tr].
  cbn [host]. instances Hans 9. vm_compute in Hfirst.
  destruct (first_error _); answer_calls; reflexivity.
Qed.

(** What the caller of StartService gets once the goroutine has run to
    [w1] and has reported [isDone]. *)
Lemma StartService_returns (brokerAddress queueName : string)
      (sched : list Ready) (w w1 : World) (e : RunEnd) (isDone : bool) :
  runAmqpService sched (started brokerAddress queueName w) = Returns e w1 ->
  startCall w1 = GotDone isDone ->
  StartService brokerAddress queueName sched w
  = Returns (Some (service w1))
            (if isDone
             then set_trace (EvLog Critical "Service did not start" :: trace w1) w1
             else w1).
Proof.
  intros Hrun Hdone. rewrite StartService_runs, Hrun. cbn [final].
  rewrite Hdone. destruct isDone; reflexivity.
Qed.

(** X17. StartService on a broker that accepts the dial and the eight
    calls of the setup, with a queue name that is not empty. The
    service goroutine dials once, registers for the close of the
    connection, opens one channel, declares the receive queue (not
    durable, auto-delete, exclusive) and the three default topic
    exchanges, registers for the cancel and the close of the channel,
    and sends [false] on [DoneSignal]; no consumer is started, since
    nothing is subscribed yet. The caller gets the service back,
    connected, holding that connection and that channel, with the given
    address and queue name and the default exchanges. A sender info
    that could not be filled in costs one warning and nothing else. *)
Theorem StartService_connects_and_declares :
  forall (w : World) (brokerAddress queueName : string),
    queueName <> EmptyString ->
    (forall k, k < 9 -> answer (broker w) (k + ncalls w) = None) ->
    exists info,
      Package info = "dripline"
      /\ StartService brokerAddress queueName [] w
         = (let w' :=
              afterStart brokerAddress queueName info (ncalls w)
                (senderInfoWarning (host w)
                 ++ EvCall (ncalls w) (Dial brokerAddress) None
                 :: startup (ncalls w) queueName) w in
            Returns (Some (service w')) w').
Proof.
  intros w addr queue Hq Hans.
  destruct (runAmqpService_connects addr queue w Hq Hans)
    as (info & Hpkg & Hrun).
  exists info. split; [exact Hpkg|].
  exact (StartService_returns addr queue [] w _ Serving false Hrun eq_refl).
Qed.

Lemma StartService_connects_and_declares_witness :
  exists info,
    Package info = "dripline"
    /\ StartService "amqp://broker" "q1" []
                    (Fixture.world ServiceDefaults (Fixture.refusing []))
       = (let w' :=
            afterStart "amqp://broker" "q1" info 0
              (EvCall 0 (Dial "amqp://broker") None :: startup 0 "q1")
              (Fixture.world ServiceDefaults (Fixture.refusing [])) in
          Returns (Some (service w')) w').
Proof.
  apply (StartService_connects_and_declares
           (Fixture.world ServiceDefaults (Fixture.refusing []))
           "amqp://broker" "q1").
  - discriminate.
  - intros k _. reflexivity.
Defined.

(** X18. When the first dial is refused and the second one is
    accepted, the start is the successful start, delayed by one sleep
    of 10 seconds: one warning, the sleep, the second dial, and then the
    same setup on the connection of the second dial. *)
Theorem StartService_retries_the_dial_once :
  forall (w : World) (brokerAddress queueName e1 : string),
    queueName <> EmptyString ->
    answer (broker w) (ncalls w) = Some e1 ->
    (forall k, k < 9 -> answer (broker w) (S k + ncalls w) = None) ->
    exists info,
      Package info = "dripline"
      /\ StartService brokerAddress queueName [] w
         = (let w' :=
              afterStart brokerAddress queueName info (S (ncalls w))
                (senderInfoWarning (host w)
                 ++ [EvCall (ncalls w) (Dial brokerAddress) (Some e1);
                     EvLog Warning
                       "Unable to connect on first attempt.  Waiting 10 seconds to try again.";
                     EvSleep (10 * Second)%Z;
                     EvLog Debug "Second attempt to connect";
                     EvCall (S (ncalls w)) (Dial brokerAddress) None]
                 ++ startup (S (ncalls w)) queueName) w in
            Returns (Some (service w')) w').
Proof.
  intros w addr queue e1 Hq Hfirst Hans.
  destruct (runAmqpService_retries addr queue e1 w Hq Hfirst Hans)
    as (info & Hpkg & Hrun).
  exists info. split; [exact Hpkg|].
  exact (StartService_returns addr queue [] w _ Serving false Hrun eq_refl).
Qed.

Lemma StartService_retries_the_dial_once_witness :
  exists info,
    Package info = "dripline"
    /\ StartService "amqp://broker" "q1" []
                    (Fixture.world ServiceDefaults (Fixture.refusing [0]))
       = (let w' :=
            afterStart "amqp://broker" "q1" info 1
              ([EvCall 0 (Dial "amqp://broker") (Some "refused");
                EvLog Warning
                  "Unable to connect on first attempt.  Waiting 10 seconds to try again.";
                EvSleep (10 * Second)%Z;
                EvLog Debug "Second attempt to connect";
                EvCall 1 (Dial "amqp://broker") None]
               ++ startup 1 "q1")
              (Fixture.world ServiceDefaults (Fixture.refusing [0])) in
          Returns (Some (service w')) w').
Proof.
  apply (StartService_retries_the_dial_once
           (Fixture.world ServiceDefaults (Fixture.refusing [0]))
           "amqp://broker" "q1" "refused").
  - discriminate.
  - reflexivity.
  - intros k _. reflexivity.
Defined.

(** ** A start that fails *)

Lemma runAmqpService_setup_refused (brokerAddress queueName e : string)
      (k : nat) (w : World) :
  queueName <> EmptyString ->
  2 <= k <= 6 ->
  (forall j, j < k -> answer (broker w) (j + ncalls w) = None) ->
  answer (broker w) (k + ncalls w) = Some e ->
  exists w',
    runAmqpService [] (started brokerAddress queueName w) = Returns Serving w'
    /\ startCall w' = GotDone true
    /\ Connected (service w') = true
    /\ connection (service w') = Some (ncalls w)
    /\ channel (service w')
       = (if Nat.eqb k 2 then None else Some (2 + ncalls w))
    /\ DoneSignal (service w') = Chan.Make 1 [false] false
    /\ ncalls w' = S (k + ncalls w)
    /\ last_events w'
         [EvSend DoneSignalC (VBool true);
          EvLog Notice "AMQP service started successfully";
          EvSend DoneSignalC (VBool false)]
    /\ forall (msg : string) (rest : list Ready),
        exists w3,
          (Stop ;; serve (ncalls w) (channel (service w')) (OnStopQueue :: rest))
            (set_trace (EvLog Critical msg :: trace w') w')
          = Blocks w3
          /\ ncalls w3 = ncalls w'.
Proof.
  intros Hq Hk Hans Hfail.
  destruct queueName as [|a q]; [congruence|clear Hq].
  enter_runAmqpService (started brokerAddress (String a q) w).
  clear Hpkg.
  destruct w as [svc [ans nm] h cd n u sc rc tr].
  assert (Hcase : k = 2 \/ k = 3 \/ k = 4 \/ k = 5 \/ k = 6) by lia.
  clear Hk. cbn [broker answer ncalls] in *.
  destruct Hcase as [-> | [-> | [-> | [-> | ->]]]];
    pose proof (Hans 0 ltac:(lia)) as H0;
    pose proof (Hans 1 ltac:(lia)) as H1;
    try pose proof (Hans 2 ltac:(lia)) as H2;
    try pose proof (Hans 3 ltac:(lia)) as H3;
    try pose proof (Hans 4 ltac:(lia)) as H4;
    try pose proof (Hans 5 ltac:(lia)) as H5;
    clear Hans;
    repeat match goal with
           | H' : _ = _ |- _ => progress (vm_compute in H')
           end;
    destruct (first_error _);
    (eexists; split; [answer_calls; reflexivity|]);
    (do 7 (split; [vm_compute; reflexivity|]));
    intros msg rest; eexists; split; vm_compute; reflexivity.
Qed.

(** X19. When the dial succeeds and a step of the channel setup is
    refused (the channel, the queue declaration or one of the three
    exchange declarations), the setup stops at that call and sends
    [true] on [DoneSignal], so that the caller of StartService logs
    that the service did not start. The service goroutine goes on all
    the same: it logs that the service started successfully, sends
    [false] on [DoneSignal], where it stays buffered, and waits in its
    loop. The service handed back is connected, holds the connection,
    and holds the channel unless it was the channel that was refused;
    nothing was closed. *)
Theorem failed_setup_is_reported_and_the_service_runs_on :
  forall (w : World) (brokerAddress queueName e : string) (k : nat),
    queueName <> EmptyString ->
    2 <= k <= 6 ->
    (forall j, j < k -> answer (broker w) (j + ncalls w) = None) ->
    answer (broker w) (k + ncalls w) = Some e ->
    exists s w',
      StartService brokerAddress queueName [] w = Returns (Some s) w'
      /\ service w' = s
      /\ Connected s = true
      /\ connection s = Some (ncalls w)
      /\ channel s = (if Nat.eqb k 2 then None else Some (2 + ncalls w))
      /\ DoneSignal s = Chan.Make 1 [false] false
      /\ ncalls w' = S (k + ncalls w)
      /\ last_events w'
           [EvSend DoneSignalC (VBool true);
            EvLog Notice "AMQP service started successfully";
            EvSend DoneSignalC (VBool false);
            EvLog Critical "Service did not start"].
Proof.
  intros w addr queue e k Hq Hk Hans Hfail.
  destruct (runAmqpService_setup_refused addr queue e k w Hq Hk Hans Hfail)
    as (w1 & Hrun & Hdone & Hconn & Hcn & Hch & Hds & Hn & Hlast & _).
  do 2 eexists.
  rewrite (StartService_returns addr queue [] w w1 Serving true Hrun Hdone).
  split; [reflexivity|]. cbn [service set_trace ncalls].
  do 6 (split; [assumption || reflexivity|]).
  unfold last_events in *. cbn [List.length firstn trace set_trace rev app] in *.
  rewrite Hlast. reflexivity.
Qed.

Lemma failed_setup_is_reported_and_the_service_runs_on_witness :
  exists s w',
    StartService "amqp://broker" "q1" []
                 (Fixture.world ServiceDefaults (Fixture.refusing [3]))
    = Returns (Some s) w'
    /\ service w' = s
    /\ Connected s = true
    /\ connection s = Some 0
    /\ channel s = Some 2
    /\ DoneSignal s = Chan.Make 1 [false] false
    /\ ncalls w' = 4
    /\ last_events w'
         [EvSend DoneSignalC (VBool true);
          EvLog Notice "AMQP service started successfully";
          EvSend DoneSignalC (VBool false);
          EvLog Critical "Service did not start"].
Proof.
  apply (failed_setup_is_reported_and_the_service_runs_on
           (Fixture.world ServiceDefaults (Fixture.refusing [3]))
           "amqp://broker" "q1" "refused" 3).
  - discriminate.
  - lia.
  - intros j Hj.
    destruct j as [|[|[|j]]]; [reflexivity | reflexivity | reflexivity | lia].
  - reflexivity.
Defined.

(** X20. After such a start the service cannot be torn down. Stop
    makes the router leave its loop, but the [true] it then sends on
    [DoneSignal] finds the buffer taken by the [false] of the start: as
    long as the application does not receive from [DoneSignal], the
    goroutine stays parked in that send, and none of the deferred calls
    runs: the queue is not deleted, and neither the channel nor the
    connection is closed. *)
Theorem failed_setup_blocks_the_teardown :
  forall (w : World) (brokerAddress queueName e : string) (k : nat)
         (rest : list Ready),
    queueName <> EmptyString ->
    2 <= k <= 6 ->
    (forall j, j < k -> answer (broker w) (j + ncalls w) = None) ->
    answer (broker w) (k + ncalls w) = Some e ->
    exists s w' w3,
      StartService brokerAddress queueName [] w = Returns (Some s) w'
      /\ (Stop ;; serve (ncalls w) (channel s) (OnStopQueue :: rest)) w'
         = Blocks w3
      /\ ncalls w3 = ncalls w'.
Proof.
  intros w addr queue e k rest Hq Hk Hans Hfail.
  destruct (runAmqpService_setup_refused addr queue e k w Hq Hk Hans Hfail)
    as (w1 & Hrun & Hdone & _ & _ & _ & _ & _ & _ & Hstop).
  destruct (Hstop "Service did not start" rest) as (w3 & Hblocks & Hn).
  exists (service w1), (set_trace (EvLog Critical "Service did not start"
                                   :: trace w1) w1), w3.
  rewrite (StartService_returns addr queue [] w w1 Serving true Hrun Hdone).
  auto.
Qed.

Lemma failed_setup_blocks_the_teardown_witness :
  exists s w' w3,
    StartService "amqp://broker" "q1" []
                 (Fixture.world ServiceDefaults (Fixture.refusing [2]))
    = Returns (Some s) w'
    /\ (Stop ;; serve 0 (channel s) [OnStopQueue]) w' = Blocks w3
    /\ ncalls w3 = ncalls w'.
Proof.
  apply (failed_setup_blocks_the_teardown
           (Fixture.world ServiceDefaults (Fixture.refusing [2]))
           "amqp://broker" "q1" "refused" 2 []).
  - discriminate.
  - lia.
  - intros j Hj.
    destruct j as [|[|j]]; [reflexivity | reflexivity | lia].
  - reflexivity.
Defined.

Lemma runAmqpService_not_connected (brokerAddress queueName e1 e2 : string)
      (sched : list Ready) (w : World) :
  answer (broker w) (ncalls w) = Some e1 ->
  answer (broker w) (S (ncalls w)) = Some e2 ->
  exists w',
    runAmqpService sched (started brokerAddress queueName w)
    = Returns NotConnected w'
    /\ startCall w' = GotDone true
    /\ Connected (service w') = false
    /\ ncalls w' = S (S (ncalls w)).
Proof.
  intros H1 H2.
  enter_runAmqpService (started brokerAddress queueName w).
  clear Hpkg.
  destruct w as [svc [ans nm] h cd n u sc rc tr].
  cbn [broker answer ncalls] in *.
  destruct (first_error _);
    (eexists; split; [answer_calls; reflexivity|]);
    repeat split.
Qed.

(** X21. A start that failed at the dial is caught at the first
    subscription. After two refused dials StartService still hands the
    service back, so that a test of the result against nil passes; the
    Subscribe call that follows returns the not-connected error,
    without a call on the broker. *)
Theorem failed_start_is_caught_by_Subscribe :
  forall (w : World) (brokerAddress queueName routingKey e1 e2 : string)
         (sched : list Ready),
    answer (broker w) (ncalls w) = Some e1 ->
    answer (broker w) (S (ncalls w)) = Some e2 ->
    exists s w',
      StartService brokerAddress queueName sched w = Returns (Some s) w'
      /\ ncalls w' = S (S (ncalls w))
      /\ SubscribeToRequests routingKey w' = Returns (Some notConnected) w'
      /\ SubscribeToAlerts routingKey w' = Returns (Some notConnected) w'
      /\ SubscribeToInfos routingKey w' = Returns (Some notConnected) w'.
Proof.
  intros w addr queue key e1 e2 sched H1 H2.
  destruct (runAmqpService_not_connected addr queue e1 e2 sched w H1 H2)
    as (w1 & Hrun & Hdone & Hconn & Hn).
  do 2 eexists.
  rewrite (StartService_returns addr queue sched w w1 NotConnected true
                                Hrun Hdone).
  split; [reflexivity|]. split; [exact Hn|].
  unfold SubscribeToRequests, SubscribeToAlerts, SubscribeToInfos,
    subscribeTo, bind, gets.
  cbn [service set_trace]. rewrite Hconn. cbn. auto.
Qed.

Lemma failed_start_is_caught_by_Subscribe_witness :
  exists s w',
    StartService "amqp://broker" "q1" []
                 (Fixture.world ServiceDefaults (Fixture.refusing [0; 1]))
    = Returns (Some s) w'
    /\ ncalls w' = 2
    /\ SubscribeToRequests "q1.#" w' = Returns (Some notConnected) w'
    /\ SubscribeToAlerts "q1.#" w' = Returns (Some notConnected) w'
    /\ SubscribeToInfos "q1.#" w' = Returns (Some notConnected) w'.
Proof.
  exact (failed_start_is_caught_by_Subscribe
           (Fixture.world ServiceDefaults (Fixture.refusing [0; 1]))
           "amqp://broker" "q1" "q1.#" "refused" "refused" []
           eq_refl eq_refl).
Defined.


(** ** The service at work, from the start on *)

(** Solves [emitted w w' ?l] by computing both traces. *)
Ltac solve_emitted_computed :=
  lazymatch goal with
  | |- emitted ?w ?w' ?l =>
      let b := eval vm_compute in (trace w) in
      let t := eval vm_compute in (trace w') in
      let l' := peel t b (@nil Event) in
      unify l l'; unfold emitted; vm_compute; reflexivity
  end.

(** Starts the computation of a Subscribe function: the increment of
    the subscription count is kept folded, so that it is computed on
    the count only. *)
Ltac subscribe_step :=
  unfold SubscribeToRequests, SubscribeToAlerts, SubscribeToInfos, subscribeTo;
  let Hinc := fresh "Hinc" in
  assert (Hinc : int_incr 0 = 1%Z) by reflexivity;
  revert Hinc; generalize int_incr;
  let f := fresh "incr" in
  intros f Hinc.

Ltac open_world_fully w :=
  destruct w as [svc [ans nm] [exe hn usr uu] [dec eR eRp eA eI]
                     n u sc rc tr];
  cbn [broker answer assignedName codec decode EncodeRequest host
       uuid_New nuuid ncalls] in *;
  repeat match goal with
         | H' : _ = _ |- _ => progress (vm_compute in H')
         end.

Lemma afterStart_receives (brokerAddress queueName : string)
      (info : SenderInfo) (conn : ConnId) (l : list Event) (w : World)
      (routingKey : string) (d : Delivery) (request : Request) :
  queueName <> EmptyString ->
  answer (broker w) (9 + conn) = None ->
  answer (broker w) (10 + conn) = None ->
  decode (codec w) d = inl (DRequest request) ->
  let w1 := afterStart brokerAddress queueName info conn l w in
  exists w2 w3,
    SubscribeToRequests routingKey w1 = Returns None w2
    /\ serve conn (Some (2 + conn)) [OnStopQueue; OnMessageQueue (Some d)] w2
       = Returns Serving w3
    /\ buf (RequestChan (Receiver (service w3))) = [request]
    /\ messageQueue (Receiver (service w3)) = Some (10 + conn)
    /\ emitted w1 w3
         [EvCall (9 + conn)
                 (QueueBind (2 + conn) queueName routingKey "requests" false)
                 None;
          EvCall (10 + conn)
                 (Consume (2 + conn) queueName EmptyString
                          false true true false)
                 None;
          EvLog Debug "Started consuming on queue %s";
          EvSend stopQueueC (VBool false);
          EvLog Debug "Subscription established: ex(%s) @ rk(%s) --> q(%s)";
          EvLog Debug "Received on the stop queue, but it wasn't 'true'";
          EvCall (11 + conn) (Ack d false) (answer (broker w) (11 + conn));
          EvSend RequestChanC (VRequest request)].
Proof.
  intros Hq H9 H10 Hdec w1. subst w1.
  destruct queueName as [|a q]; [congruence|clear Hq].
  open_world_fully w.
  do 2 eexists.
  split; [subscribe_step; answer_calls; reflexivity|].
  split; [answer_calls; reflexivity|].
  repeat split.
Qed.

Lemma afterStart_stops (brokerAddress queueName : string)
      (info : SenderInfo) (conn : ConnId) (l : list Event) (w : World)
      (rest : list Ready) :
  let w1 := afterStart brokerAddress queueName info conn l w in
  exists w3 l',
    (Stop ;; serve conn (Some (2 + conn)) (OnStopQueue :: rest)) w1
    = Returns Stopped w3
    /\ DoneSignal (service w3) = Chan.Make 1 [true] false
    /\ Connected (service w3) = true
    /\ emitted w1 w3 l'
    /\ actions l'
       = [EvSend stopQueueC (VBool true);
          EvSend DoneSignalC (VBool true);
          EvCall (9 + conn)
                 (QueueDelete (2 + conn) queueName false false false)
                 (answer (broker w) (9 + conn));
          EvCall (10 + conn) (ChannelClose (2 + conn))
                 (answer (broker w) (10 + conn));
          EvCall (11 + conn) (ConnClose conn)
                 (answer (broker w) (11 + conn))].
Proof.
  intros w1. subst w1.
  open_world_fully w.
  destruct (ans (9 + conn)) as [e|] eqn:H9; vm_compute in H9;
    do 2 eexists;
    (split; [answer_calls; reflexivity|]);
    (split; [reflexivity|]); (split; [reflexivity|]);
    (split; [solve_emitted_computed|]);
    vm_compute; rewrite ?H9; reflexivity.
Qed.

Lemma afterStart_recovers (brokerAddress queueName : string)
      (info : SenderInfo) (conn : ConnId) (l : list Event) (w : World)
      (routingKey channelCanceled : string) (rest : list Ready) :
  queueName <> EmptyString ->
  (forall k, k < 13 -> answer (broker w) (k + (9 + conn)) = None) ->
  let w1 := afterStart brokerAddress queueName info conn l w in
  let ch := 11 + conn in
  exists w2 w3 l',
    SubscribeToRequests routingKey w1 = Returns None w2
    /\ serve conn (Some (2 + conn))
             (OnStopQueue :: OnChannelCancel (Some channelCanceled) :: rest) w2
       = Returns Stopped w3
    /\ channel (service w3) = Some ch
    /\ Connected (service w3) = true
    /\ emitted w2 w3 l'
    /\ actions l'
       = [EvCall (11 + conn) (ConnChannel conn) None;
          EvCall (12 + conn) (QueueDeclare ch queueName false true true false)
                 None;
          EvCall (13 + conn)
                 (Consume ch queueName EmptyString false true true false) None;
          EvSend stopQueueC (VBool false);
          EvCall (14 + conn)
                 (ExchangeDeclare ch "requests" "topic" false false false false)
                 None;
          EvCall (15 + conn)
                 (ExchangeDeclare ch "alerts" "topic" false false false false)
                 None;
          EvCall (16 + conn)
                 (ExchangeDeclare ch "requests" "topic" false false false false)
                 None;
          EvCall (17 + conn) (NotifyCancel ch) None;
          EvCall (18 + conn) (NotifyClose ch) None;
          EvSend DoneSignalC (VBool true);
          EvCall (19 + conn) (QueueDelete ch queueName false false false) None;
          EvCall (20 + conn) (ChannelClose (2 + conn)) None;
          EvCall (21 + conn) (ConnClose conn) None].
Proof.
  intros Hq Hans w1 ch. subst w1 ch.
  destruct queueName as [|a q]; [congruence|clear Hq].
  instances Hans 13.
  open_world_fully w.
  do 3 eexists.
  split; [subscribe_step; answer_calls; reflexivity|].
  split; [answer_calls; reflexivity|].
  split; [vm_compute; reflexivity|]. split; [vm_compute; reflexivity|].
  split; [solve_emitted_computed|].
  vm_compute. reflexivity.
Qed.

Lemma afterStart_sends (brokerAddress queueName : string)
      (info : SenderInfo) (conn : ConnId) (l : list Event) (w : World)
      (toSend : Request) (decodeErr : error) (encoded : Request)
      (body : list byte) :
  (forall k, k < 4 -> answer (broker w) (k + (9 + conn)) = None) ->
  EncodeRequest (codec w)
    (Request_set_ReplyTo toSend (assignedName (broker w) (10 + conn)))
  = (encoded, body, None) ->
  let w1 := afterStart brokerAddress queueName info conn l w in
  let replyQueue := assignedName (broker w) (10 + conn) in
  let m := RequestMessage encoded in
  exists w2 w3 l',
    RequestHandler (toSend, decodeErr) w1 = Returns tt w2
    /\ serve conn (Some (2 + conn)) [OnRequestChan] w2 = Returns Serving w3
    /\ replyChans w3 = replyChans w ++ [Chan.make Reply 1]
    /\ emitted w1 w3 l'
    /\ actions l'
       = [EvCall (9 + conn) (ConnChannel conn) None;
          EvCall (10 + conn)
                 (QueueDeclare (9 + conn) EmptyString false true true false)
                 None;
          EvCall (11 + conn)
                 (QueueBind (9 + conn) replyQueue replyQueue "requests" false)
                 None;
          EvCall (12 + conn)
                 (Consume (9 + conn) replyQueue EmptyString
                          false true true false)
                 None;
          EvSend requestChanC
                 (VRequest (Request_set_ReplyTo toSend replyQueue));
          EvCall (13 + conn)
                 (Publish (2 + conn) (exchange m) (Target m) false false
                          {| PubContentEncoding := Encoding m;
                             PubBody := body;
                             PubReplyTo := ReplyTo m;
                             PubCorrelationId :=
                               if String.eqb (CorrId m) EmptyString
                               then uuid_New (host w) (nuuid w)
                               else CorrId m |})
                 (answer (broker w) (13 + conn))].
Proof.
  intros Hans Henc w1 replyQueue m. subst w1 replyQueue m.
  instances Hans 4.
  destruct toSend as [[mt tg enc rt ci si ex] op pl].
  destruct encoded as [[mt' tg' enc' rt' ci' si' ex'] op' pl'].
  open_world_fully w.
  destruct (ans (13 + conn)) as [e|] eqn:H13; vm_compute in H13;
    destruct decodeErr as [decodeErr|]; destruct ci' as [|c0 ci'];
    do 3 eexists;
    (split; [answer_calls; reflexivity|]);
    (split; [answer_calls; reflexivity|]);
    (split; [vm_compute; reflexivity|]);
    (split; [solve_emitted_computed|]);
    vm_compute; rewrite ?H13; reflexivity.
Qed.

(** What StartService returns after the start of
    [runAmqpService_connects]. *)
Lemma StartService_serving (brokerAddress queueName : string) (w : World) :
  queueName <> EmptyString ->
  (forall k, k < 9 -> answer (broker w) (k + ncalls w) = None) ->
  exists info l,
    StartService brokerAddress queueName [] w
    = Returns
        (Some (service (afterStart brokerAddress queueName info (ncalls w) l w)))
        (afterStart brokerAddress queueName info (ncalls w) l w).
Proof.
  intros Hq Hans.
  destruct (runAmqpService_connects brokerAddress queueName w Hq Hans)
    as (info & _ & Hrun).
  do 2 eexists.
  exact (StartService_returns brokerAddress queueName [] w _ Serving false
                              Hrun eq_refl).
Qed.

(** X22. The receive path, from the start on. After a successful
    start, SubscribeToRequests binds the receive queue to the requests
    exchange, starts the one consumer and wakes the router with a
    [false] on the control channel; the router skips that sentinel,
    and, when a delivery arrives that decodes to a request,
    acknowledges it and hands the request to [RequestChan]. The result
    of the acknowledgement is not looked at. (The dispatch by kind is
    that of DecodeAndHandle, as the specification gives it.) *)
Theorem received_request_reaches_RequestChan :
  forall (w : World) (brokerAddress queueName routingKey : string)
         (d : Delivery) (request : Request),
    queueName <> EmptyString ->
    (forall k, k < 11 -> answer (broker w) (k + ncalls w) = None) ->
    decode (codec w) d = inl (DRequest request) ->
    let n := ncalls w in
    exists s w1 w2 w3,
      StartService brokerAddress queueName [] w = Returns (Some s) w1
      /\ SubscribeToRequests routingKey w1 = Returns None w2
      /\ serve n (Some (2 + n)) [OnStopQueue; OnMessageQueue (Some d)] w2
         = Returns Serving w3
      /\ buf (RequestChan (Receiver (service w3))) = [request]
      /\ messageQueue (Receiver (service w3)) = Some (10 + n)
      /\ emitted w1 w3
           [EvCall (9 + n)
                   (QueueBind (2 + n) queueName routingKey "requests" false)
                   None;
            EvCall (10 + n)
                   (Consume (2 + n) queueName EmptyString false true true false)
                   None;
            EvLog Debug "Started consuming on queue %s";
            EvSend stopQueueC (VBool false);
            EvLog Debug "Subscription established: ex(%s) @ rk(%s) --> q(%s)";
            EvLog Debug "Received on the stop queue, but it wasn't 'true'";
            EvCall (11 + n) (Ack d false) (answer (broker w) (11 + n));
            EvSend RequestChanC (VRequest request)].
Proof.
  intros w addr queue key d request Hq Hans Hdec n. subst n.
  destruct (StartService_serving addr queue w Hq) as (info & l & HS).
  { intros k Hk. apply Hans. lia. }
  destruct (afterStart_receives addr queue info (ncalls w) l w key d request
              Hq (Hans 9 ltac:(lia)) (Hans 10 ltac:(lia)) Hdec)
    as (w2 & w3 & H).
  do 4 eexists. split; [exact HS|]. exact H.
Qed.

Lemma received_request_reaches_RequestChan_witness :
  exists s w1 w2 w3,
    StartService "amqp://broker" "q1" []
                 (Fixture.world ServiceDefaults (Fixture.refusing []))
    = Returns (Some s) w1
    /\ SubscribeToRequests "q1.#" w1 = Returns None w2
    /\ serve 0 (Some 2)
             [OnStopQueue; OnMessageQueue (Some (Fixture.delivery 7 [x01]))] w2
       = Returns Serving w3
    /\ buf (RequestChan (Receiver (service w3))) = [Fixture.aRequest]
    /\ messageQueue (Receiver (service w3)) = Some 10
    /\ emitted w1 w3
         [EvCall 9 (QueueBind 2 "q1" "q1.#" "requests" false) None;
          EvCall 10 (Consume 2 "q1" EmptyString false true true false) None;
          EvLog Debug "Started consuming on queue %s";
          EvSend stopQueueC (VBool false);
          EvLog Debug "Subscription established: ex(%s) @ rk(%s) --> q(%s)";
          EvLog Debug "Received on the stop queue, but it wasn't 'true'";
          EvCall 11 (Ack (Fixture.delivery 7 [x01]) false) None;
          EvSend RequestChanC (VRequest Fixture.aRequest)].
Proof.
  apply (received_request_reaches_RequestChan
           (Fixture.world ServiceDefaults (Fixture.refusing []))
           "amqp://broker" "q1" "q1.#" (Fixture.delivery 7 [x01])
           Fixture.aRequest).
  - discriminate.
  - intros k _. reflexivity.
  - reflexivity.
Defined.

(** X23. A service that started is stopped by Stop: the router reads
    the [true] from the control channel and leaves the loop, whatever
    else is ready; [true] is sent on [DoneSignal], where it stays
    buffered; then the receive queue is deleted, the channel is closed
    and the connection is closed, in this order, each whatever the
    broker answered to the one before. [Connected] is still [true]
    afterwards. *)
Theorem Stop_after_start_tears_down :
  forall (w : World) (brokerAddress queueName : string) (rest : list Ready),
    queueName <> EmptyString ->
    (forall k, k < 9 -> answer (broker w) (k + ncalls w) = None) ->
    let n := ncalls w in
    exists s w1 w3 l,
      StartService brokerAddress queueName [] w = Returns (Some s) w1
      /\ (Stop ;; serve n (Some (2 + n)) (OnStopQueue :: rest)) w1
         = Returns Stopped w3
      /\ DoneSignal (service w3) = Chan.Make 1 [true] false
      /\ Connected (service w3) = true
      /\ emitted w1 w3 l
      /\ actions l
         = [EvSend stopQueueC (VBool true);
            EvSend DoneSignalC (VBool true);
            EvCall (9 + n) (QueueDelete (2 + n) queueName false false false)
                   (answer (broker w) (9 + n));
            EvCall (10 + n) (ChannelClose (2 + n))
                   (answer (broker w) (10 + n));
            EvCall (11 + n) (ConnClose n) (answer (broker w) (11 + n))].
Proof.
  intros w addr queue rest Hq Hans n. subst n.
  destruct (StartService_serving addr queue w Hq Hans) as (info & l & HS).
  destruct (afterStart_stops addr queue info (ncalls w) l w rest)
    as (w3 & l' & H).
  do 4 eexists. split; [exact HS|]. exact H.
Qed.

Lemma Stop_after_start_tears_down_witness :
  exists s w1 w3 l,
    StartService "amqp://broker" "q1" []
                 (Fixture.world ServiceDefaults (Fixture.refusing [9]))
    = Returns (Some s) w1
    /\ (Stop ;; serve 0 (Some 2) [OnStopQueue; OnRequestChan]) w1
       = Returns Stopped w3
    /\ DoneSignal (service w3) = Chan.Make 1 [true] false
    /\ Connected (service w3) = true
    /\ emitted w1 w3 l
    /\ actions l
       = [EvSend stopQueueC (VBool true);
          EvSend DoneSignalC (VBool true);
          EvCall 9 (QueueDelete 2 "q1" false false false) (Some "refused");
          EvCall 10 (ChannelClose 2) None;
          EvCall 11 (ConnClose 0) None].
Proof.
  apply (Stop_after_start_tears_down
           (Fixture.world ServiceDefaults (Fixture.refusing [9]))
           "amqp://broker" "q1" [OnRequestChan]).
  - discriminate.
  - intros k Hk.
    do 9 (destruct k as [|k]; [reflexivity|]). lia.
Defined.

(** X24. A canceled channel is set up again, and then the service
    stops. On a broker that accepts every call, the router answers the
    cancel notification by opening a second channel, on which it
    declares the receive queue again, starts a consumer again and
    declares the exchanges again; the queue is not bound again. The
    router then leaves its loop, and the teardown follows at once: the
    queue just declared is deleted through the second channel, the
    channel of the start is closed, the connection is closed. The
    second channel is never closed by a call of its own. *)
Theorem canceled_channel_is_reopened_then_shut_down :
  forall (w : World) (brokerAddress queueName routingKey channelCanceled : string)
         (rest : list Ready),
    queueName <> EmptyString ->
    (forall k, k < 22 -> answer (broker w) (k + ncalls w) = None) ->
    let n := ncalls w in
    let ch := 11 + n in
    exists s w1 w2 w3 l,
      StartService brokerAddress queueName [] w = Returns (Some s) w1
      /\ SubscribeToRequests routingKey w1 = Returns None w2
      /\ serve n (Some (2 + n))
               (OnStopQueue :: OnChannelCancel (Some channelCanceled) :: rest) w2
         = Returns Stopped w3
      /\ channel (service w3) = Some ch
      /\ Connected (service w3) = true
      /\ emitted w2 w3 l
      /\ actions l
         = [EvCall (11 + n) (ConnChannel n) None;
            EvCall (12 + n) (QueueDeclare ch queueName false true true false)
                   None;
            EvCall (13 + n)
                   (Consume ch queueName EmptyString false true true false)
                   None;
            EvSend stopQueueC (VBool false);
            EvCall (14 + n)
                   (ExchangeDeclare ch "requests" "topic" false false false false)
                   None;
            EvCall (15 + n)
                   (ExchangeDeclare ch "alerts" "topic" false false false false)
                   None;
            EvCall (16 + n)
                   (ExchangeDeclare ch "requests" "topic" false false false false)
                   None;
            EvCall (17 + n) (NotifyCancel ch) None;
            EvCall (18 + n) (NotifyClose ch) None;
            EvSend DoneSignalC (VBool true);
            EvCall (19 + n) (QueueDelete ch queueName false false false) None;
            EvCall (20 + n) (ChannelClose (2 + n)) None;
            EvCall (21 + n) (ConnClose n) None].
Proof.
  intros w addr queue key tag rest Hq Hans n ch. subst n ch.
  destruct (StartService_serving addr queue w Hq) as (info & l & HS).
  { intros k Hk. apply Hans. lia. }
  destruct (afterStart_recovers addr queue info (ncalls w) l w key tag rest Hq)
    as (w2 & w3 & l' & H).
  { intros k Hk. rewrite Nat.add_assoc. apply Hans. lia. }
  do 5 eexists. split; [exact HS|]. exact H.
Qed.

Lemma canceled_channel_is_reopened_then_shut_down_witness :
  exists s w1 w2 w3 l,
    StartService "amqp://broker" "q1" []
                 (Fixture.world ServiceDefaults (Fixture.refusing []))
    = Returns (Some s) w1
    /\ SubscribeToRequests "q1.#" w1 = Returns None w2
    /\ serve 0 (Some 2) [OnStopQueue; OnChannelCancel (Some "ctag")] w2
       = Returns Stopped w3
    /\ channel (service w3) = Some 11
    /\ Connected (service w3) = true
    /\ emitted w2 w3 l
    /\ actions l
       = [EvCall 11 (ConnChannel 0) None;
          EvCall 12 (QueueDeclare 11 "q1" false true true false) None;
          EvCall 13 (Consume 11 "q1" EmptyString false true true false) None;
          EvSend stopQueueC (VBool false);
          EvCall 14
                 (ExchangeDeclare 11 "requests" "topic" false false false false)
                 None;
          EvCall 15
                 (ExchangeDeclare 11 "alerts" "topic" false false false false)
                 None;
          EvCall 16
                 (ExchangeDeclare 11 "requests" "topic" false false false false)
                 None;
          EvCall 17 (NotifyCancel 11) None;
          EvCall 18 (NotifyClose 11) None;
          EvSend DoneSignalC (VBool true);
          EvCall 19 (QueueDelete 11 "q1" false false false) None;
          EvCall 20 (ChannelClose 2) None;
          EvCall 21 (ConnClose 0) None].
Proof.
  apply (canceled_channel_is_reopened_then_shut_down
           (Fixture.world ServiceDefaults (Fixture.refusing []))
           "amqp://broker" "q1" "q1.#" "ctag" []).
  - discriminate.
  - intros k _. reflexivity.
Defined.

(** X25. The send path of the HTTP bridge, from the start on.
    RequestHandler sends what the JSON decoder left in the request,
    whether or not the decoding succeeded: SendRequest sets up the
    reply queue, stamps its name on the request as the reply-to key and
    enqueues the request; the router then takes it, encodes it and
    publishes it once on the channel of the start, to the exchange and
    the routing key of the encoded message, with a fresh uuid as
    correlation id when the message has none. The result channel that
    SendRequest made is dropped by the handler. *)
Theorem RequestHandler_request_is_published :
  forall (w : World) (brokerAddress queueName : string) (toSend : Request)
         (decodeErr : error) (encoded : Request) (body : list byte),
    queueName <> EmptyString ->
    (forall k, k < 13 -> answer (broker w) (k + ncalls w) = None) ->
    EncodeRequest (codec w)
      (Request_set_ReplyTo toSend (assignedName (broker w) (10 + ncalls w)))
    = (encoded, body, None) ->
    let n := ncalls w in
    let replyQueue := assignedName (broker w) (10 + n) in
    let m := RequestMessage encoded in
    exists s w1 w2 w3 l,
      StartService brokerAddress queueName [] w = Returns (Some s) w1
      /\ RequestHandler (toSend, decodeErr) w1 = Returns tt w2
      /\ serve n (Some (2 + n)) [OnRequestChan] w2 = Returns Serving w3
      /\ replyChans w3 = replyChans w ++ [Chan.make Reply 1]
      /\ emitted w1 w3 l
      /\ actions l
         = [EvCall (9 + n) (ConnChannel n) None;
            EvCall (10 + n)
                   (QueueDeclare (9 + n) EmptyString false true true false)
                   None;
            EvCall (11 + n)
                   (QueueBind (9 + n) replyQueue replyQueue "requests" false)
                   None;
            EvCall (12 + n)
                   (Consume (9 + n) replyQueue EmptyString
                            false true true false)
                   None;
            EvSend requestChanC
                   (VRequest (Request_set_ReplyTo toSend replyQueue));
            EvCall (13 + n)
                   (Publish (2 + n) (exchange m) (Target m) false false
                            {| PubContentEncoding := Encoding m;
                               PubBody := body;
                               PubReplyTo := ReplyTo m;
                               PubCorrelationId :=
                                 if String.eqb (CorrId m) EmptyString
                                 then uuid_New (host w) (nuuid w)
                                 else CorrId m |})
                   (answer (broker w) (13 + n))].
Proof.
  intros w addr queue toSend decodeErr encoded body Hq Hans Henc n replyQueue m.
  subst n replyQueue m.
  destruct (StartService_serving addr queue w Hq) as (info & l & HS).
  { intros k Hk. apply Hans. lia. }
  destruct (afterStart_sends addr queue info (ncalls w) l w toSend decodeErr
                             encoded body)
    as (w2 & w3 & l' & H).
  { intros k Hk. rewrite Nat.add_assoc. apply Hans. lia. }
  { exact Henc. }
  do 5 eexists. split; [exact HS|]. exact H.
Qed.

Lemma RequestHandler_request_is_published_witness :
  exists s w1 w2 w3 l,
    StartService "amqp://broker" "q1" []
                 (Fixture.world ServiceDefaults (Fixture.refusing []))
    = Returns (Some s) w1
    /\ RequestHandler (Fixture.aRequest, Some "unexpected end of JSON input") w1
       = Returns tt w2
    /\ serve 0 (Some 2) [OnRequestChan] w2 = Returns Serving w3
    /\ replyChans w3 = [Chan.make Reply 1]
    /\ emitted w1 w3 l
    /\ actions l
       = [EvCall 9 (ConnChannel 0) None;
          EvCall 10 (QueueDeclare 9 EmptyString false true true false) None;
          EvCall 11 (QueueBind 9 "amq.gen-1" "amq.gen-1" "requests" false) None;
          EvCall 12 (Consume 9 "amq.gen-1" EmptyString false true true false)
                 None;
          EvSend requestChanC
                 (VRequest (Request_set_ReplyTo Fixture.aRequest "amq.gen-1"));
          EvCall 13
                 (Publish 2 "requests" "q1.cmd" false false
                          {| PubContentEncoding := "application/json";
                             PubBody := [x01];
                             PubReplyTo := "amq.gen-1";
                             PubCorrelationId := "c-1" |})
                 None].
Proof.
  apply (RequestHandler_request_is_published
           (Fixture.world ServiceDefaults (Fixture.refusing []))
           "amqp://broker" "q1" Fixture.aRequest
           (Some "unexpected end of JSON input")
           (Request_set_ReplyTo Fixture.aRequest "amq.gen-1") [x01]).
  - discriminate.
  - intros k _. reflexivity.
  - reflexivity.
Defined.

(** ** A service without a receive queue *)

Lemma runAmqpService_without_queue (brokerAddress : string) (w : World)
      (rest : list Ready) :
  (forall k, k < 8 -> answer (broker w) (k + ncalls w) = None) ->
  let n := ncalls w in
  let ch := 2 + n in
  exists w1 w3 l,
    runAmqpService [] (started brokerAddress EmptyString w) = Returns Serving w1
    /\ startCall w1 = GotDone false
    /\ Connected (service w1) = true
    /\ emitted w w1
         (senderInfoWarning (host w)
          ++ [EvCall n (Dial brokerAddress) None;
              EvLog Debug "Connected to AMQP broker (%s)";
              EvCall (1 + n) (ConnNotifyClose n) None;
              EvCall (2 + n) (ConnChannel n) None;
              EvLog Debug "Channel with AMQP broker established";
              EvCall (3 + n)
                     (ExchangeDeclare ch "requests" "topic"
                                      false false false false) None;
              EvLog Debug "Requests exchange is ready";
              EvCall (4 + n)
                     (ExchangeDeclare ch "alerts" "topic"
                                      false false false false) None;
              EvLog Debug "Alerts exchange is ready";
              EvCall (5 + n)
                     (ExchangeDeclare ch "requests" "topic"
                                      false false false false) None;
              EvLog Debug "Infos exchange is ready";
              EvCall (6 + n) (NotifyCancel ch) None;
              EvCall (7 + n) (NotifyClose ch) None;
              EvLog LInfo "AMQP service ready to send messages";
              EvLog Notice "AMQP service started successfully";
              EvSend DoneSignalC (VBool false)])
    /\ (Stop ;; serve n (Some ch) (OnStopQueue :: rest)) w1 = Returns Stopped w3
    /\ emitted w1 w3 l
    /\ actions l
       = [EvSend stopQueueC (VBool true);
          EvSend DoneSignalC (VBool true);
          EvCall (8 + n) (QueueDelete ch EmptyString false false false)
                 (answer (broker w) (8 + n));
          EvCall (9 + n) (ChannelClose ch) (answer (broker w) (9 + n));
          EvCall (10 + n) (ConnClose n) (answer (broker w) (10 + n))].
Proof.
  intros Hans n ch. subst n ch.
  rewrite senderInfoWarning_first_error.
  enter_runAmqpService (started brokerAddress EmptyString w).
  clear Hpkg.
  change (host (started brokerAddress EmptyString w)) with (host w).
  instances Hans 8.
  destruct w as [svc [ans nm] h cd n u sc rc tr].
  cbn [broker answer ncalls host] in *.
  repeat match goal with
         | H' : _ = _ |- _ => progress (vm_compute in H')
         end.
  destruct (ans (8 + n)) as [e|] eqn:H8; vm_compute in H8;
    destruct (first_error _);
    do 3 eexists;
    (split; [answer_calls; reflexivity|]);
    (split; [vm_compute; reflexivity|]);
    (split; [vm_compute; reflexivity|]);
    (split; [vm_compute; reflexivity|]);
    (split; [answer_calls; reflexivity|]);
    (split; [solve_emitted_computed|]);
    vm_compute; rewrite ?H8; reflexivity.
Qed.

(** X26. StartService with an empty queue name gives a service that
    only sends: on a broker that accepts the dial and the seven calls
    of the setup, no queue is declared and nothing is logged about
    receiving; the channel, the three exchanges and the notifications
    are set up as usual, and the start is reported as successful. The
    teardown does not know: when the service is stopped, it still asks
    the broker to delete the queue, by the empty name, before it closes
    the channel and the connection. *)
Theorem StartService_without_queue_still_deletes_one :
  forall (w : World) (brokerAddress : string) (rest : list Ready),
    (forall k, k < 8 -> answer (broker w) (k + ncalls w) = None) ->
    let n := ncalls w in
    let ch := 2 + n in
    exists s w1 w3 l,
      StartService brokerAddress EmptyString [] w = Returns (Some s) w1
      /\ Connected s = true
      /\ emitted w w1
           (senderInfoWarning (host w)
            ++ [EvCall n (Dial brokerAddress) None;
                EvLog Debug "Connected to AMQP broker (%s)";
                EvCall (1 + n) (ConnNotifyClose n) None;
                EvCall (2 + n) (ConnChannel n) None;
                EvLog Debug "Channel with AMQP broker established";
                EvCall (3 + n)
                       (ExchangeDeclare ch "requests" "topic"
                                        false false false false) None;
                EvLog Debug "Requests exchange is ready";
                EvCall (4 + n)
                       (ExchangeDeclare ch "alerts" "topic"
                                        false false false false) None;
                EvLog Debug "Alerts exchange is ready";
                EvCall (5 + n)
                       (ExchangeDeclare ch "requests" "topic"
                                        false false false false) None;
                EvLog Debug "Infos exchange is ready";
                EvCall (6 + n) (NotifyCancel ch) None;
                EvCall (7 + n) (NotifyClose ch) None;
                EvLog LInfo "AMQP service ready to send messages";
                EvLog Notice "AMQP service started successfully";
                EvSend DoneSignalC (VBool false)])
      /\ (Stop ;; serve n (Some ch) (OnStopQueue :: rest)) w1
         = Returns Stopped w3
      /\ emitted w1 w3 l
      /\ actions l
         = [EvSend stopQueueC (VBool true);
            EvSend DoneSignalC (VBool true);
            EvCall (8 + n) (QueueDelete ch EmptyString false false false)
                   (answer (broker w) (8 + n));
            EvCall (9 + n) (ChannelClose ch) (answer (broker w) (9 + n));
            EvCall (10 + n) (ConnClose n) (answer (broker w) (10 + n))].
Proof.
  intros w addr rest Hans n ch. subst n ch.
  destruct (runAmqpService_without_queue addr w rest Hans)
    as (w1 & w3 & l & Hrun & Hdone & Hconn & H).
  exists (service w1), w1, w3, l.
  rewrite (StartService_returns addr EmptyString [] w w1 Serving false
                                Hrun Hdone).
  split; [reflexivity|]. split; [exact Hconn|]. exact H.
Qed.

Lemma StartService_without_queue_still_deletes_one_witness :
  exists s w1 w3 l,
    StartService "amqp://broker" EmptyString []
                 (Fixture.world ServiceDefaults (Fixture.refusing []))
    = Returns (Some s) w1
    /\ Connected s = true
    /\ emitted (Fixture.world ServiceDefaults (Fixture.refusing [])) w1
         [EvCall 0 (Dial "amqp://broker") None;
          EvLog Debug "Connected to AMQP broker (%s)";
          EvCall 1 (ConnNotifyClose 0) None;
          EvCall 2 (ConnChannel 0) None;
          EvLog Debug "Channel with AMQP broker established";
          EvCall 3 (ExchangeDeclare 2 "requests" "topic"
                                    false false false false) None;
          EvLog Debug "Requests exchange is ready";
          EvCall 4 (ExchangeDeclare 2 "alerts" "topic"
                                    false false false false) None;
          EvLog Debug "Alerts exchange is ready";
          EvCall 5 (ExchangeDeclare 2 "requests" "topic"
                                    false false false false) None;
          EvLog Debug "Infos exchange is ready";
          EvCall 6 (NotifyCancel 2) None;
          EvCall 7 (NotifyClose 2) None;
          EvLog LInfo "AMQP service ready to send messages";
          EvLog Notice "AMQP service started successfully";
          EvSend DoneSignalC (VBool false)]
    /\ (Stop ;; serve 0 (Some 2) [OnStopQueue]) w1 = Returns Stopped w3
    /\ emitted w1 w3 l
    /\ actions l
       = [EvSend stopQueueC (VBool true);
          EvSend DoneSignalC (VBool true);
          EvCall 8 (QueueDelete 2 EmptyString false false false) None;
          EvCall 9 (ChannelClose 2) None;
          EvCall 10 (ConnClose 0) None].
Proof.
  apply (StartService_without_queue_still_deletes_one
           (Fixture.world ServiceDefaults (Fixture.refusing []))
           "amqp://broker" []).
  intros k _. reflexivity.
Defined.
